(** * MAD Foundation website backend: form intake, duplicate guard,
      reference codes and status updates

    A shallow embedding of the Express/Mongoose controllers and models of
    the backend, with the properties of its specification stated over it.

    Layout:
    - [Text]: the JavaScript string built-ins the code calls, and the regular
      expressions it tests, on strings of 8-bit code units;
    - JavaScript values of request bodies, stored documents, collections;
    - a model of the Mongoose operations the controllers use
      (create, save, findOne, findByIdAndUpdate) driven by schema descriptions;
    - the models (schemas and pre-save hooks) and the controllers;
    - the properties. *)

From Stdlib Require Import ZArith QArith Qround Lqa List String Ascii Bool Lia.
From stdpp Require Import gmap strings list fin_maps.

Local Open Scope string_scope.
Local Open Scope list_scope.
Local Open Scope nat_scope.

Set Warnings "-register-all".

(* ===================================================================== *)
(** ** JavaScript strings *)
(* ===================================================================== *)

(** A JavaScript string is modelled as a [string] whose characters are the
    code units below 256; [String.length] is then the [length] property. *)
Module Text.

Definition code (c : ascii) : N := N_of_ascii c.

Definition between (lo hi : N) (c : ascii) : bool :=
  (lo <=? code c)%N && (code c <=? hi)%N.

Definition isCode (n : N) (c : ascii) : bool := (code c =? n)%N.

(** [\d] *)
Definition isDigit (c : ascii) : bool := between 48 57 c.
Definition isUpper (c : ascii) : bool := between 65 90 c.
Definition isLower (c : ascii) : bool := between 97 122 c.

(** [\w] is [[A-Za-z0-9_]], also under the [i] flag. *)
Definition isWord (c : ascii) : bool :=
  isUpper c || isLower c || isDigit c || isCode 95 c.

(** [\s], and the characters [trim] strips: TAB, LF, VT, FF, CR, space and
    the no-break space are the ones below 256. *)
Definition isSpace (c : ascii) : bool :=
  between 9 13 c || isCode 32 c || isCode 160 c.

(** Line terminators, which [.] does not match. *)
Definition isLineTerminator (c : ascii) : bool := isCode 10 c || isCode 13 c.

Definition lowerChar (c : ascii) : ascii :=
  if isUpper c || between 192 214 c || between 216 222 c
  then ascii_of_N (code c + 32) else c.

(** Only ever applied to the radix-36 text of a number, whose letters are
    [a-z]. *)
Definition upperChar (c : ascii) : ascii :=
  if isLower c then ascii_of_N (code c - 32) else c.

Fixpoint mapChars (f : ascii -> ascii) (s : string) : string :=
  match s with
  | EmptyString => EmptyString
  | String c r => String (f c) (mapChars f r)
  end.

Definition toLowerCase : string -> string := mapChars lowerChar.
Definition toUpperCase : string -> string := mapChars upperChar.

Fixpoint allChars (p : ascii -> bool) (s : string) : bool :=
  match s with
  | EmptyString => true
  | String c r => p c && allChars p r
  end.

(** [s.replace(/[...]/g, '')] for a character class. *)
Fixpoint removeChars (p : ascii -> bool) (s : string) : string :=
  match s with
  | EmptyString => EmptyString
  | String c r => if p c then removeChars p r else String c (removeChars p r)
  end.

Fixpoint trimStart (s : string) : string :=
  match s with
  | EmptyString => EmptyString
  | String c r => if isSpace c then trimStart r else s
  end.

(** Drops the trailing white space: a character is kept when something
    that is not white space follows it, or when it is not white space. *)
Fixpoint trimEnd (s : string) : string :=
  match s with
  | EmptyString => EmptyString
  | String c r =>
      match trimEnd r with
      | EmptyString => if isSpace c then EmptyString else String c EmptyString
      | r' => String c r'
      end
  end.

Definition trim (s : string) : string := trimEnd (trimStart s).

(** [s.substring(a, b)] for [a <= b]. *)
Definition substring (a b : nat) (s : string) : string :=
  String.substring a (b - a) s.

(** [s.slice(-n)]: the last [n] characters, all of [s] when it is shorter. *)
Definition sliceLast (n : nat) (s : string) : string :=
  String.substring (String.length s - n) n s.

(** Case-insensitive test that [s] starts with the lower-case literal [lit]. *)
Fixpoint startsWithCI (lit s : string) : bool :=
  match lit, s with
  | EmptyString, _ => true
  | String a l, String c r => Ascii.eqb a (lowerChar c) && startsWithCI l r
  | String _ _, EmptyString => false
  end.

(** [s.includes(lit)] *)
Fixpoint includes (lit s : string) : bool :=
  String.prefix lit s ||
  match s with
  | EmptyString => false
  | String _ r => includes lit r
  end.

(** [s.replace(/javascript:/gi, '')]: every occurrence found scanning from
    the left is dropped; [skip] counts the characters of the current match
    still to be dropped. *)
Fixpoint dropScheme (skip : nat) (s : string) : string :=
  match s with
  | EmptyString => EmptyString
  | String c r =>
      match skip with
      | S k => dropScheme k r
      | O => if startsWithCI "javascript:" s then dropScheme 10 r
             else String c (dropScheme 0 r)
      end
  end.

(** Length of the longest run of word characters at the head of [s]. *)
Fixpoint wordRun (s : string) : nat :=
  match s with
  | String c r => if isWord c then S (wordRun r) else 0
  | EmptyString => 0
  end.

(** Length of the match of [/on\w+=/i] at the head of [s], if there is one.
    [\w+] is greedy and [=] is not a word character, so the match is [on],
    the whole run of word characters behind it (at least one) and the [=]
    that must follow the run. *)
Definition handlerMatch (s : string) : option nat :=
  if startsWithCI "on" s then
    let rest := String.substring 2 (String.length s - 2) s in
    let k := wordRun rest in
    if (1 <=? k) && String.prefix "=" (String.substring k 1 rest)
    then Some (2 + k + 1) else None
  else None.

(** [s.replace(/on\w+=/gi, '')] *)
Fixpoint dropHandlers (skip : nat) (s : string) : string :=
  match s with
  | EmptyString => EmptyString
  | String c r =>
      match skip with
      | S k => dropHandlers k r
      | O => match handlerMatch s with
             | Some n => dropHandlers (n - 1) r
             | None => String c (dropHandlers 0 r)
             end
      end
  end.

Definition digit36 (d : N) : ascii :=
  if (d <? 10)%N then ascii_of_N (48 + d) else ascii_of_N (97 + (d - 10)).

(** Radix-36 digits of the fraction [m / 2^e], for [m < 2^e]. A digit
    multiplies the fraction by [36 = 4 * 9], which takes two from the
    exponent of the denominator, so [e] digits are more than enough. *)
Fixpoint fraction36 (fuel : nat) (m e : N) : string :=
  match fuel with
  | O => EmptyString
  | S f =>
      if (m =? 0)%N then EmptyString
      else String (digit36 ((36 * m) / 2 ^ e))
                  (fraction36 f ((36 * m) mod 2 ^ e) e)
  end.

(** [x.toString(36)] for the double [x = m / 2^e] in [[0, 1)], when its
    radix-36 expansion is short enough to be printed in full (an engine
    stops once the digits printed identify the double, near the eleventh
    digit). *)
Definition radix36 (m e : N) : string :=
  if (m =? 0)%N then "0"
  else String "0" (String "." (fraction36 (N.to_nat e) m e)).

(** Decimal digits of a natural number, most significant first; [fuel]
    bounds the number of digits. *)
Fixpoint digitsFrom (fuel : nat) (n : N) (acc : string) : string :=
  match fuel with
  | O => acc
  | S f =>
      let acc' := String (ascii_of_N (48 + n mod 10)) acc in
      if (n / 10 =? 0)%N then acc' else digitsFrom f (n / 10)%N acc'
  end.

Definition decimalN (n : N) : string :=
  digitsFrom (S (N.to_nat (N.log2 n))) n EmptyString.

(** [z.toString()] for an integer-valued number below [10^21] in magnitude. *)
Definition decimalZ (z : Z) : string :=
  match z with
  | Zneg p => String "-" (decimalN (Npos p))
  | _ => decimalN (Z.to_N z)
  end.

End Text.

(* ===================================================================== *)
(** ** Regular expressions *)
(* ===================================================================== *)

(** The patterns the code tests are all anchored at both ends ([^...$],
    no [m] flag), so [test] is a match of the whole string. It is decided
    with derivatives; [lang] below is the meaning of a pattern. *)
Module Regex.

(** The members of a bracketed class. *)
Inductive atom :=
| ADigit                      (* \d *)
| AWord                       (* \w *)
| ASpace                      (* \s *)
| AChar (c : ascii)
| ARange (lo hi : ascii).

Inductive t :=
| Void
| Eps
| Class (negated : bool) (atoms : list atom)   (* [...] and [^...] *)
| Seq (r s : t)
| Alt (r s : t)
| Star (r : t).

Definition atomHas (a : atom) (c : ascii) : bool :=
  match a with
  | ADigit => Text.isDigit c
  | AWord => Text.isWord c
  | ASpace => Text.isSpace c
  | AChar x => Ascii.eqb x c
  | ARange lo hi => Text.between (Text.code lo) (Text.code hi) c
  end.

Definition classHas (negated : bool) (atoms : list atom) (c : ascii) : bool :=
  xorb negated (existsb (fun a => atomHas a c) atoms).

Definition atom_eqb (a b : atom) : bool :=
  match a, b with
  | ADigit, ADigit | AWord, AWord | ASpace, ASpace => true
  | AChar x, AChar y => Ascii.eqb x y
  | ARange l h, ARange l' h' => Ascii.eqb l l' && Ascii.eqb h h'
  | _, _ => false
  end.

Fixpoint atoms_eqb (l m : list atom) : bool :=
  match l, m with
  | [], [] => true
  | a :: l', b :: m' => atom_eqb a b && atoms_eqb l' m'
  | _, _ => false
  end.

Fixpoint eqb (r s : t) : bool :=
  match r, s with
  | Void, Void | Eps, Eps => true
  | Class n l, Class n' l' => Bool.eqb n n' && atoms_eqb l l'
  | Seq a b, Seq a' b' => eqb a a' && eqb b b'
  | Alt a b, Alt a' b' => eqb a a' && eqb b b'
  | Star a, Star a' => eqb a a'
  | _, _ => false
  end.

Fixpoint nullable (r : t) : bool :=
  match r with
  | Void => false
  | Eps => true
  | Class _ _ => false
  | Seq a b => nullable a && nullable b
  | Alt a b => nullable a || nullable b
  | Star _ => true
  end.

(** Constructors that keep derivatives small. *)
Definition seq (r s : t) : t :=
  match r, s with
  | Void, _ => Void
  | _, Void => Void
  | Eps, _ => s
  | _, Eps => r
  | _, _ => Seq r s
  end.

Definition alt (r s : t) : t :=
  match r, s with
  | Void, _ => s
  | _, Void => r
  | _, _ => if eqb r s then r else Alt r s
  end.

Fixpoint deriv (c : ascii) (r : t) : t :=
  match r with
  | Void => Void
  | Eps => Void
  | Class n l => if classHas n l c then Eps else Void
  | Seq a b =>
      if nullable a then alt (seq (deriv c a) b) (deriv c b)
      else seq (deriv c a) b
  | Alt a b => alt (deriv c a) (deriv c b)
  | Star a => seq (deriv c a) (Star a)
  end.

(** [/^r$/.test(s)] *)
Fixpoint test (r : t) (s : string) : bool :=
  match s with
  | EmptyString => nullable r
  | String c w => test (deriv c r) w
  end.

(** Pattern syntax. *)
Definition chr (c : ascii) : t := Class false [AChar c].
Definition digit : t := Class false [ADigit].           (* \d, [0-9] *)
Definition word : t := Class false [AWord].             (* \w *)
Definition plus (r : t) : t := Seq r (Star r).          (* r+ *)
Definition opt (r : t) : t := Alt Eps r.                (* r? *)

Fixpoint lit (s : string) : t :=
  match s with
  | EmptyString => Eps
  | String c w => Seq (chr c) (lit w)
  end.

(** [r{n}] *)
Fixpoint times (n : nat) (r : t) : t :=
  match n with
  | O => Eps
  | S k => Seq r (times k r)
  end.

(** [r{0,n}] *)
Fixpoint upTo (n : nat) (r : t) : t :=
  match n with
  | O => Eps
  | S k => opt (Seq r (upTo k r))
  end.

(** [r{n,m}] and [r{n,}] *)
Definition bounded (n m : nat) (r : t) : t := Seq (times n r) (upTo (m - n) r).
Definition atLeast (n : nat) (r : t) : t := Seq (times n r) (Star r).

(** The strings a pattern matches. *)
Inductive lang : t -> string -> Prop :=
| LEps : lang Eps EmptyString
| LClass n l c : classHas n l c = true -> lang (Class n l) (String c EmptyString)
| LSeq r s u v : lang r u -> lang s v -> lang (Seq r s) (u +:+ v)
| LAltL r s u : lang r u -> lang (Alt r s) u
| LAltR r s u : lang s u -> lang (Alt r s) u
| LStarNil r : lang (Star r) EmptyString
| LStarApp r u v : lang r u -> lang (Star r) v -> lang (Star r) (u +:+ v).

End Regex.

(* ===================================================================== *)
(** ** JavaScript values *)
(* ===================================================================== *)

(** Numbers. A finite double is represented by the rational it denotes;
    comparison with the constants of the code is then exact. *)
Inductive JsNum :=
| NaN
| PosInf
| NegInf
| Fin (q : Q).

(** The values a parsed request body holds (nested objects are left out). *)
Inductive JsVal :=
| JUndefined
| JNull
| JBool (b : bool)
| JNum (n : JsNum)
| JStr (s : string)
| JArr (l : list JsVal).

(** Number conversions of the engine that are not code of this repository:
    they are parameters of the development, which holds for every engine. *)
Class Engine := {
  NumberToString : JsNum -> string;   (* String(n), n.toString() *)
  StringToNumber : string -> JsNum;   (* Number(s) *)
  parseIntOf : string -> JsNum;       (* parseInt(s) *)
}.

Definition isNaN (n : JsNum) : bool :=
  match n with NaN => true | _ => false end.

(** [a < b], [a <= b], [a > b], [a === b] on numbers; false when [NaN] is
    involved. *)
Definition numLt (a b : JsNum) : bool :=
  match a, b with
  | NaN, _ | _, NaN => false
  | _, NegInf | PosInf, _ => false
  | NegInf, _ | _, PosInf => true
  | Fin x, Fin y => negb (Qle_bool y x)
  end.

Definition numLe (a b : JsNum) : bool :=
  match a, b with
  | NaN, _ | _, NaN => false
  | NegInf, _ | _, PosInf => true
  | _, NegInf | PosInf, _ => false
  | Fin x, Fin y => Qle_bool x y
  end.

Definition numGt (a b : JsNum) : bool := numLt b a.
Definition numGe (a b : JsNum) : bool := numLe b a.

Definition numEq (a b : JsNum) : bool :=
  match a, b with
  | PosInf, PosInf | NegInf, NegInf => true
  | Fin x, Fin y => Qeq_bool x y
  | _, _ => false
  end.

Definition ofZ (z : Z) : JsNum := Fin (inject_Z z).

(** [!!v] *)
Definition truthy (v : JsVal) : bool :=
  match v with
  | JUndefined | JNull => false
  | JBool b => b
  | JNum NaN => false
  | JNum (Fin q) => negb (Qeq_bool q 0)
  | JNum _ => true
  | JStr s => negb (String.eqb s "")
  | JArr _ => true
  end.

(** [a || b] *)
Definition orElse (a b : JsVal) : JsVal := if truthy a then a else b.

Section WithEngine.
Context `{Engine}.

(** [String(v)]; an array is the join of its elements with commas, [null]
    and [undefined] elements giving the empty string. *)
Fixpoint ToString (v : JsVal) : string :=
  match v with
  | JUndefined => "undefined"
  | JNull => "null"
  | JBool true => "true"
  | JBool false => "false"
  | JNum n => NumberToString n
  | JStr s => s
  | JArr l =>
      (fix join (l : list JsVal) : string :=
         match l with
         | [] => ""
         | x :: r =>
             let e := match x with
                      | JUndefined | JNull => ""
                      | _ => ToString x
                      end in
             match r with
             | [] => e
             | _ => e +:+ "," +:+ join r
             end
         end) l
  end.

(** [Number(v)] *)
Definition ToNumber (v : JsVal) : JsNum :=
  match v with
  | JUndefined => NaN
  | JNull => ofZ 0
  | JBool true => ofZ 1
  | JBool false => ofZ 0
  | JNum n => n
  | JStr s => StringToNumber s
  | JArr _ => StringToNumber (ToString v)
  end.

(** [parseInt(v)] *)
Definition parseInt (v : JsVal) : JsNum := parseIntOf (ToString v).

End WithEngine.

(** [v.length]: defined on strings and arrays, [undefined] elsewhere. *)
Definition lengthOf (v : JsVal) : option nat :=
  match v with
  | JStr s => Some (String.length s)
  | JArr l => Some (List.length l)
  | _ => None
  end.

(** [v.length < n] and [v.length > n]; comparing [undefined] is false. *)
Definition lengthLt (v : JsVal) (n : nat) : bool :=
  match lengthOf v with Some k => k <? n | None => false end.

Definition lengthGt (v : JsVal) (n : nat) : bool :=
  match lengthOf v with Some k => n <? k | None => false end.

(** [v.toLowerCase()]: a [TypeError] ([None]) unless [v] is a string. *)
Definition toLowerCaseOf (v : JsVal) : option string :=
  match v with
  | JStr s => Some (Text.toLowerCase s)
  | _ => None
  end.

(** [[...].includes(v)] for an array literal of strings. *)
Definition includesStr (l : list string) (v : JsVal) : bool :=
  match v with
  | JStr s => existsb (String.eqb s) l
  | _ => false
  end.

(** The strings among a list of values. *)
Fixpoint stringsOf (l : list JsVal) : list string :=
  match l with
  | [] => []
  | JStr s :: r => s :: stringsOf r
  | _ :: r => stringsOf r
  end.

(** [v === 'lit'] *)
Definition isStr (lit : string) (v : JsVal) : bool :=
  match v with
  | JStr s => String.eqb s lit
  | _ => false
  end.

(** A JavaScript object used as a record of named values. *)
Abbreviation Obj := (gmap string JsVal).

(** [o.k] *)
Definition prop (o : Obj) (k : string) : JsVal := default JUndefined (o !! k).

(* ===================================================================== *)
(** ** Documents and collections *)
(* ===================================================================== *)

(** The values of a stored document, typed by its schema. *)
Inductive Field :=
| FNull
| FStr (s : string)
| FNum (n : JsNum)
| FBool (b : bool)
| FDate (t : Z)               (* milliseconds since the epoch *)
| FId (i : N)                 (* ObjectId *)
| FList (l : list string).

Abbreviation Doc := (gmap string Field).

(** A collection, in insertion order. *)
Abbreviation Collection := (list Doc).

(** Truthiness of a document property ([!this.k]). *)
Definition truthyField (f : option Field) : bool :=
  match f with
  | None | Some FNull => false
  | Some (FStr s) => negb (String.eqb s "")
  | Some (FNum n) => truthy (JNum n)
  | Some (FBool b) => b
  | Some _ => true
  end.

(** [doc.k === 'lit'] *)
Definition fieldIs (lit : string) (f : option Field) : bool :=
  match f with
  | Some (FStr s) => String.eqb s lit
  | _ => false
  end.

(** Equality of stored values, as a query or a unique index compares them;
    a missing value is [null]. *)
Definition fieldEq (a b : option Field) : bool :=
  match default FNull a, default FNull b with
  | FNull, FNull => true
  | FStr s, FStr t => String.eqb s t
  | FNum n, FNum m => numEq n m
  | FBool x, FBool y => Bool.eqb x y
  | FDate s, FDate t => (s =? t)%Z
  | FId i, FId j => (i =? j)%N
  | FList l, FList m => bool_decide (l = m)
  | _, _ => false
  end.

(** What a request sees of its environment. *)
Record Env := {
  now : Z;              (* Date.now(), new Date() *)
  random36 : string;    (* Math.random().toString(36) *)
  randomHex : string;   (* crypto.randomBytes(32).toString('hex') *)
}.

Record Response := {
  code : nat;
  success : bool;
  message : string;
}.

Definition reject (c : nat) (msg : string) : Response :=
  {| code := c; success := false; message := msg |}.

Definition accept (c : nat) (msg : string) : Response :=
  {| code := c; success := true; message := msg |}.

(* ===================================================================== *)
(** ** Mongoose: schemas, casting, validation, persistence *)
(* ===================================================================== *)

Inductive SchemaType :=
| TString
| TNumber
| TDate
| TBoolean
| TStrings.            (* [{ type: String, ... }] *)

(** The options of a schema path, as the schema source lists them. *)
Inductive PathOption :=
| Required
| Trim
| Lowercase
| Unique
| MinLength (n : nat)
| MaxLength (n : nat)
| Match (r : Regex.t)
| Enum (l : list string)
| Min (q : Q)
| Max (q : Q)
| Default (f : Field)
| DefaultNow                                  (* default: Date.now *)
| Validate (p : Doc -> Field -> bool).        (* validate.validator, [this] first *)

Record Path := {
  pathName : string;
  pathType : SchemaType;
  pathOptions : list PathOption;
}.

Abbreviation Schema := (list Path).

Inductive MongooseError :=
| ValidationError
| CastError
| DuplicateKey.        (* code 11000 *)

(** Result of casting a supplied value: the value to store, nothing when
    the value was [undefined], or a failure. *)
Inductive Casted :=
| CastTo (f : option Field)
| CastFails.

Section Mongoose.
Context `{Engine}.

Definition castString (v : JsVal) : Casted :=
  match v with
  | JUndefined => CastTo None
  | JNull => CastTo (Some FNull)
  | JStr s => CastTo (Some (FStr s))
  | JNum _ | JBool _ => CastTo (Some (FStr (ToString v)))
  | JArr _ => CastFails
  end.

Definition castNumber (v : JsVal) : Casted :=
  match v with
  | JUndefined => CastTo None
  | JNull => CastTo (Some FNull)
  | JStr "" => CastTo (Some FNull)
  | JStr _ | JBool _ | JNum _ =>
      if isNaN (ToNumber v) then CastFails else CastTo (Some (FNum (ToNumber v)))
  | JArr _ => CastFails
  end.

(** The controllers never supply a value for a Date or Boolean path; a
    number is taken as a time, a boolean as itself. *)
Definition castDate (v : JsVal) : Casted :=
  match v with
  | JUndefined => CastTo None
  | JNull => CastTo (Some FNull)
  | JNum (Fin q) => CastTo (Some (FDate (Qfloor q)))
  | _ => CastFails
  end.

Definition castBoolean (v : JsVal) : Casted :=
  match v with
  | JUndefined => CastTo None
  | JNull => CastTo (Some FNull)
  | JBool b => CastTo (Some (FBool b))
  | _ => CastFails
  end.

(** Elements of a string array; an element that does not cast to a string
    fails the array. *)
Fixpoint castElements (l : list JsVal) : option (list string) :=
  match l with
  | [] => Some []
  | v :: r =>
      match castString v, castElements r with
      | CastTo (Some (FStr s)), Some ss => Some (s :: ss)
      | _, _ => None
      end
  end.

(** An array path is never [undefined]: it defaults to the empty array, and
    a value that is not an array is wrapped in one. *)
Definition castStrings (v : JsVal) : Casted :=
  match v with
  | JUndefined => CastTo (Some (FList []))
  | JArr l => match castElements l with
              | Some ss => CastTo (Some (FList ss))
              | None => CastFails
              end
  | _ => match castElements [v] with
         | Some ss => CastTo (Some (FList ss))
         | None => CastFails
         end
  end.

Definition castAs (t : SchemaType) (v : JsVal) : Casted :=
  match t with
  | TString => castString v
  | TNumber => castNumber v
  | TDate => castDate v
  | TBoolean => castBoolean v
  | TStrings => castStrings v
  end.

End Mongoose.

(** The setters [trim] and [lowercase] of a string path. *)
Definition applySetter (o : PathOption) (f : Field) : Field :=
  match o, f with
  | Trim, FStr s => FStr (Text.trim s)
  | Lowercase, FStr s => FStr (Text.toLowerCase s)
  | _, _ => f
  end.

Definition applySetters (os : list PathOption) (f : Field) : Field :=
  fold_left (fun acc o => applySetter o acc) os f.

(** The default of a path, used when no value was supplied. *)
Fixpoint defaultOf (env : Env) (os : list PathOption) : option Field :=
  match os with
  | [] => None
  | Default f :: _ => Some f
  | DefaultNow :: _ => Some (FDate (now env))
  | _ :: r => defaultOf env r
  end.

Definition inList (s : string) (l : list string) : bool := existsb (String.eqb s) l.

(** One validator on the value [f] of a path of the document [d]. Except
    for [Required], validators do not run on [undefined]. *)
Definition checkOption (d : Doc) (f : option Field) (o : PathOption) : bool :=
  match o, f with
  | Required, None => false
  | Required, Some FNull => false
  | Required, Some (FStr s) => negb (String.eqb s "")
  | Required, Some _ => true
  | _, None => true
  | MinLength n, Some (FStr s) => n <=? String.length s
  | MaxLength n, Some (FStr s) => String.length s <=? n
  | Match r, Some (FStr s) => String.eqb s "" || Regex.test r s
  | Enum l, Some (FStr s) => inList s l
  | Enum l, Some (FList ss) => forallb (fun s => inList s l) ss
  | Enum l, Some FNull => false
  | Min q, Some (FNum n) => numGe n (Fin q)
  | Max q, Some (FNum n) => numLe n (Fin q)
  | Validate p, Some v => p d v
  | _, _ => true
  end.

Definition validatePath (d : Doc) (p : Path) : bool :=
  forallb (checkOption d (d !! pathName p)) (pathOptions p).

Definition validateDoc (s : Schema) (d : Doc) : bool :=
  forallb (validatePath d) s.

Definition isRequired (p : Path) : bool :=
  existsb (fun o => match o with Required => true | _ => false end) (pathOptions p).

(** [save] of a document loaded from the store validates the paths that
    were modified and the required ones. *)
Definition validateModified (s : Schema) (modified : list string) (d : Doc) : bool :=
  forallb (fun p => if inList (pathName p) modified || isRequired p
                    then validatePath d p else true) s.

(** An update object ([updateData]): each property holds a value taken from
    the request, a date made by [new Date()], or the date [new Date(v)]
    makes of a value of the request, which may be an Invalid Date. *)
Inductive UpdateValue :=
| Raw (v : JsVal)
| NewDate (t : Z)
| InvalidDate.

Abbreviation Update := (gmap string UpdateValue).

(** Update validators ([runValidators: true]) check the paths an update
    sets. *)
Definition validateUpdate (s : Schema) (u : Doc) : bool :=
  forallb (fun p => match u !! pathName p with
                    | Some _ => validatePath u p
                    | None => true
                    end) s.

Section Persistence.
Context `{Engine}.

Definition castPath (env : Env) (p : Path) (v : JsVal) : Casted :=
  match castAs (pathType p) v with
  | CastTo (Some f) => CastTo (Some (applySetters (pathOptions p) f))
  | CastTo None => CastTo (defaultOf env (pathOptions p))
  | CastFails => CastFails
  end.

(** [new Model(o)]: only the paths of the schema are taken from [o]. *)
Fixpoint castDoc (env : Env) (s : Schema) (o : Obj) : option Doc :=
  match s with
  | [] => Some ∅
  | p :: r =>
      match castPath env p (prop o (pathName p)), castDoc env r o with
      | CastTo (Some f), Some d => Some (<[pathName p := f]> d)
      | CastTo None, Some d => Some d
      | _, _ => None
      end
  end.

(** The value [new Model(o)] gives the path named [k]. *)
Fixpoint castField (env : Env) (s : Schema) (o : Obj) (k : string) : option Field :=
  match s with
  | [] => None
  | p :: r =>
      if String.eqb (pathName p) k then
        match castPath env p (prop o (pathName p)) with
        | CastTo (Some f) => Some f
        | _ => castField env r o k
        end
      else castField env r o k
  end.

(** No supplied value fails to cast. *)
Definition castsAll (s : Schema) (o : Obj) : bool :=
  forallb (fun p => match castAs (pathType p) (prop o (pathName p)) with
                    | CastFails => false
                    | CastTo _ => true
                    end) s.

End Persistence.

(** A model: its schema (all have [timestamps: true]), the compound unique
    indexes declared with [schema.index], and its [pre('save')] hook. *)
Record Model := {
  schema : Schema;
  uniqueIndexes : list (list string);
  preSave : Env -> Doc -> Doc;
}.

Definition isUnique (p : Path) : bool :=
  existsb (fun o => match o with Unique => true | _ => false end) (pathOptions p).

(** Every unique index of a model: [_id], the [unique: true] paths and the
    declared compound indexes. *)
Definition uniqueKeys (M : Model) : list (list string) :=
  ["_id"] :: map (fun p => [pathName p]) (List.filter isUnique (schema M))
    ++ uniqueIndexes M.

Definition sameKey (keys : list string) (a b : Doc) : bool :=
  forallb (fun k => fieldEq (a !! k) (b !! k)) keys.

Definition violatesUnique (M : Model) (db : Collection) (d : Doc) : bool :=
  existsb (fun keys => existsb (sameKey keys d) db) (uniqueKeys M).

Definition idOf (d : Doc) : N :=
  match d !! "_id" with Some (FId i) => i | _ => 0%N end.

(** ObjectIds are generated by the driver and never repeat: modelled as a
    counter above every stored id. *)
Definition freshId (db : Collection) : N :=
  N.succ (fold_right (fun d m => N.max (idOf d) m) 0%N db).

Definition stampCreated (env : Env) (d : Doc) : Doc :=
  <["createdAt" := FDate (now env)]> (<["updatedAt" := FDate (now env)]> d).

Definition hasId (i : N) (d : Doc) : bool := fieldEq (d !! "_id") (Some (FId i)).

Definition findOne (q : Doc -> bool) (db : Collection) : option Doc := find q db.

Definition findById (i : N) (db : Collection) : option Doc := findOne (hasId i) db.

Definition countDocuments (db : Collection) : nat := List.length db.

(** The values of the path [k] in a collection, record by record. *)
Definition valuesOf (k : string) (db : Collection) : list (option Field) :=
  map (fun d : Doc => d !! k) db.

(** Writes [d] over the first stored document that [q] selects. *)
Fixpoint replaceFirst (q : Doc -> bool) (d : Doc) (db : Collection) : Collection :=
  match db with
  | [] => []
  | x :: r => if q x then d :: r else x :: replaceFirst q d r
  end.

(** Writes [d] over the stored document of the same [_id]. *)
Definition replaceDoc (d : Doc) (db : Collection) : Collection :=
  replaceFirst (hasId (idOf d)) d db.

Section Operations.
Context `{Engine}.

(** [Model.create(o)]: cast, validate, run the [pre('save')] hook, insert. *)
Definition create (M : Model) (env : Env) (o : Obj) (db : Collection)
  : MongooseError + (Doc * Collection) :=
  match castDoc env (schema M) o with
  | None => inl ValidationError
  | Some d0 =>
      if negb (validateDoc (schema M) d0) then inl ValidationError else
      let d := <["_id" := FId (freshId db)]> (stampCreated env (preSave M env d0)) in
      if violatesUnique M db d then inl DuplicateKey
      else inr (d, db ++ [d])
  end.

(** [doc.save()] on a document read from the store, after the paths
    [modified] were assigned. No indexed path is among them. *)
Definition save (M : Model) (env : Env) (modified : list string) (d : Doc)
    (db : Collection) : MongooseError + (Doc * Collection) :=
  if negb (validateModified (schema M) modified d) then inl ValidationError else
  let d' := <["updatedAt" := FDate (now env)]> (preSave M env d) in
  inr (d', replaceDoc d' db).

(** The update cast to the schema: properties that are not paths of the
    schema are dropped, the others are cast and go through the setters. *)
Fixpoint castUpdate (s : Schema) (u : Update) : option Doc :=
  match s with
  | [] => Some ∅
  | p :: r =>
      match castUpdate r u with
      | None => None
      | Some d =>
          match u !! pathName p with
          | None => Some d
          | Some (NewDate t) => Some (<[pathName p := FDate t]> d)
          | Some InvalidDate => None
          | Some (Raw v) =>
              match castAs (pathType p) v with
              | CastTo (Some f) =>
                  Some (<[pathName p := applySetters (pathOptions p) f]> d)
              | CastTo None => Some d
              | CastFails => None
              end
          end
      end
  end.

(** [Model.findByIdAndUpdate(id, u, { new: true, runValidators: true })].
    [id] is [None] when the route parameter does not cast to an ObjectId.
    The update is cast and its validators run before the query; the time
    stamp [updatedAt] is set with the update. *)
Definition findByIdAndUpdate (M : Model) (env : Env) (id : option N) (u : Update)
    (db : Collection) : MongooseError + (option Doc * Collection) :=
  match id with
  | None => inl CastError
  | Some i =>
      match castUpdate (schema M) u with
      | None => inl CastError
      | Some set =>
          if negb (validateUpdate (schema M) set) then inl ValidationError else
          match findById i db with
          | None => inr (None, db)
          | Some d =>
              let d' := <["updatedAt" := FDate (now env)]> (set ∪ d) in
              inr (Some d', replaceDoc d' db)
          end
      end
  end.

End Operations.

(* ===================================================================== *)
(** ** Models *)
(* ===================================================================== *)

Definition seqs (rs : list Regex.t) : Regex.t :=
  fold_right Regex.Seq Regex.Eps rs.

(** [/^\w+([.-]?\w+)*@\w+([.-]?\w+)*(\.\w{2,3})+$/], the [match] of every
    schema's email path. *)
Definition schemaEmailRegex : Regex.t :=
  let w := Regex.plus Regex.word in
  let group := Regex.Star (Regex.Seq (Regex.opt (Regex.Class false
                 [Regex.AChar "."; Regex.AChar "-"])) w) in
  seqs [w; group; Regex.chr "@"; w; group;
        Regex.plus (Regex.Seq (Regex.chr ".") (Regex.bounded 2 3 Regex.word))].

(** [/^[0-9]{10,15}$/] *)
Definition schemaMobileRegex : Regex.t :=
  Regex.bounded 10 15 (Regex.Class false [Regex.ARange "0" "9"]).

Definition path (n : string) (t : SchemaType) (os : list PathOption) : Path :=
  {| pathName := n; pathType := t; pathOptions := os |}.

Definition fullNamePath : Path :=
  path "fullName" TString [Required; Trim; MinLength 2; MaxLength 100].

Definition emailPath (more : list PathOption) : Path :=
  path "email" TString
       ([Required; Trim; Lowercase] ++ more ++ [Match schemaEmailRegex]).

Definition mobilePath (n : string) : Path :=
  path n TString [Required; Trim; Match schemaMobileRegex].

(** The reference of a new document: prefix, the last 8 characters of the
    decimal time stamp, and characters 2 to 5 of the radix-36 text of a
    random number, in upper case. *)
Definition generateReference (prefix : string) (env : Env) : string :=
  let timestamp := Text.sliceLast 8 (Text.decimalZ (now env)) in
  let random := Text.toUpperCase (Text.substring 2 6 (random36 env)) in
  prefix +:+ "-" +:+ timestamp +:+ "-" +:+ random.

(** [^<PREFIX>-\d{8}-[A-Z0-9]{4}$], the format the specification gives
    for a reference. *)
Definition referencePattern (prefix : string) : Regex.t :=
  seqs [Regex.lit prefix; Regex.chr "-"; Regex.times 8 Regex.digit; Regex.chr "-";
        Regex.times 4 (Regex.Class false [Regex.ARange "A" "Z"; Regex.ARange "0" "9"])].

(** The [pre('save')] hook the schemas share but for the name of the
    reference path and the prefix. *)
Definition referenceHook (field prefix : string) (env : Env) (d : Doc) : Doc :=
  if negb (truthyField (d !! field))
  then <[field := FStr (generateReference prefix env)]> d
  else d.

Module DonationModel.

Definition donationSchema : Schema := [
  fullNamePath;
  emailPath [];
  mobilePath "mobile";
  path "donationAmount" TNumber [Required; Min 1; Max 10000000];
  path "donationType" TString
       [Required; Enum ["One-Time"; "Monthly"; "Sponsor a Program"; "Corporate Donation"]];
  path "message" TString [Trim; MaxLength 1000];
  path "status" TString
       [Enum ["pending"; "contacted"; "completed"; "cancelled"]; Default (FStr "pending")];
  path "paymentStatus" TString
       [Enum ["pending"; "processing"; "completed"; "failed"]; Default (FStr "pending")];
  path "source" TString [Default (FStr "website-donation-form")];
  path "ipAddress" TString [];
  path "userAgent" TString [];
  path "donationReference" TString [Unique];
  path "contactedAt" TDate [];
  path "completedAt" TDate []
].

Definition preSaveHook : Env -> Doc -> Doc := referenceHook "donationReference" "DON".

Definition Donation : Model :=
  {| schema := donationSchema; uniqueIndexes := []; preSave := preSaveHook |}.

End DonationModel.

Module ContactUsModel.

Definition contactUsSchema : Schema := [
  fullNamePath;
  emailPath [];
  mobilePath "mobile";
  path "subject" TString
       [Required; Enum ["general-inquiry"; "volunteering"; "internship";
                        "partnership"; "donation"; "other"]];
  path "message" TString [Required; Trim; MinLength 10; MaxLength 1500];
  path "status" TString
       [Enum ["new"; "in-progress"; "resolved"; "closed"]; Default (FStr "new")];
  path "priority" TString
       [Enum ["low"; "medium"; "high"; "urgent"]; Default (FStr "medium")];
  path "source" TString [Default (FStr "website-contact-us")];
  path "ipAddress" TString [];
  path "userAgent" TString [];
  path "ticketReference" TString [Unique];
  path "assignedTo" TString [];
  path "resolvedAt" TDate [];
  path "notes" TString [MaxLength 1000]
].

Definition preSaveHook : Env -> Doc -> Doc := referenceHook "ticketReference" "TICKET".

Definition ContactUs : Model :=
  {| schema := contactUsSchema; uniqueIndexes := []; preSave := preSaveHook |}.

End ContactUsModel.

Module VolunteerModel.

Definition expertiseValues : list string :=
  ["Education"; "Skill Development"; "Content Creation"; "Advocacy";
   "Event Coordination"; "Research & Policy"; "More"].

Definition volunteerSchema : Schema := [
  fullNamePath;
  emailPath [Unique];
  mobilePath "mobile";
  path "expertise" TStrings [Enum expertiseValues];
  path "howToHelp" TString [Required; Trim; MinLength 10; MaxLength 1000];
  path "message" TString [Trim; MaxLength 500];
  path "status" TString
       [Enum ["pending"; "reviewed"; "approved"; "active"; "inactive"; "rejected"];
        Default (FStr "pending")];
  path "availability" TString
       [Enum ["part-time"; "full-time"; "weekends"; "flexible"]; Default (FStr "flexible")];
  path "source" TString [Default (FStr "website-volunteer-form")];
  path "ipAddress" TString [];
  path "userAgent" TString [];
  path "volunteerReference" TString [Unique];
  path "reviewedBy" TString [];
  path "reviewedAt" TDate [];
  path "approvedAt" TDate [];
  path "rejectionReason" TString [];
  path "notes" TString [MaxLength 1000]
].

Definition preSaveHook : Env -> Doc -> Doc := referenceHook "volunteerReference" "VOL".

Definition Volunteer : Model :=
  {| schema := volunteerSchema; uniqueIndexes := []; preSave := preSaveHook |}.

End VolunteerModel.

Module EventRegistrationModel.

(** [validate] of [disabilityType]: required when the person has a
    disability. *)
Definition disabilityTypeValidator (this : Doc) (value : Field) : bool :=
  if fieldIs "Yes" (this !! "isPersonWithDisability") && negb (truthyField (Some value))
  then false else true.

(** [validate] of [otherDisabilityText]: required when "Other" is chosen. *)
Definition otherDisabilityTextValidator (this : Doc) (value : Field) : bool :=
  if fieldIs "Other (please specify)" (this !! "disabilityType")
     && negb (truthyField (Some value))
  then false else true.

Definition eventRegistrationSchema : Schema := [
  fullNamePath;
  emailPath [];
  mobilePath "mobileNumber";
  path "city" TString [Trim; MaxLength 100];
  path "occupation" TString [Trim; MaxLength 100];
  path "organization" TString [Trim; MaxLength 200];
  path "isPersonWithDisability" TString [Required; Enum ["Yes"; "No"]];
  path "disabilityType" TString
       [Enum ["Visual Impairment"; "Hearing Impairment"; "Locomotor Disability";
              "Intellectual Disability"; "Speech & Language Disability";
              "Multiple Disabilities"; "Other (please specify)"; ""];
        Validate disabilityTypeValidator];
  path "otherDisabilityText" TString
       [Trim; MaxLength 200; Validate otherDisabilityTextValidator];
  path "eventId" TNumber [Required];
  path "eventTitle" TString [Required; Trim];
  path "registrationReference" TString [Unique];
  path "registrationStatus" TString
       [Enum ["confirmed"; "waitlist"; "cancelled"]; Default (FStr "confirmed")];
  path "source" TString [Default (FStr "website-event-registration")];
  path "ipAddress" TString [];
  path "userAgent" TString [];
  path "registrationDate" TDate [DefaultNow];
  path "confirmationSent" TBoolean [Default (FBool false)];
  path "remindersSent" TNumber [Default (FNum (ofZ 0))];
  path "attendanceStatus" TString
       [Enum ["registered"; "attended"; "no-show"]; Default (FStr "registered")];
  path "specialAccommodations" TString [Trim; MaxLength 500];
  path "notes" TString [Trim; MaxLength 1000]
].

Definition preSaveHook : Env -> Doc -> Doc := referenceHook "registrationReference" "REG".

(** [schema.index({ email: 1, eventId: 1 }, { unique: true })] *)
Definition EventRegistration : Model :=
  {| schema := eventRegistrationSchema;
     uniqueIndexes := [["email"; "eventId"]];
     preSave := preSaveHook |}.

(** [statics.isAlreadyRegistered]; the query fails to cast ([None]) when
    [eventId] is [NaN]. *)
Definition isAlreadyRegistered (email : string) (eventId : JsNum) (db : Collection)
  : option bool :=
  if isNaN eventId then None else
  let existingRegistration :=
    findOne (fun d => fieldEq (d !! "email")
                        (Some (FStr (Text.trim (Text.toLowerCase email))))
                      && fieldEq (d !! "eventId") (Some (FNum eventId))) db in
  Some (match existingRegistration with Some _ => true | None => false end).

End EventRegistrationModel.

Module NewsletterModel.

Definition newsletterSchema : Schema := [
  emailPath [Unique];
  path "status" TString
       [Enum ["active"; "inactive"; "unsubscribed"]; Default (FStr "active")];
  path "source" TString [Default (FStr "website-subscription")];
  path "ipAddress" TString [];
  path "userAgent" TString [];
  path "subscribedAt" TDate [DefaultNow];
  path "unsubscribedAt" TDate [];
  path "unsubscribeToken" TString []
].

(** The schema has no hook. *)
Definition Newsletter : Model :=
  {| schema := newsletterSchema; uniqueIndexes := []; preSave := fun _ d => d |}.

End NewsletterModel.

Module MediaSubmissionModel.

Definition mediaSubmissionSchema : Schema := [
  fullNamePath;
  emailPath [];
  path "mediaUrl" TString [Required; Trim];
  path "description" TString [Trim; MaxLength 1000; Default (FStr "")];
  path "mediaType" TString [Enum ["image"; "video"; "unknown"]; Default (FStr "unknown")];
  path "status" TString
       [Enum ["pending"; "under-review"; "approved"; "featured"; "rejected"];
        Default (FStr "pending")];
  path "category" TString
       [Enum ["event"; "initiative"; "testimonial"; "achievement"; "other"];
        Default (FStr "other")];
  path "source" TString [Default (FStr "website-media-form")];
  path "ipAddress" TString [];
  path "userAgent" TString [];
  path "submissionReference" TString [Unique];
  path "reviewedBy" TString [];
  path "reviewedAt" TDate [];
  path "featuredAt" TDate [];
  path "rejectionReason" TString []
].

Definition videoMarks : list string :=
  ["youtube"; "youtu.be"; "vimeo"; ".mp4"; ".mov"; ".avi"; ".wmv"; ".flv"; ".webm"; ".mkv"].

Definition imageMarks : list string :=
  [".jpg"; ".jpeg"; ".png"; ".gif"; ".webp"; ".bmp"; "imgur"].

(** Auto-detection of the media type from the URL, when not already set. *)
Definition detectMediaType (d : Doc) : Doc :=
  match d !! "mediaUrl" with
  | Some (FStr mediaUrl) =>
      if fieldIs "unknown" (d !! "mediaType") && negb (String.eqb mediaUrl "") then
        let url := Text.toLowerCase mediaUrl in
        if existsb (fun m => Text.includes m url) videoMarks
        then <["mediaType" := FStr "video"]> d
        else if existsb (fun m => Text.includes m url) imageMarks
        then <["mediaType" := FStr "image"]> d
        else d
      else d
  | _ => d
  end.

Definition preSaveHook (env : Env) (d : Doc) : Doc :=
  detectMediaType (referenceHook "submissionReference" "MED" env d).

Definition MediaSubmission : Model :=
  {| schema := mediaSubmissionSchema; uniqueIndexes := []; preSave := preSaveHook |}.

End MediaSubmissionModel.

(** The hooks of the three other models with a reference (internship,
    collaboration, news submission) are the shared hook as well. *)
Module OtherModels.

Definition internPreSaveHook : Env -> Doc -> Doc :=
  referenceHook "internReference" "INT".

Definition collaborationPreSaveHook : Env -> Doc -> Doc :=
  referenceHook "collaborationReference" "COLLAB".

Definition newsSubmissionPreSaveHook : Env -> Doc -> Doc :=
  referenceHook "submissionReference" "NEWS".

End OtherModels.

(* ===================================================================== *)
(** ** Controllers: shared helpers *)
(* ===================================================================== *)

(** What a handler reads of a request: the parsed body, the client address
    ([req.ip || req.connection.remoteAddress || req.socket.remoteAddress])
    and the [User-Agent] header ([req.get('User-Agent')]). *)
Record Request := {
  body : Obj;
  clientIp : JsVal;
  userAgentHeader : JsVal;
}.

(** The request [req] with the body property [k] set to [v]. *)
Definition withField (k : string) (v : JsVal) (req : Request) : Request :=
  {| body := <[k := v]> (body req);
     clientIp := clientIp req;
     userAgentHeader := userAgentHeader req |}.

Definition isAngle (c : ascii) : bool := Text.isCode 60 c || Text.isCode 62 c.

(** The body of [sanitizeInput] on a string. *)
Definition sanitize (input : string) : string :=
  Text.dropHandlers 0
    (Text.dropScheme 0
       (Text.removeChars isAngle (Text.trim input))).

Definition sanitizeInput (input : JsVal) : JsVal :=
  match input with
  | JStr s => JStr (sanitize s)
  | _ => input
  end.

(** The result object of the validation helpers. *)
Record Validation := {
  isValid : bool;
  reason : string;         (* message *)
  cleanPhone : string;     (* validateMobile only *)
}.

Definition invalid (msg : string) : Validation :=
  {| isValid := false; reason := msg; cleanPhone := "" |}.

Definition valid (phone : string) : Validation :=
  {| isValid := true; reason := ""; cleanPhone := phone |}.

(** [/^[^\s@]+@[^\s@]+\.[^\s@]+$/] *)
Definition emailRegex : Regex.t :=
  let part := Regex.plus (Regex.Class true [Regex.ASpace; Regex.AChar "@"]) in
  seqs [part; Regex.chr "@"; part; Regex.chr "."; part].

Definition validateEmail (email : string) : Validation :=
  if String.eqb email "" then invalid "Email is required"
  else if negb (Regex.test emailRegex email)
       then invalid "Please enter a valid email address"
  else if 254 <? String.length email then invalid "Email is too long"
  else valid "".

(** [/^(.)\1{9,}$/]: one character that is not a line terminator, repeated
    ten times or more, and nothing else. *)
Definition repeatedChar (s : string) : bool :=
  match s with
  | EmptyString => false
  | String c r =>
      negb (Text.isLineTerminator c)
      && Text.allChars (Ascii.eqb c) r
      && (9 <=? String.length r)
  end.

Definition suspiciousPatterns : list (string -> bool) := [
  Regex.test (Regex.atLeast 10 (Regex.chr "0"));     (* /^0{10,}$/ *)
  Regex.test (Regex.atLeast 10 (Regex.chr "1"));     (* /^1{10,}$/ *)
  repeatedChar
].

Section Helpers.
Context `{Engine}.

Definition validateMobile (mobile : JsVal) : Validation :=
  if negb (truthy mobile) then invalid "Mobile number is required" else
  let phoneStr := ToString mobile in
  let clean := Text.removeChars (fun c => negb (Text.isDigit c)) phoneStr in
  if (String.length clean <? 10) || (15 <? String.length clean)
  then invalid "Mobile number must be between 10-15 digits" else
  if existsb (fun pattern => pattern clean) suspiciousPatterns
  then invalid "Invalid mobile number format" else
  valid clean.

(** The event registration controller tests [/^[0-9]{10,15}$/] directly. *)
Definition validateMobileNumber (mobile : JsVal) : Validation :=
  if negb (truthy mobile) then invalid "Mobile number is required" else
  if negb (Regex.test schemaMobileRegex (ToString mobile))
  then invalid "Please enter a valid mobile number (10-15 digits)" else
  valid "".

End Helpers.

Definition serverError : Response :=
  reject 500 "Internal server error. Please try again later.".

Definition serverErrorShort : Response := reject 500 "Internal server error".

(** The stored [createdAt] is at or after the time [t]
    ([createdAt: { $gte: t }]). *)
Definition createdSince (t : Z) (d : Doc) : bool :=
  match d !! "createdAt" with
  | Some (FDate c) => (t <=? c)%Z
  | _ => false
  end.

Definition hasEmail (email : string) (d : Doc) : bool :=
  fieldEq (d !! "email") (Some (FStr email)).

(* ===================================================================== *)
(** ** Donation controller *)
(* ===================================================================== *)

Module DonationController.
Import DonationModel.

Record AmountValidation := {
  amountValid : bool;          (* isValid *)
  amountMessage : string;      (* message *)
  amount : option JsNum;
}.

Section Handlers.
Context `{Engine}.

Definition validateDonationAmount (a : JsVal) : AmountValidation :=
  let numAmount := ToNumber a in
  if isNaN numAmount || numLe numAmount (ofZ 0) then
    {| amountValid := false; amountMessage := "Please enter a valid donation amount";
       amount := None |}
  else if numLt numAmount (ofZ 1) then
    {| amountValid := false; amountMessage := "Minimum donation amount is ₹1";
       amount := None |}
  else if numGt numAmount (ofZ 10000000) then
    {| amountValid := false; amountMessage := "Maximum donation amount is ₹1,00,00,000";
       amount := None |}
  else {| amountValid := true; amountMessage := ""; amount := Some numAmount |}.

Definition validDonationTypes : list string :=
  ["One-Time"; "Monthly"; "Sponsor a Program"; "Corporate Donation"].

Definition submitDonationForm (env : Env) (req : Request) (db : Collection)
  : Response * Collection :=
  let fullName := prop (body req) "fullName" in
  let email := prop (body req) "email" in
  let mobile := prop (body req) "mobile" in
  let donationAmount := prop (body req) "donationAmount" in
  let donationType := prop (body req) "donationType" in
  let message := prop (body req) "message" in
  if negb (truthy fullName) || negb (truthy email) || negb (truthy mobile)
     || negb (truthy donationAmount) || negb (truthy donationType)
  then (reject 400 "All required fields must be filled", db) else
  match toLowerCaseOf email with
  | None => (serverError, db)
  | Some lower =>
  let fullName := sanitizeInput fullName in
  let email := sanitize lower in
  let mobile := sanitizeInput mobile in
  let donationType := sanitizeInput donationType in
  let message := if truthy message then sanitizeInput message else JStr "" in
  if lengthLt fullName 2 || lengthGt fullName 100
  then (reject 400 "Name must be between 2-100 characters", db) else
  let emailValidation := validateEmail email in
  if negb (isValid emailValidation) then (reject 400 (reason emailValidation), db) else
  let mobileValidation := validateMobile mobile in
  if negb (isValid mobileValidation) then (reject 400 (reason mobileValidation), db) else
  let amountValidation := validateDonationAmount donationAmount in
  if negb (amountValid amountValidation)
  then (reject 400 (amountMessage amountValidation), db) else
  if negb (includesStr validDonationTypes donationType)
  then (reject 400 "Invalid donation type selected", db) else
  if truthy message && lengthGt message 1000
  then (reject 400 "Message must be less than 1000 characters", db) else
  let ipAddress := clientIp req in
  let userAgent := orElse (userAgentHeader req) (JStr "") in
  match create Donation env
          (list_to_map [("fullName", fullName); ("email", JStr email);
                        ("mobile", JStr (cleanPhone mobileValidation));
                        ("donationAmount",
                         from_option JNum JUndefined (amount amountValidation));
                        ("donationType", donationType); ("message", message);
                        ("ipAddress", ipAddress); ("userAgent", userAgent)]) db with
  | inr (_, db') =>
      (accept 201 "Thank you for your generous intention! Our team will contact you with donation details shortly.", db')
  | inl _ => (serverError, db)
  end
  end.

Definition statusValues : list string := ["pending"; "contacted"; "completed"; "cancelled"].
Definition paymentStatusValues : list string := ["pending"; "processing"; "completed"; "failed"].

(** The [updateData] object of [updateDonationStatus]. *)
Definition donationUpdateData (env : Env) (b : Obj) : Update :=
  let status := prop b "status" in
  let paymentStatus := prop b "paymentStatus" in
  let updateData : Update := ∅ in
  let updateData :=
    if truthy status && includesStr statusValues status then
      let u := <["status" := Raw status]> updateData in
      let u := if isStr "contacted" status
               then <["contactedAt" := NewDate (now env)]> u else u in
      if isStr "completed" status
      then <["completedAt" := NewDate (now env)]> u else u
    else updateData in
  if truthy paymentStatus && includesStr paymentStatusValues paymentStatus
  then <["paymentStatus" := Raw paymentStatus]> updateData
  else updateData.

Definition updateDonationStatus (env : Env) (id : option N) (b : Obj) (db : Collection)
  : Response * Collection :=
  let updateData := donationUpdateData env b in
  if size updateData =? 0 then (reject 400 "No valid fields to update", db) else
  match findByIdAndUpdate Donation env id updateData db with
  | inl _ => (serverErrorShort, db)
  | inr (None, _) => (reject 404 "Donation not found", db)
  | inr (Some _, db') => (accept 200 "Donation status updated successfully", db')
  end.

End Handlers.
End DonationController.

(* ===================================================================== *)
(** ** Contact-us controller *)
(* ===================================================================== *)

Module ContactUsController.
Import ContactUsModel.

(** The fields of a submission that passed the checks of the handler. *)
Record Checked := {
  fullName : JsVal;
  email : string;
  phone : string;          (* mobileValidation.cleanPhone *)
  subject : JsVal;
  message : JsVal;
}.

Definition validSubjects : list string :=
  ["general-inquiry"; "volunteering"; "internship"; "partnership"; "donation"; "other"].

(** Priority is set from the subject. *)
Definition priorityOf (subject : JsVal) : string :=
  if isStr "donation" subject || isStr "partnership" subject then "high"
  else if isStr "general-inquiry" subject then "low"
  else "medium".

Section Handlers.
Context `{Engine}.

(** Presence check, sanitization and field validation of [submitContactUs]:
    the rejection, or the checked fields. *)
Definition checkContactUs (b : Obj) : Response + Checked :=
  let fullName := prop b "fullName" in
  let email := prop b "email" in
  let mobile := prop b "mobile" in
  let subject := prop b "subject" in
  let message := prop b "message" in
  if negb (truthy fullName) || negb (truthy email) || negb (truthy mobile)
     || negb (truthy subject) || negb (truthy message)
  then inl (reject 400 "All fields are required") else
  match toLowerCaseOf email with
  | None => inl serverError
  | Some lower =>
  let fullName := sanitizeInput fullName in
  let email := sanitize lower in
  let mobile := sanitizeInput mobile in
  let subject := sanitizeInput subject in
  let message := sanitizeInput message in
  if lengthLt fullName 2 || lengthGt fullName 100
  then inl (reject 400 "Name must be between 2-100 characters") else
  let emailValidation := validateEmail email in
  if negb (isValid emailValidation) then inl (reject 400 (reason emailValidation)) else
  let mobileValidation := validateMobile mobile in
  if negb (isValid mobileValidation) then inl (reject 400 (reason mobileValidation)) else
  if negb (includesStr validSubjects subject)
  then inl (reject 400 "Invalid subject selected") else
  if lengthLt message 10 || lengthGt message 1500
  then inl (reject 400 "Message must be between 10-1500 characters") else
  inr {| fullName := fullName; email := email;
         phone := cleanPhone mobileValidation;
         subject := subject; message := message |}
  end.

(** The duplicate guard: a submission of the same email created within the
    last 15 minutes. *)
Definition recentContact (env : Env) (email : string) (db : Collection) : option Doc :=
  let fifteenMinutesAgo := (now env - 15 * 60 * 1000)%Z in
  findOne (fun d => hasEmail email d && createdSince fifteenMinutesAgo d) db.

Definition submitContactUs (env : Env) (req : Request) (db : Collection)
  : Response * Collection :=
  match checkContactUs (body req) with
  | inl r => (r, db)
  | inr c =>
      match recentContact env (email c) db with
      | Some _ =>
          (reject 429 "Please wait at least 15 minutes before submitting another contact request", db)
      | None =>
          let ipAddress := clientIp req in
          let userAgent := orElse (userAgentHeader req) (JStr "") in
          let priority := priorityOf (subject c) in
          match create ContactUs env
                  (list_to_map [("fullName", fullName c); ("email", JStr (email c));
                                ("mobile", JStr (phone c)); ("subject", subject c);
                                ("message", message c); ("priority", JStr priority);
                                ("ipAddress", ipAddress); ("userAgent", userAgent)]) db with
          | inr (_, db') =>
              (accept 201 "Thank you for contacting us! We have received your message and will get back to you soon.", db')
          | inl _ => (serverError, db)
          end
      end
  end.

End Handlers.
End ContactUsController.

(* ===================================================================== *)
(** ** Volunteer controller *)
(* ===================================================================== *)

Module VolunteerController.
Import VolunteerModel.

Record Checked := {
  fullName : JsVal;
  email : string;
  phone : string;
  howToHelp : JsVal;
  message : JsVal;
}.

Definition validExpertise : list string :=
  ["Education"; "Skill Development"; "Content Creation"; "Advocacy";
   "Event Coordination"; "Research & Policy"; "More"].

(** The expertise array is filtered: each element is sanitized and kept
    when it is a listed value; anything that is not an array gives the
    empty list. *)
Definition sanitizedExpertise (expertise : JsVal) : list JsVal :=
  match expertise with
  | JArr l => List.filter (fun cleanExp => includesStr validExpertise cleanExp)
                     (map sanitizeInput l)
  | _ => []
  end.

(** An expertise value the handler keeps: it is listed once sanitized. *)
Definition listedExpertise (v : JsVal) : bool :=
  includesStr validExpertise (sanitizeInput v).

Section Handlers.
Context `{Engine}.

(** The checks of [registerVolunteer] that come before the expertise. *)
Definition checkVolunteer (b : Obj) : Response + Checked :=
  let fullName := prop b "fullName" in
  let email := prop b "email" in
  let mobile := prop b "mobile" in
  let howToHelp := prop b "howToHelp" in
  let message := prop b "message" in
  if negb (truthy fullName) || negb (truthy email) || negb (truthy mobile)
     || negb (truthy howToHelp)
  then inl (reject 400 "All required fields must be filled") else
  match toLowerCaseOf email with
  | None => inl serverError
  | Some lower =>
  let fullName := sanitizeInput fullName in
  let email := sanitize lower in
  let mobile := sanitizeInput mobile in
  let howToHelp := sanitizeInput howToHelp in
  let message := if truthy message then sanitizeInput message else JStr "" in
  if lengthLt fullName 2 || lengthGt fullName 100
  then inl (reject 400 "Name must be between 2-100 characters") else
  let emailValidation := validateEmail email in
  if negb (isValid emailValidation) then inl (reject 400 (reason emailValidation)) else
  let mobileValidation := validateMobile mobile in
  if negb (isValid mobileValidation) then inl (reject 400 (reason mobileValidation)) else
  if lengthLt howToHelp 10 || lengthGt howToHelp 1000
  then inl (reject 400 "Description must be between 10-1000 characters") else
  inr {| fullName := fullName; email := email;
         phone := cleanPhone mobileValidation;
         howToHelp := howToHelp; message := message |}
  end.

Definition registerVolunteer (env : Env) (req : Request) (db : Collection)
  : Response * Collection :=
  match checkVolunteer (body req) with
  | inl r => (r, db)
  | inr c =>
      let expertise := sanitizedExpertise (prop (body req) "expertise") in
      if truthy (message c) && lengthGt (message c) 500
      then (reject 400 "Message must be less than 500 characters", db) else
      match findOne (hasEmail (email c)) db with
      | Some _ => (reject 400 "A volunteer with this email already exists", db)
      | None =>
          let ipAddress := clientIp req in
          let userAgent := orElse (userAgentHeader req) (JStr "") in
          match create Volunteer env
                  (list_to_map [("fullName", fullName c); ("email", JStr (email c));
                                ("mobile", JStr (phone c)); ("expertise", JArr expertise);
                                ("howToHelp", howToHelp c); ("message", message c);
                                ("ipAddress", ipAddress); ("userAgent", userAgent)]) db with
          | inr (_, db') =>
              (accept 201 "Thank you for registering as a volunteer with MAD Foundation. Our team will connect with you soon to discuss how you can make an impact.", db')
          | inl DuplicateKey => (reject 400 "A volunteer with this email already exists", db)
          | inl _ => (serverError, db)
          end
      end
  end.

End Handlers.
End VolunteerController.

(* ===================================================================== *)
(** ** Event registration controller *)
(* ===================================================================== *)

Module EventRegistrationController.
Import EventRegistrationModel.

Record Checked := {
  fullName : JsVal;
  email : string;
  mobileNumber : JsVal;
  city : JsVal;
  occupation : JsVal;
  organization : JsVal;
  isPersonWithDisability : JsVal;
  disabilityType : JsVal;
  otherDisabilityText : JsVal;
  eventId : JsVal;
  eventTitle : JsVal;
}.

(** The checked fields with another event. *)
Definition forEvent (v : JsVal) (c : Checked) : Checked :=
  {| fullName := fullName c; email := email c; mobileNumber := mobileNumber c;
     city := city c; occupation := occupation c; organization := organization c;
     isPersonWithDisability := isPersonWithDisability c;
     disabilityType := disabilityType c;
     otherDisabilityText := otherDisabilityText c;
     eventId := v; eventTitle := eventTitle c |}.

Definition registrationStatusValues : list string := ["confirmed"; "waitlist"; "cancelled"].

Definition alreadyRegistered : Response :=
  reject 409 "You are already registered for this event".

Section Handlers.
Context `{Engine}.

(** Presence check, sanitization and field validation of
    [registerForEvent]. *)
Definition checkRegistration (b : Obj) : Response + Checked :=
  let fullName := prop b "fullName" in
  let email := prop b "email" in
  let mobileNumber := prop b "mobileNumber" in
  let city := prop b "city" in
  let occupation := prop b "occupation" in
  let organization := prop b "organization" in
  let isPersonWithDisability := prop b "isPersonWithDisability" in
  let disabilityType := prop b "disabilityType" in
  let otherDisabilityText := prop b "otherDisabilityText" in
  let eventId := prop b "eventId" in
  let eventTitle := prop b "eventTitle" in
  if negb (truthy fullName) || negb (truthy email) || negb (truthy mobileNumber)
     || negb (truthy isPersonWithDisability) || negb (truthy eventId)
     || negb (truthy eventTitle)
  then inl (reject 400 "All mandatory fields are required") else
  match toLowerCaseOf email with
  | None => inl serverError
  | Some lower =>
  let fullName := sanitizeInput fullName in
  let email := sanitize lower in
  let mobileNumber := sanitizeInput mobileNumber in
  let city := if truthy city then sanitizeInput city else JStr "" in
  let occupation := if truthy occupation then sanitizeInput occupation else JStr "" in
  let organization := if truthy organization then sanitizeInput organization else JStr "" in
  let disabilityType :=
    if truthy disabilityType then sanitizeInput disabilityType else JStr "" in
  let otherDisabilityText :=
    if truthy otherDisabilityText then sanitizeInput otherDisabilityText else JStr "" in
  let eventTitle := sanitizeInput eventTitle in
  if lengthLt fullName 2 || lengthGt fullName 100
  then inl (reject 400 "Name must be between 2-100 characters") else
  let emailValidation := validateEmail email in
  if negb (isValid emailValidation) then inl (reject 400 (reason emailValidation)) else
  let mobileValidation := validateMobileNumber mobileNumber in
  if negb (isValid mobileValidation) then inl (reject 400 (reason mobileValidation)) else
  if negb (includesStr ["Yes"; "No"] isPersonWithDisability)
  then inl (reject 400 "Please specify if you are a person with disability") else
  if isStr "Yes" isPersonWithDisability && negb (truthy disabilityType)
  then inl (reject 400 "Please select disability type") else
  if isStr "Other (please specify)" disabilityType && negb (truthy otherDisabilityText)
  then inl (reject 400 "Please specify your disability type") else
  inr {| fullName := fullName; email := email; mobileNumber := mobileNumber;
         city := city; occupation := occupation; organization := organization;
         isPersonWithDisability := isPersonWithDisability;
         disabilityType := disabilityType;
         otherDisabilityText := otherDisabilityText;
         eventId := eventId; eventTitle := eventTitle |}
  end.

(** The object given to [EventRegistration.create]. *)
Definition registrationFields (req : Request) (c : Checked) : Obj :=
  let ipAddress := clientIp req in
  let userAgent := orElse (userAgentHeader req) (JStr "") in
  list_to_map [
    ("fullName", fullName c); ("email", JStr (email c));
    ("mobileNumber", mobileNumber c); ("city", city c);
    ("occupation", occupation c); ("organization", organization c);
    ("isPersonWithDisability", isPersonWithDisability c);
    ("disabilityType",
       if isStr "Yes" (isPersonWithDisability c) then disabilityType c else JStr "");
    ("otherDisabilityText",
       if isStr "Other (please specify)" (disabilityType c)
       then otherDisabilityText c else JStr "");
    ("eventId", JNum (parseInt (eventId c)));
    ("eventTitle", eventTitle c);
    ("ipAddress", ipAddress); ("userAgent", userAgent)].

Definition registerForEvent (env : Env) (req : Request) (db : Collection)
  : Response * Collection :=
  match checkRegistration (body req) with
  | inl r => (r, db)
  | inr c =>
      match isAlreadyRegistered (email c) (parseInt (eventId c)) db with
      | None => (serverError, db)
      | Some true => (alreadyRegistered, db)
      | Some false =>
          match create EventRegistration env (registrationFields req c) db with
          | inr (_, db') =>
              (accept 201 "Thank you for submitting your response. Your response has been submitted successfully.", db')
          | inl ValidationError => (reject 400 "Validation failed", db)
          | inl DuplicateKey => (alreadyRegistered, db)
          | inl CastError => (serverError, db)
          end
      end
  end.

Definition updateRegistrationStatus (env : Env) (id : option N) (b : Obj)
    (db : Collection) : Response * Collection :=
  let registrationStatus := prop b "registrationStatus" in
  let notes := prop b "notes" in
  if negb (includesStr registrationStatusValues registrationStatus)
  then (reject 400 "Invalid registration status", db) else
  match findByIdAndUpdate EventRegistration env id
          (<["registrationStatus" := Raw registrationStatus]>
             (<["notes" := Raw (orElse notes (JStr ""))]>
                (<["updatedAt" := NewDate (now env)]> ∅))) db with
  | inl _ => (serverErrorShort, db)
  | inr (None, _) => (reject 404 "Registration not found", db)
  | inr (Some _, db') => (accept 200 "Registration status updated successfully", db')
  end.

End Handlers.
End EventRegistrationController.

(* ===================================================================== *)
(** ** Newsletter controller *)
(* ===================================================================== *)

Module NewsController.
Import NewsletterModel.

Definition hasToken (token : string) (d : Doc) : bool :=
  fieldEq (d !! "unsubscribeToken") (Some (FStr token)).

(** The email of a subscription request, lower-cased, sanitized and
    validated. *)
Definition checkSubscription (b : Obj) : Response + string :=
  let email := prop b "email" in
  if negb (truthy email) then inl (reject 400 "Email is required") else
  match toLowerCaseOf email with
  | None => inl serverError
  | Some lower =>
      let email := sanitize lower in
      let emailValidation := validateEmail email in
      if negb (isValid emailValidation) then inl (reject 400 (reason emailValidation))
      else inr email
  end.

(** The assignments that reactivate a subscription. *)
Definition reactivated (env : Env) (existingSubscriber : Doc) : Doc :=
  <["unsubscribeToken" := FStr (randomHex env)]>
    (delete "unsubscribedAt"
       (<["subscribedAt" := FDate (now env)]>
          (<["status" := FStr "active"]> existingSubscriber))).

(** The assignments of [unsubscribeNewsletter]. *)
Definition unsubscribed (env : Env) (subscriber : Doc) : Doc :=
  <["unsubscribedAt" := FDate (now env)]>
    (<["status" := FStr "unsubscribed"]> subscriber).

Definition alreadySubscribed : Response :=
  reject 400 "This email is already subscribed to our newsletter".

Section Handlers.
Context `{Engine}.

(** The tail of [subscribeNewsletter]: a new subscription. *)
Definition newSubscription (env : Env) (req : Request) (email : string)
    (db : Collection) : Response * Collection :=
  let ipAddress := clientIp req in
  let userAgent := orElse (userAgentHeader req) (JStr "") in
  match create Newsletter env
          (list_to_map [("email", JStr email); ("ipAddress", ipAddress);
                        ("userAgent", userAgent);
                        ("unsubscribeToken", JStr (randomHex env))]) db with
  | inr (_, db') =>
      (accept 201 "Thank you for subscribing! Check your email for confirmation.", db')
  | inl DuplicateKey => (alreadySubscribed, db)
  | inl _ => (serverError, db)
  end.

Definition subscribeNewsletter (env : Env) (req : Request) (db : Collection)
  : Response * Collection :=
  match checkSubscription (body req) with
  | inl r => (r, db)
  | inr email =>
      match findOne (hasEmail email) db with
      | Some existingSubscriber =>
          if fieldIs "active" (existingSubscriber !! "status") then (alreadySubscribed, db)
          else if fieldIs "unsubscribed" (existingSubscriber !! "status") then
            match save Newsletter env
                    ["status"; "subscribedAt"; "unsubscribedAt"; "unsubscribeToken"]
                    (reactivated env existingSubscriber) db with
            | inr (_, db') =>
                (accept 200 "Welcome back! Your subscription has been reactivated.", db')
            | inl _ => (serverError, db)
            end
          else newSubscription env req email db
      | None => newSubscription env req email db
      end
  end.

(** [GET /unsubscribe/:token] *)
Definition unsubscribeNewsletter (env : Env) (token : string) (db : Collection)
  : Response * Collection :=
  if String.eqb token "" then (reject 400 "Invalid unsubscribe token", db) else
  match findOne (hasToken token) db with
  | None => (reject 404 "Invalid or expired unsubscribe link", db)
  | Some subscriber =>
      match save Newsletter env ["status"; "unsubscribedAt"]
                 (unsubscribed env subscriber) db with
      | inr (_, db') =>
          (accept 200 "You have been successfully unsubscribed from our newsletter.", db')
      | inl _ => (serverErrorShort, db)
      end
  end.

End Handlers.
End NewsController.

(* ===================================================================== *)
(** ** An engine for the examples *)
(* ===================================================================== *)

(** The properties below hold for every [Engine]. To run the handlers on
    concrete requests, this one converts integers: it agrees with
    ECMAScript on the integer-valued numbers below [2^53] in magnitude and
    on the strings that are decimal integer literals. *)
Module IntegerEngine.

(** Value of a non-empty string of decimal digits. *)
Fixpoint digitsValue (acc : N) (s : string) : option N :=
  match s with
  | EmptyString => Some acc
  | String c r =>
      if Text.isDigit c then digitsValue (10 * acc + (Text.code c - 48))%N r
      else None
  end.

Definition signed (s : string) : bool * string :=
  match s with
  | String "-" r => (true, r)
  | String "+" r => (false, r)
  | _ => (false, s)
  end.

Definition withSign (neg : bool) (n : N) : JsNum :=
  ofZ (if neg then - Z.of_N n else Z.of_N n).

Definition numberToString (n : JsNum) : string :=
  match n with
  | NaN => "NaN"
  | PosInf => "Infinity"
  | NegInf => "-Infinity"
  | Fin q => Text.decimalZ (Qfloor q)
  end.

Definition stringToNumber (s : string) : JsNum :=
  let t := Text.trim s in
  if String.eqb t "" then ofZ 0 else
  let '(neg, r) := signed t in
  match r with
  | EmptyString => NaN
  | _ => match digitsValue 0 r with
         | Some n => withSign neg n
         | None => NaN
         end
  end.

(** Longest prefix of decimal digits. *)
Fixpoint digitPrefix (s : string) : string :=
  match s with
  | String c r => if Text.isDigit c then String c (digitPrefix r) else EmptyString
  | EmptyString => EmptyString
  end.

Definition parseIntOfString (s : string) : JsNum :=
  let '(neg, r) := signed (Text.trimStart s) in
  match digitPrefix r with
  | EmptyString => NaN
  | ds => match digitsValue 0 ds with
          | Some n => withSign neg n
          | None => NaN
          end
  end.

Definition engine : Engine :=
  {| NumberToString := numberToString;
     StringToNumber := stringToNumber;
     parseIntOf := parseIntOfString |}.

End IntegerEngine.

(* ===================================================================== *)
(** ** Repeated saves, and sample requests *)
(* ===================================================================== *)



Module Samples.

(** A request environment: the clock, a random draw that prints with
    eleven radix-36 digits, and a token. *)
Definition env1 : Env :=
  {| now := 1700000000000; random36 := "0.4fzyo82mvyr"; randomHex := "9f86d081884c7d65" |}.

(** One minute later. *)
Definition env2 : Env :=
  {| now := 1700000060000; random36 := "0.k3x9q0a7c1b"; randomHex := "2c26b46b68ffc68f" |}.

(** One hour after [env1]. *)
Definition env3 : Env :=
  {| now := 1700003600000; random36 := "0.z81hd02mmq4"; randomHex := "fcde2b2edba56bf4" |}.

(** The clock of [env1] when [Math.random()] returns [0.5]. *)
Definition envHalf : Env :=
  {| now := 1700000000000; random36 := Text.radix36 1 1; randomHex := "" |}.

Definition request (fields : list (string * JsVal)) : Request :=
  {| body := list_to_map fields; clientIp := JStr "203.0.113.7";
     userAgentHeader := JStr "Mozilla/5.0" |}.

Definition donation : Request :=
  request [("fullName", JStr "Asha Rao"); ("email", JStr "Asha.Rao@Example.org");
           ("mobile", JStr "+91 98765 43210"); ("donationAmount", JStr "2500");
           ("donationType", JStr "One-Time"); ("message", JStr "Keep it up")].

(** A status that is not listed, sent with a payment status that is. *)
Definition unlistedStatus : Obj :=
  list_to_map [("status", JStr "archived"); ("paymentStatus", JStr "failed")].

(** Neither field is listed. *)
Definition nothingListed : Obj :=
  list_to_map [("status", JStr "archived"); ("paymentStatus", JStr "refunded")].

Definition unlistedRegistrationStatus : Obj :=
  list_to_map [("registrationStatus", JStr "archived"); ("notes", JStr "moved")].

Definition volunteer : Request :=
  request [("fullName", JStr "Ravi Kumar"); ("email", JStr "ravi@example.org");
           ("mobile", JStr "9876543210");
           ("expertise", JArr [JStr "Cooking"; JStr "Education"; JNum (ofZ 7)]);
           ("howToHelp", JStr "I can teach on weekends.")].

Definition contact : Request :=
  request [("fullName", JStr "Asha Rao"); ("email", JStr "Asha.Rao@Example.org");
           ("mobile", JStr "+91 98765 43210"); ("subject", JStr "partnership");
           ("message", JStr "We would like to partner with you.");
           ("priority", JStr "low")].

Definition registration : Request :=
  request [("fullName", JStr "Meera Nair"); ("email", JStr "meera@example.org");
           ("mobileNumber", JStr "9876543210"); ("city", JStr "Kochi");
           ("isPersonWithDisability", JStr "No");
           ("eventId", JNum (ofZ 7)); ("eventTitle", JStr "Inclusion Summit")].

Definition subscription : Request :=
  request [("email", JStr "Reader@Example.org")].

(** A donation whose amount is the boolean [true]. *)
Definition booleanDonation : Request :=
  request [("fullName", JStr "Asha Rao"); ("email", JStr "asha.rao@example.org");
           ("mobile", JStr "9876543210"); ("donationAmount", JBool true);
           ("donationType", JStr "Monthly")].

(** The stores the sample requests leave behind, computed with the
    integer engine. *)
Definition donationStore : Collection :=
  Eval vm_compute in
    snd (@DonationController.submitDonationForm IntegerEngine.engine env1 donation []).

Definition contactStore : Collection :=
  Eval vm_compute in
    snd (@ContactUsController.submitContactUs IntegerEngine.engine env1 contact []).

Definition registrationStore : Collection :=
  Eval vm_compute in
    snd (@EventRegistrationController.registerForEvent IntegerEngine.engine
           env1 registration []).

Definition subscribedStore : Collection :=
  Eval vm_compute in
    snd (@NewsController.subscribeNewsletter IntegerEngine.engine env1 subscription []).

Definition unsubscribedStore : Collection :=
  Eval vm_compute in
    snd (NewsController.unsubscribeNewsletter env2 (randomHex env1) subscribedStore).

End Samples.

(* ===================================================================== *)
(** ** Status updates of the volunteer and contact-us controllers *)
(* ===================================================================== *)

(** The answer of the status handlers to what [findByIdAndUpdate] gives:
    500 for an error, 404 when no document has the id, 200 otherwise. The
    status handlers that send a mail do so inside a [try] whose [catch]
    only logs, so the mail has no part in the answer. *)
Definition answerUpdate (notFound updated : string) (db : Collection)
    (res : MongooseError + (option Doc * Collection)) : Response * Collection :=
  match res with
  | inl _ => (serverErrorShort, db)
  | inr (None, _) => (reject 404 notFound, db)
  | inr (Some _, db') => (accept 200 updated, db')
  end.

Module VolunteerStatus.
Import VolunteerModel.

Definition statusValues : list string :=
  ["pending"; "reviewed"; "approved"; "active"; "inactive"; "rejected"].

Definition availabilityValues : list string :=
  ["part-time"; "full-time"; "weekends"; "flexible"].

(** The [updateData] object of [updateVolunteerStatus]. *)
Definition volunteerUpdateData (env : Env) (b : Obj) : Update :=
  let status := prop b "status" in
  let availability := prop b "availability" in
  let rejectionReason := prop b "rejectionReason" in
  let reviewedBy := prop b "reviewedBy" in
  let notes := prop b "notes" in
  let updateData : Update := ∅ in
  let updateData :=
    if truthy status && includesStr statusValues status then
      let u := <["status" := Raw status]> updateData in
      let u := <["reviewedAt" := NewDate (now env)]> u in
      let u := if isStr "approved" status
               then <["approvedAt" := NewDate (now env)]> u else u in
      if isStr "rejected" status && truthy rejectionReason
      then <["rejectionReason" := Raw rejectionReason]> u else u
    else updateData in
  let updateData :=
    if truthy availability && includesStr availabilityValues availability
    then <["availability" := Raw availability]> updateData else updateData in
  let updateData :=
    if truthy reviewedBy then <["reviewedBy" := Raw reviewedBy]> updateData
    else updateData in
  if truthy notes then <["notes" := Raw (sanitizeInput notes)]> updateData
  else updateData.

Section Handlers.
Context `{Engine}.

Definition updateVolunteerStatus (env : Env) (id : option N) (b : Obj)
    (db : Collection) : Response * Collection :=
  let updateData := volunteerUpdateData env b in
  if size updateData =? 0 then (reject 400 "No valid fields to update", db) else
  answerUpdate "Volunteer not found" "Volunteer status updated successfully" db
    (findByIdAndUpdate Volunteer env id updateData db).

End Handlers.
End VolunteerStatus.

Module ContactUsStatus.
Import ContactUsModel.

Definition statusValues : list string := ["new"; "in-progress"; "resolved"; "closed"].

Definition priorityValues : list string := ["low"; "medium"; "high"; "urgent"].

(** The [updateData] object of [updateContactUsStatus]. *)
Definition contactUsUpdateData (env : Env) (b : Obj) : Update :=
  let status := prop b "status" in
  let priority := prop b "priority" in
  let assignedTo := prop b "assignedTo" in
  let notes := prop b "notes" in
  let updateData : Update := ∅ in
  let updateData :=
    if truthy status && includesStr statusValues status then
      let u := <["status" := Raw status]> updateData in
      if isStr "resolved" status || isStr "closed" status
      then <["resolvedAt" := NewDate (now env)]> u else u
    else updateData in
  let updateData :=
    if truthy priority && includesStr priorityValues priority
    then <["priority" := Raw priority]> updateData else updateData in
  let updateData :=
    if truthy assignedTo then <["assignedTo" := Raw assignedTo]> updateData
    else updateData in
  if truthy notes then <["notes" := Raw (sanitizeInput notes)]> updateData
  else updateData.

Section Handlers.
Context `{Engine}.

Definition updateContactUsStatus (env : Env) (id : option N) (b : Obj)
    (db : Collection) : Response * Collection :=
  let updateData := contactUsUpdateData env b in
  if size updateData =? 0 then (reject 400 "No valid fields to update", db) else
  answerUpdate "Contact submission not found" "Contact status updated successfully" db
    (findByIdAndUpdate ContactUs env id updateData db).

End Handlers.
End ContactUsStatus.

(* ===================================================================== *)
(** ** Internship, collaboration and news submission: models and status
       updates *)
(* ===================================================================== *)

(** [new Date(v)] for a value [v] of the request: the time of the date, or
    [None] when the result is an Invalid Date. How a string is read as a
    date is the platform's, a parameter here. *)
Class DateParser := {
  timeOf : JsVal -> option Z;
}.

(** The property an update holds for [new Date(v)]. *)
Definition newDateOf `{DateParser} (v : JsVal) : UpdateValue :=
  match timeOf v with
  | Some t => NewDate t
  | None => InvalidDate
  end.

Module InternModel.

Definition internSchema : Schema := [
  fullNamePath;
  emailPath [Unique];
  mobilePath "mobile";
  path "internshipArea" TString
       [Required; Enum ["Research & Policy"; "Content Development"; "Event Coordination";
                        "Social Media"; "Assistive Technology"; "More"]];
  path "education" TString [Trim; MaxLength 1000];
  path "motivation" TString [Required; Trim; MinLength 20; MaxLength 1000];
  path "status" TString
       [Enum ["pending"; "under-review"; "interview-scheduled"; "accepted"; "rejected";
              "completed"];
        Default (FStr "pending")];
  path "duration" TString
       [Enum ["1-month"; "3-months"; "6-months"; "flexible"]; Default (FStr "flexible")];
  path "source" TString [Default (FStr "website-internship-form")];
  path "ipAddress" TString [];
  path "userAgent" TString [];
  path "internReference" TString [Unique];
  path "reviewedBy" TString [];
  path "reviewedAt" TDate [];
  path "interviewDate" TDate [];
  path "startDate" TDate [];
  path "endDate" TDate [];
  path "rejectionReason" TString [];
  path "notes" TString [MaxLength 1000];
  path "mentor" TString []
].

Definition Intern : Model :=
  {| schema := internSchema; uniqueIndexes := [];
     preSave := OtherModels.internPreSaveHook |}.

End InternModel.

Module CollaborationModel.

Definition collaborationSchema : Schema := [
  fullNamePath;
  path "organizationName" TString [Required; Trim; MinLength 2; MaxLength 200];
  emailPath [];
  mobilePath "mobile";
  path "areaOfInterest" TString
       [Required; Enum ["Education"; "Employment"; "Skill Development"; "Livelihood";
                        "Assistive Technology"; "Healthcare & Rehabilitation"; "Advocacy";
                        "Accessibility"; "Policy Development"; "Research & Innovation";
                        "Other"]];
  path "message" TString [Trim; MaxLength 2000];
  path "status" TString
       [Enum ["pending"; "under-review"; "meeting-scheduled"; "in-discussion"; "approved";
              "active-partnership"; "declined"; "on-hold"];
        Default (FStr "pending")];
  path "organizationType" TString
       [Enum ["ngo"; "corporate"; "government"; "institution"; "individual"; "startup";
              "other"];
        Default (FStr "other")];
  path "partnershipType" TString
       [Enum ["project-based"; "long-term"; "funding"; "resource-sharing";
              "knowledge-exchange"; "advocacy"; "other"]];
  path "source" TString [Default (FStr "website-collaborate-form")];
  path "ipAddress" TString [];
  path "userAgent" TString [];
  path "collaborationReference" TString [Unique];
  path "reviewedBy" TString [];
  path "reviewedAt" TDate [];
  path "meetingDate" TDate [];
  path "partnershipStartDate" TDate [];
  path "declineReason" TString [];
  path "notes" TString [MaxLength 1000];
  path "priority" TString
       [Enum ["low"; "medium"; "high"; "urgent"]; Default (FStr "medium")]
].

Definition Collaboration : Model :=
  {| schema := collaborationSchema; uniqueIndexes := [];
     preSave := OtherModels.collaborationPreSaveHook |}.

End CollaborationModel.

Module NewsSubmissionModel.

Definition newsSubmissionSchema : Schema := [
  fullNamePath;
  emailPath [];
  path "newsUpdate" TString [Required; Trim; MinLength 10; MaxLength 2000];
  path "status" TString
       [Enum ["pending"; "under-review"; "approved"; "published"; "rejected"];
        Default (FStr "pending")];
  path "category" TString
       [Enum ["announcement"; "event"; "achievement"; "accessibility"; "inclusion";
              "other"];
        Default (FStr "other")];
  path "source" TString [Default (FStr "website-news-form")];
  path "ipAddress" TString [];
  path "userAgent" TString [];
  path "submissionReference" TString [Unique];
  path "reviewedBy" TString [];
  path "reviewedAt" TDate [];
  path "publishedAt" TDate [];
  path "rejectionReason" TString []
].

Definition NewsSubmission : Model :=
  {| schema := newsSubmissionSchema; uniqueIndexes := [];
     preSave := OtherModels.newsSubmissionPreSaveHook |}.

End NewsSubmissionModel.

Module InternStatus.
Import InternModel.

Definition statusValues : list string :=
  ["pending"; "under-review"; "interview-scheduled"; "accepted"; "rejected"; "completed"].

Definition durationValues : list string := ["1-month"; "3-months"; "6-months"; "flexible"].

Section Handlers.
Context `{Engine} `{DateParser}.

(** The [updateData] object of [updateInternStatus]. *)
Definition internUpdateData (env : Env) (b : Obj) : Update :=
  let status := prop b "status" in
  let duration := prop b "duration" in
  let rejectionReason := prop b "rejectionReason" in
  let reviewedBy := prop b "reviewedBy" in
  let notes := prop b "notes" in
  let mentor := prop b "mentor" in
  let interviewDate := prop b "interviewDate" in
  let startDate := prop b "startDate" in
  let endDate := prop b "endDate" in
  let updateData : Update := ∅ in
  let updateData :=
    if truthy status && includesStr statusValues status then
      let u := <["status" := Raw status]> updateData in
      let u := <["reviewedAt" := NewDate (now env)]> u in
      if isStr "rejected" status && truthy rejectionReason
      then <["rejectionReason" := Raw rejectionReason]> u else u
    else updateData in
  let updateData :=
    if truthy duration && includesStr durationValues duration
    then <["duration" := Raw duration]> updateData else updateData in
  let updateData :=
    if truthy reviewedBy then <["reviewedBy" := Raw reviewedBy]> updateData
    else updateData in
  let updateData :=
    if truthy notes then <["notes" := Raw (sanitizeInput notes)]> updateData
    else updateData in
  let updateData :=
    if truthy mentor then <["mentor" := Raw mentor]> updateData else updateData in
  let updateData :=
    if truthy interviewDate
    then <["interviewDate" := newDateOf interviewDate]> updateData else updateData in
  let updateData :=
    if truthy startDate
    then <["startDate" := newDateOf startDate]> updateData else updateData in
  if truthy endDate then <["endDate" := newDateOf endDate]> updateData
  else updateData.

Definition updateInternStatus (env : Env) (id : option N) (b : Obj)
    (db : Collection) : Response * Collection :=
  let updateData := internUpdateData env b in
  if size updateData =? 0 then (reject 400 "No valid fields to update", db) else
  answerUpdate "Internship application not found"
    "Internship status updated successfully" db
    (findByIdAndUpdate Intern env id updateData db).

End Handlers.
End InternStatus.

Module CollaborationStatus.
Import CollaborationModel.

Definition statusValues : list string :=
  ["pending"; "under-review"; "meeting-scheduled"; "in-discussion"; "approved";
   "active-partnership"; "declined"; "on-hold"].

Definition organizationTypeValues : list string :=
  ["ngo"; "corporate"; "government"; "institution"; "individual"; "startup"; "other"].

Definition partnershipTypeValues : list string :=
  ["project-based"; "long-term"; "funding"; "resource-sharing"; "knowledge-exchange";
   "advocacy"; "other"].

Definition priorityValues : list string := ["low"; "medium"; "high"; "urgent"].

Section Handlers.
Context `{Engine} `{DateParser}.

(** The [updateData] object of [updateCollaborationStatus]. *)
Definition collaborationUpdateData (env : Env) (b : Obj) : Update :=
  let status := prop b "status" in
  let organizationType := prop b "organizationType" in
  let partnershipType := prop b "partnershipType" in
  let priority := prop b "priority" in
  let declineReason := prop b "declineReason" in
  let reviewedBy := prop b "reviewedBy" in
  let notes := prop b "notes" in
  let meetingDate := prop b "meetingDate" in
  let partnershipStartDate := prop b "partnershipStartDate" in
  let updateData : Update := ∅ in
  let updateData :=
    if truthy status && includesStr statusValues status then
      let u := <["status" := Raw status]> updateData in
      let u := <["reviewedAt" := NewDate (now env)]> u in
      let u := if isStr "declined" status && truthy declineReason
               then <["declineReason" := Raw declineReason]> u else u in
      if isStr "active-partnership" status && truthy partnershipStartDate
      then <["partnershipStartDate" := newDateOf partnershipStartDate]> u else u
    else updateData in
  let updateData :=
    if truthy organizationType && includesStr organizationTypeValues organizationType
    then <["organizationType" := Raw organizationType]> updateData else updateData in
  let updateData :=
    if truthy partnershipType && includesStr partnershipTypeValues partnershipType
    then <["partnershipType" := Raw partnershipType]> updateData else updateData in
  let updateData :=
    if truthy priority && includesStr priorityValues priority
    then <["priority" := Raw priority]> updateData else updateData in
  let updateData :=
    if truthy reviewedBy then <["reviewedBy" := Raw reviewedBy]> updateData
    else updateData in
  let updateData :=
    if truthy notes then <["notes" := Raw (sanitizeInput notes)]> updateData
    else updateData in
  if truthy meetingDate then <["meetingDate" := newDateOf meetingDate]> updateData
  else updateData.

Definition updateCollaborationStatus (env : Env) (id : option N) (b : Obj)
    (db : Collection) : Response * Collection :=
  let updateData := collaborationUpdateData env b in
  if size updateData =? 0 then (reject 400 "No valid fields to update", db) else
  answerUpdate "Collaboration request not found"
    "Collaboration status updated successfully" db
    (findByIdAndUpdate Collaboration env id updateData db).

End Handlers.
End CollaborationStatus.

Module NewsSubmissionStatus.
Import NewsSubmissionModel.

Definition statusValues : list string :=
  ["pending"; "under-review"; "approved"; "published"; "rejected"].

Definition categoryValues : list string :=
  ["announcement"; "event"; "achievement"; "accessibility"; "inclusion"; "other"].

(** The [updateData] object of [updateSubmissionStatus] of the news
    submissions. *)
Definition submissionUpdateData (env : Env) (b : Obj) : Update :=
  let status := prop b "status" in
  let category := prop b "category" in
  let rejectionReason := prop b "rejectionReason" in
  let reviewedBy := prop b "reviewedBy" in
  let updateData : Update := ∅ in
  let updateData :=
    if truthy status && includesStr statusValues status then
      let u := <["status" := Raw status]> updateData in
      let u := <["reviewedAt" := NewDate (now env)]> u in
      let u := if isStr "published" status
               then <["publishedAt" := NewDate (now env)]> u else u in
      if isStr "rejected" status && truthy rejectionReason
      then <["rejectionReason" := Raw rejectionReason]> u else u
    else updateData in
  let updateData :=
    if truthy category && includesStr categoryValues category
    then <["category" := Raw category]> updateData else updateData in
  if truthy reviewedBy then <["reviewedBy" := Raw reviewedBy]> updateData
  else updateData.

Section Handlers.
Context `{Engine}.

Definition updateSubmissionStatus (env : Env) (id : option N) (b : Obj)
    (db : Collection) : Response * Collection :=
  let updateData := submissionUpdateData env b in
  if size updateData =? 0 then (reject 400 "No valid fields to update", db) else
  answerUpdate "News submission not found" "Submission status updated successfully" db
    (findByIdAndUpdate NewsSubmission env id updateData db).

End Handlers.
End NewsSubmissionStatus.

(** The status update of the contact controller. Its model
    ([models/contact]) is not among the sources: it is a parameter. *)
Module ContactStatus.

Definition statusValues : list string := ["new"; "in-progress"; "resolved"].

Section Handlers.
Context `{Engine}.
Variable Contact : Model.

Definition updateContactStatus (env : Env) (id : option N) (b : Obj)
    (db : Collection) : Response * Collection :=
  let status := prop b "status" in
  if negb (includesStr statusValues status)
  then (reject 400 "Invalid status. Must be: new, in-progress, or resolved", db) else
  answerUpdate "Contact not found" "Status updated successfully" db
    (findByIdAndUpdate Contact env id (<["status" := Raw status]> ∅) db).

End Handlers.
End ContactStatus.

(** The disability types of the registration form, the empty choice
    aside. *)
Definition listedDisabilityTypes : list string :=
  ["Visual Impairment"; "Hearing Impairment"; "Locomotor Disability";
   "Intellectual Disability"; "Speech & Language Disability";
   "Multiple Disabilities"; "Other (please specify)"].

(* ===================================================================== *)
(** ** Media controller *)
(* ===================================================================== *)

(** [new URL(s)] is the URL parser of the platform, a parameter here:
    whether it accepts the string. *)
Class UrlParser := {
  parsesAsUrl : string -> bool;
}.

Module MediaController.
Import MediaSubmissionModel.

Definition imageExtensions : list string :=
  [".jpg"; ".jpeg"; ".png"; ".gif"; ".webp"; ".bmp"].

Definition videoExtensions : list string :=
  [".mp4"; ".mov"; ".avi"; ".wmv"; ".flv"; ".webm"; ".mkv"].

Definition supportedDomains : list string :=
  ["youtube.com"; "youtu.be"; "vimeo.com"; "drive.google.com"; "dropbox.com"; "imgur.com"].

Definition hasValidExtension (urlLower : string) : bool :=
  existsb (fun ext => Text.includes ext urlLower) (imageExtensions ++ videoExtensions).

Definition hasValidDomain (urlLower : string) : bool :=
  existsb (fun domain => Text.includes domain urlLower) supportedDomains.

(** The fields of a submission that passed the checks of the handler. *)
Record Checked := {
  fullName : JsVal;
  email : string;
  mediaUrl : JsVal;
  description : JsVal;
}.

Definition statusValues : list string :=
  ["pending"; "under-review"; "approved"; "featured"; "rejected"].

Definition categoryValues : list string :=
  ["event"; "initiative"; "testimonial"; "achievement"; "other"].

(** The [updateData] object of [updateSubmissionStatus]. *)
Definition submissionUpdateData (env : Env) (b : Obj) : Update :=
  let status := prop b "status" in
  let category := prop b "category" in
  let rejectionReason := prop b "rejectionReason" in
  let reviewedBy := prop b "reviewedBy" in
  let updateData : Update := ∅ in
  let updateData :=
    if truthy status && includesStr statusValues status then
      let u := <["status" := Raw status]> updateData in
      let u := <["reviewedAt" := NewDate (now env)]> u in
      let u := if isStr "featured" status
               then <["featuredAt" := NewDate (now env)]> u else u in
      if isStr "rejected" status && truthy rejectionReason
      then <["rejectionReason" := Raw rejectionReason]> u else u
    else updateData in
  let updateData :=
    if truthy category && includesStr categoryValues category
    then <["category" := Raw category]> updateData else updateData in
  if truthy reviewedBy then <["reviewedBy" := Raw reviewedBy]> updateData
  else updateData.

Section Handlers.
Context `{Engine} `{UrlParser}.

(** A value that is not a string fails either in [new URL(url)] or, when
    its text happens to parse, in [url.toLowerCase()]; the [catch] answers
    both the same way. *)
Definition validateMediaUrl (url : JsVal) : Validation :=
  if negb (truthy url) then invalid "Media URL is required" else
  match url with
  | JStr s =>
      if parsesAsUrl s then
        let urlLower := Text.toLowerCase s in
        if negb (hasValidExtension urlLower) && negb (hasValidDomain urlLower)
        then invalid "Please provide a valid image/video URL or link from supported platforms (YouTube, Vimeo, Google Drive, etc.)"
        else valid ""
      else invalid "Please enter a valid URL"
  | _ => invalid "Please enter a valid URL"
  end.

(** Presence check, sanitization and field validation of
    [submitMediaUpload]: the rejection, or the checked fields. *)
Definition checkMediaUpload (b : Obj) : Response + Checked :=
  let fullName := prop b "fullName" in
  let email := prop b "email" in
  let mediaUrl := prop b "mediaUrl" in
  let description := prop b "description" in
  if negb (truthy fullName) || negb (truthy email) || negb (truthy mediaUrl)
  then inl (reject 400 "All required fields must be provided") else
  match toLowerCaseOf email with
  | None => inl serverError
  | Some lower =>
  let fullName := sanitizeInput fullName in
  let email := sanitize lower in
  let mediaUrl := sanitizeInput mediaUrl in
  let description := if truthy description then sanitizeInput description else JStr "" in
  if lengthLt fullName 2 || lengthGt fullName 100
  then inl (reject 400 "Name must be between 2-100 characters") else
  let emailValidation := validateEmail email in
  if negb (isValid emailValidation) then inl (reject 400 (reason emailValidation)) else
  let urlValidation := validateMediaUrl mediaUrl in
  if negb (isValid urlValidation) then inl (reject 400 (reason urlValidation)) else
  if truthy description && lengthGt description 1000
  then inl (reject 400 "Description must be less than 1000 characters") else
  inr {| fullName := fullName; email := email; mediaUrl := mediaUrl;
         description := description |}
  end.

(** The duplicate guard: a submission of the same email created within the
    last hour. *)
Definition recentSubmission (env : Env) (email : string) (db : Collection) : option Doc :=
  let oneHourAgo := (now env - 60 * 60 * 1000)%Z in
  findOne (fun d => hasEmail email d && createdSince oneHourAgo d) db.

Definition submitMediaUpload (env : Env) (req : Request) (db : Collection)
  : Response * Collection :=
  match checkMediaUpload (body req) with
  | inl r => (r, db)
  | inr c =>
      match recentSubmission env (email c) db with
      | Some _ =>
          (reject 429 "Please wait at least one hour before submitting another media upload", db)
      | None =>
          let ipAddress := clientIp req in
          let userAgent := orElse (userAgentHeader req) (JStr "") in
          match create MediaSubmission env
                  (list_to_map [("fullName", fullName c); ("email", JStr (email c));
                                ("mediaUrl", mediaUrl c);
                                ("description", description c);
                                ("ipAddress", ipAddress); ("userAgent", userAgent)]) db with
          | inr (_, db') =>
              (accept 201 "Thank you for sharing your experience with MAD Foundation. Your media submission has been received successfully.", db')
          | inl _ => (serverError, db)
          end
      end
  end.

Definition updateSubmissionStatus (env : Env) (id : option N) (b : Obj)
    (db : Collection) : Response * Collection :=
  let updateData := submissionUpdateData env b in
  if size updateData =? 0 then (reject 400 "No valid fields to update", db) else
  answerUpdate "Media submission not found" "Submission status updated successfully" db
    (findByIdAndUpdate MediaSubmission env id updateData db).

End Handlers.
End MediaController.
(* ===================================================================== *)
(** ** The admin status updates, side by side *)
(* ===================================================================== *)

(** A status update: its handler, the property of the body (and path of
    the record) that carries the status, the enumeration the handler tests
    it against, and whether the body holds another field the handler
    takes into [updateData]. *)
Record StatusUpdate := {
  handler : Env -> option N -> Obj -> Collection -> Response * Collection;
  statusProperty : string;
  enumeration : list string;
  otherField : Obj -> bool;
}.

Section StatusUpdates.
Context `{Engine} `{DateParser}.
Variable Contact : Model.

(** A property that is truthy and in the list. *)
Definition presentIn (l : list string) (b : Obj) (k : string) : bool :=
  truthy (prop b k) && includesStr l (prop b k).

Definition present (b : Obj) (k : string) : bool := truthy (prop b k).

Definition statusUpdates : list StatusUpdate := [
  {| handler := DonationController.updateDonationStatus;
     statusProperty := "status";
     enumeration := DonationController.statusValues;
     otherField := fun b => presentIn DonationController.paymentStatusValues b "paymentStatus" |};
  {| handler := EventRegistrationController.updateRegistrationStatus;
     statusProperty := "registrationStatus";
     enumeration := EventRegistrationController.registrationStatusValues;
     otherField := fun _ => false |};
  {| handler := VolunteerStatus.updateVolunteerStatus;
     statusProperty := "status";
     enumeration := VolunteerStatus.statusValues;
     otherField := fun b => presentIn VolunteerStatus.availabilityValues b "availability"
                            || present b "reviewedBy" || present b "notes" |};
  {| handler := ContactUsStatus.updateContactUsStatus;
     statusProperty := "status";
     enumeration := ContactUsStatus.statusValues;
     otherField := fun b => presentIn ContactUsStatus.priorityValues b "priority"
                            || present b "assignedTo" || present b "notes" |};
  {| handler := InternStatus.updateInternStatus;
     statusProperty := "status";
     enumeration := InternStatus.statusValues;
     otherField := fun b => presentIn InternStatus.durationValues b "duration"
                            || present b "reviewedBy" || present b "notes" || present b "mentor"
                            || present b "interviewDate" || present b "startDate"
                            || present b "endDate" |};
  {| handler := CollaborationStatus.updateCollaborationStatus;
     statusProperty := "status";
     enumeration := CollaborationStatus.statusValues;
     otherField := fun b =>
       presentIn CollaborationStatus.organizationTypeValues b "organizationType"
       || presentIn CollaborationStatus.partnershipTypeValues b "partnershipType"
       || presentIn CollaborationStatus.priorityValues b "priority"
       || present b "reviewedBy" || present b "notes" || present b "meetingDate" |};
  {| handler := NewsSubmissionStatus.updateSubmissionStatus;
     statusProperty := "status";
     enumeration := NewsSubmissionStatus.statusValues;
     otherField := fun b => presentIn NewsSubmissionStatus.categoryValues b "category"
                            || present b "reviewedBy" |};
  {| handler := MediaController.updateSubmissionStatus;
     statusProperty := "status";
     enumeration := MediaController.statusValues;
     otherField := fun b => presentIn MediaController.categoryValues b "category"
                            || present b "reviewedBy" |};
  {| handler := ContactStatus.updateContactStatus Contact;
     statusProperty := "status";
     enumeration := ContactStatus.statusValues;
     otherField := fun _ => false |}
].

End StatusUpdates.

(** The properties an update object may hold are among [l]. *)
Definition keysWithin (l : list string) (u : Update) : Prop :=
  forall k : string, ~ In k l -> u !! k = None.

(* ===================================================================== *)
(** ** The store: documents and their ids *)
(* ===================================================================== *)

(** MongoDB gives every stored document an [_id] of its own: each document
    of the collection has one, and no later document has the same. *)
Fixpoint distinctIds (db : Collection) : bool :=
  match db with
  | [] => true
  | d :: r =>
      match d !! "_id" with
      | Some (FId i) => negb (existsb (hasId i) r) && distinctIds r
      | _ => false
      end
  end.

(* ===================================================================== *)
(** ** More sample requests *)
(* ===================================================================== *)

Module MoreSamples.
Import Samples.

(** The URL parser of the sample runs: it accepts the strings with an
    [http] or [https] scheme. *)
Definition schemeParser : UrlParser :=
  {| parsesAsUrl := fun s => String.prefix "http://" s || String.prefix "https://" s |}.

(** The date parser of the sample runs: it reads a number as a time in
    milliseconds, and nothing else. *)
Definition numberDates : DateParser :=
  {| timeOf := fun v => match v with
                        | JNum (Fin q) => Some (Qfloor q)
                        | _ => None
                        end |}.

(** The same registration under another name, the event written as a
    string. *)
Definition sameEventAgain : Request :=
  withField "fullName" (JStr "M. Nair") (withField "eventId" (JStr "7") registration).


(** A donation whose email is the boolean [true]. *)
Definition booleanEmail : Request := withField "email" (JBool true) donation.

(** A registration that answers No and names a disability type. *)
Definition typeWithoutDisability : Request :=
  withField "disabilityType" (JStr "Visual Impairment") registration.

(** A status update that sends no notes. *)
Definition waitlisted : Obj := list_to_map [("registrationStatus", JStr "waitlist")].


End MoreSamples.

(* ===================================================================== *)
(** * Properties *)
(* ===================================================================== *)

(** ** Regular expressions: the test by derivatives *)

Section RegexFacts.
Import Regex.

Lemma atom_eqb_sound (a b : atom) : atom_eqb a b = true -> a = b.
Proof.
  destruct a, b; cbn; try discriminate; try reflexivity.
  - intros E. apply Ascii.eqb_eq in E. congruence.
  - intros E. apply andb_true_iff in E as [E1 E2].
    apply Ascii.eqb_eq in E1, E2. congruence.
Qed.

Lemma atoms_eqb_sound (l m : list atom) : atoms_eqb l m = true -> l = m.
Proof.
  revert m. induction l as [|a l IH]; intros [|b m]; cbn; try discriminate.
  - reflexivity.
  - intros E. apply andb_true_iff in E as [E1 E2].
    apply atom_eqb_sound in E1. apply IH in E2. congruence.
Qed.

Lemma regex_eqb_sound (r s : t) : eqb r s = true -> r = s.
Proof.
  revert s. induction r as [| |n l|a IHa b IHb|a IHa b IHb|a IHa];
    intros s; destruct s; cbn; try discriminate; try reflexivity.
  - intros E. apply andb_true_iff in E as [E1 E2].
    apply Bool.eqb_prop in E1. apply atoms_eqb_sound in E2. congruence.
  - intros E. apply andb_true_iff in E as [E1 E2].
    apply IHa in E1. apply IHb in E2. congruence.
  - intros E. apply andb_true_iff in E as [E1 E2].
    apply IHa in E1. apply IHb in E2. congruence.
  - intros E. apply IHa in E. congruence.
Qed.

Lemma append_nil (v : string) : EmptyString +:+ v = v.
Proof. reflexivity. Qed.

Lemma append_cons (c : ascii) (u v : string) : String c u +:+ v = String c (u +:+ v).
Proof. reflexivity. Qed.

Lemma append_empty (u : string) : u +:+ EmptyString = u.
Proof.
  induction u as [|c u IH]; [reflexivity|]. rewrite append_cons, IH. reflexivity.
Qed.

Lemma lang_Void (w : string) : ~ lang Void w.
Proof. intros L. inversion L. Qed.

Lemma lang_Eps (w : string) : lang Eps w -> w = EmptyString.
Proof. intros L. inversion L. reflexivity. Qed.

Lemma lang_Seq_inv (r s : t) (w : string) :
  lang (Seq r s) w -> exists u v, w = u +:+ v /\ lang r u /\ lang s v.
Proof. intros L. inversion L; subst. eauto. Qed.

Lemma lang_seq (r s : t) (w : string) : lang (seq r s) w <-> lang (Seq r s) w.
Proof.
  assert (V1 : forall x, lang (Seq Void x) w <-> lang Void w).
  { intros x. split; intros L; inversion L; subst.
    exfalso. eapply lang_Void. eassumption. }
  assert (V2 : forall x, lang (Seq x Void) w <-> lang Void w).
  { intros x. split; intros L; inversion L; subst.
    exfalso. eapply lang_Void. eassumption. }
  assert (E1 : forall x, lang (Seq Eps x) w <-> lang x w).
  { intros x. split; intros L.
    - apply lang_Seq_inv in L as (u & v & -> & Lu & Lv).
      apply lang_Eps in Lu. subst u. exact Lv.
    - change w with (EmptyString +:+ w). constructor; [constructor | exact L]. }
  assert (E2 : forall x, lang (Seq x Eps) w <-> lang x w).
  { intros x. split; intros L.
    - apply lang_Seq_inv in L as (u & v & -> & Lu & Lv).
      apply lang_Eps in Lv. subst v. rewrite append_empty. exact Lu.
    - rewrite <- (append_empty w). constructor; [exact L | constructor]. }
  destruct r, s; cbn [seq];
    first [ reflexivity
          | symmetry; apply V1 | symmetry; apply E1
          | rewrite V2; reflexivity | symmetry; apply E2 ].
Qed.

Lemma lang_alt (r s : t) (w : string) : lang (alt r s) w <-> lang (Alt r s) w.
Proof.
  assert (V1 : forall x, lang (Alt Void x) w <-> lang x w).
  { intros x. split; intros L.
    - inversion L; subst; [exfalso; eapply lang_Void; eassumption | assumption].
    - apply LAltR. exact L. }
  assert (V2 : forall x, lang (Alt x Void) w <-> lang x w).
  { intros x. split; intros L.
    - inversion L; subst; [assumption | exfalso; eapply lang_Void; eassumption].
    - apply LAltL. exact L. }
  assert (D : forall x y, lang (if eqb x y then x else Alt x y) w <-> lang (Alt x y) w).
  { intros x y. destruct (eqb x y) eqn:E; [|reflexivity].
    apply regex_eqb_sound in E. subst y. split; intros L.
    - apply LAltL. exact L.
    - inversion L; assumption. }
  destruct r, s; cbn [alt];
    first [ symmetry; apply V1 | symmetry; apply V2 | apply D ].
Qed.

Lemma nullable_lang (r : t) : nullable r = true <-> lang r EmptyString.
Proof.
  induction r as [| |n l|a IHa b IHb|a IHa b IHb|a IHa]; cbn [nullable].
  - split; [discriminate | intros L; inversion L].
  - split; [constructor | reflexivity].
  - split; [discriminate | intros L; inversion L].
  - rewrite andb_true_iff, IHa, IHb. split.
    + intros [La Lb]. change EmptyString with (EmptyString +:+ EmptyString).
      constructor; assumption.
    + intros L. apply lang_Seq_inv in L as (u & v & E & Lu & Lv).
      destruct u; [|discriminate]. destruct v; [|discriminate]. tauto.
  - rewrite orb_true_iff, IHa, IHb. split.
    + intros [L|L]; [apply LAltL | apply LAltR]; exact L.
    + intros L. inversion L; subst; tauto.
  - split; [constructor | reflexivity].
Qed.

(** A non-empty match of [r*] starts with a non-empty match of [r]. *)
Lemma lang_Star_cons (r : t) (c : ascii) (w : string) :
  lang (Star r) (String c w) ->
  exists u v, w = u +:+ v /\ lang r (String c u) /\ lang (Star r) v.
Proof.
  intros L. remember (Star r) as x eqn:X. remember (String c w) as y eqn:Y.
  revert X Y. induction L as [| | | | | |r' u v Lu _ Lv IH]; try discriminate.
  intros X Y. injection X as ->. destruct u as [|c' u].
  - rewrite append_nil in Y. apply IH; [reflexivity | exact Y].
  - rewrite append_cons in Y. injection Y as -> <-. exists u, v. tauto.
Qed.

Lemma deriv_lang (c : ascii) (r : t) (w : string) :
  lang (deriv c r) w <-> lang r (String c w).
Proof.
  revert w. induction r as [| |n l|a IHa b IHb|a IHa b IHb|a IHa]; intros w;
    cbn [deriv].
  - split; intros L; inversion L.
  - split; intros L; inversion L.
  - destruct (classHas n l c) eqn:E; split; intros L.
    + apply lang_Eps in L. subst w. constructor. exact E.
    + inversion L; subst. constructor.
    + inversion L.
    + inversion L; subst. congruence.
  - assert (S1 : lang (seq (deriv c a) b) w ->
                 lang (Seq a b) (String c w)).
    { intros L. apply lang_seq in L.
      apply lang_Seq_inv in L as (u & v & -> & Lu & Lv).
      apply IHa in Lu. change (String c (u +:+ v)) with (String c u +:+ v).
      constructor; assumption. }
    assert (S2 : forall u v, lang a (String c u) -> lang b v ->
                 lang (seq (deriv c a) b) (u +:+ v)).
    { intros u v Lu Lv. apply lang_seq. constructor; [apply IHa|]; assumption. }
    destruct (nullable a) eqn:N.
    + rewrite lang_alt. split; intros L.
      * inversion L as [| | |? ? ? L'|? ? ? L'| |]; subst.
        -- apply S1. exact L'.
        -- apply IHb in L'. change (String c w) with (EmptyString +:+ String c w).
           constructor; [apply nullable_lang; exact N | exact L'].
      * apply lang_Seq_inv in L as (u & v & E & Lu & Lv). symmetry in E.
        destruct u as [|c' u]; [rewrite append_nil in E | rewrite append_cons in E].
        -- subst v. apply LAltR. apply IHb. exact Lv.
        -- injection E as -> <-. apply LAltL. apply S2; assumption.
    + split; intros L.
      * apply S1. exact L.
      * apply lang_Seq_inv in L as (u & v & E & Lu & Lv). symmetry in E.
        destruct u as [|c' u]; [rewrite append_nil in E | rewrite append_cons in E].
        -- apply nullable_lang in Lu. congruence.
        -- injection E as -> <-. apply S2; assumption.
  - rewrite lang_alt. split; intros L.
    + inversion L; subst; [apply LAltL, IHa | apply LAltR, IHb]; assumption.
    + inversion L; subst; [apply LAltL, IHa | apply LAltR, IHb]; assumption.
  - rewrite lang_seq. split; intros L.
    + apply lang_Seq_inv in L as (u & v & -> & Lu & Lv).
      apply IHa in Lu. change (String c (u +:+ v)) with (String c u +:+ v).
      constructor; assumption.
    + apply lang_Star_cons in L as (u & v & -> & Lu & Lv).
      constructor; [apply IHa|]; assumption.
Qed.

(** The test by derivatives decides the meaning of the pattern. *)
Lemma test_lang (r : t) (s : string) : test r s = true <-> lang r s.
Proof.
  revert r. induction s as [|c w IH]; intros r; cbn [test].
  - apply nullable_lang.
  - rewrite IH. apply deriv_lang.
Qed.

End RegexFacts.

(** ** Donation amount *)

Section DonationAmount.
Context `{Engine}.
Import DonationController.

Lemma numLe_Fin (x y : Q) : numLe (Fin x) (Fin y) = Qle_bool x y.
Proof. reflexivity. Qed.

Lemma Qle_bool_false (x y : Q) : Qle_bool x y = false <-> (y < x)%Q.
Proof.
  split; intros E.
  - apply Qnot_le_lt. intros L. apply Qle_bool_iff in L. congruence.
  - destruct (Qle_bool x y) eqn:L; [|reflexivity].
    apply Qle_bool_iff in L. lra.
Qed.

(** The three tests of [validateDonationAmount] amount to the one range
    test on the converted value. *)
Lemma amount_valid_range (a : JsVal) :
  amountValid (validateDonationAmount a)
  = numLe (ofZ 1) (ToNumber a) && numLe (ToNumber a) (ofZ 10000000).
Proof.
  unfold validateDonationAmount.
  destruct (ToNumber a) as [| | |q]; try reflexivity.
  unfold numGt, ofZ. cbn [isNaN orb numLe numLt].
  destruct (Qle_bool q (inject_Z 0)) eqn:E0.
  - cbn. apply Qle_bool_iff in E0. symmetry. apply andb_false_iff. left.
    apply Qle_bool_false. unfold inject_Z in *. lra.
  - destruct (Qle_bool (inject_Z 1) q) eqn:E1; cbn.
    + destruct (Qle_bool q (inject_Z 10000000)); reflexivity.
    + reflexivity.
Qed.

(** C8 (as amended): the validation accepts exactly the inputs whose
    conversion [Number(amount)] lies in [[1, 10000000]]. For a number that
    is the inclusive range test; 0 and 10000001 are rejected, 1 and
    10000000 are accepted; an input that converts to [NaN] is rejected.
    Inputs that are not numbers are judged by their conversion. *)
Theorem donation_amount_range :
  (forall a : JsVal,
      amountValid (validateDonationAmount a)
      = numLe (ofZ 1) (ToNumber a) && numLe (ToNumber a) (ofZ 10000000))
  /\ (forall q : Q,
      amountValid (validateDonationAmount (JNum (Fin q)))
      = Qle_bool 1 q && Qle_bool q 10000000)
  /\ amountValid (validateDonationAmount (JNum (ofZ 0))) = false
  /\ amountValid (validateDonationAmount (JNum (ofZ 10000001))) = false
  /\ amountValid (validateDonationAmount (JNum (ofZ 1))) = true
  /\ amountValid (validateDonationAmount (JNum (ofZ 10000000))) = true
  /\ (forall a : JsVal,
      isNaN (ToNumber a) && amountValid (validateDonationAmount a) = false)
  /\ (forall a : JsVal,
      amount (validateDonationAmount a)
      = if amountValid (validateDonationAmount a) then Some (ToNumber a) else None).
Proof.
  repeat split; try reflexivity.
  - apply amount_valid_range.
  - intros q. apply amount_valid_range.
  - intros a. rewrite amount_valid_range.
    destruct (ToNumber a); reflexivity.
  - intros a. unfold validateDonationAmount.
    destruct (isNaN (ToNumber a) || numLe (ToNumber a) (ofZ 0)); [reflexivity|].
    destruct (numLt (ToNumber a) (ofZ 1)); [reflexivity|].
    destruct (numGt (ToNumber a) (ofZ 10000000)); reflexivity.
Qed.

End DonationAmount.

(** ** Reference codes *)




Lemma referenceHook_lookup (field prefix : string) (e : Env) (d : Doc) :
  referenceHook field prefix e d !! field
  = if truthyField (d !! field) then d !! field
    else Some (FStr (generateReference prefix e)).
Proof.
  unfold referenceHook. destruct (truthyField (d !! field)); cbn.
  - reflexivity.
  - apply lookup_insert_eq.
Qed.

Lemma referenceHook_other (field prefix k : string) (e : Env) (d : Doc) :
  k <> field -> referenceHook field prefix e d !! k = d !! k.
Proof.
  intros N. unfold referenceHook. destruct (negb _); [|reflexivity].
  apply lookup_insert_ne. congruence.
Qed.


Lemma detectMediaType_other (k : string) (d : Doc) :
  k <> "mediaType" -> MediaSubmissionModel.detectMediaType d !! k = d !! k.
Proof.
  intros N. unfold MediaSubmissionModel.detectMediaType.
  destruct (d !! "mediaUrl") as [[]|]; try reflexivity.
  destruct (_ && _); [|reflexivity].
  destruct (existsb _ _); [apply lookup_insert_ne; congruence|].
  destruct (existsb _ _); [apply lookup_insert_ne; congruence|reflexivity].
Qed.





(** C3, at the failing input: when [Math.random()] returns [0.5], whose
    radix-36 text is [0.i], the suffix of the reference has one character
    and the reference does not match the format. *)
Theorem reference_suffix_short :
  Text.radix36 1 1 = "0.i"
  /\ generateReference "DON" Samples.envHalf = "DON-00000000-I"
  /\ Regex.test (referencePattern "DON") (generateReference "DON" Samples.envHalf) = false
  /\ DonationModel.preSaveHook Samples.envHalf ∅ !! "donationReference"
     = Some (FStr "DON-00000000-I").
Proof. repeat split; vm_compute; reflexivity. Qed.

(** A draw with four digits or more gives a reference of the format. *)
Example reference_format_sample :
  generateReference "VOL" Samples.env1 = "VOL-00000000-4FZY"
  /\ Regex.test (referencePattern "VOL") (generateReference "VOL" Samples.env1) = true.
Proof. split; vm_compute; reflexivity. Qed.

(** ** Reference codes: the format *)

Section ReferenceFormat.
Import Regex.

Lemma length_append (u v : string) :
  String.length (u +:+ v) = String.length u + String.length v.
Proof.
  induction u as [|c u IH]; [reflexivity|].
  rewrite append_cons. cbn [String.length]. rewrite IH. reflexivity.
Qed.

Lemma length_substring (s : string) (a n : nat) :
  String.length (String.substring a n s) = Nat.min n (String.length s - a).
Proof.
  revert a n. induction s as [|c s IH]; intros [|a] [|n]; cbn; try reflexivity;
    rewrite IH; cbn; lia.
Qed.

Lemma length_mapChars (f : ascii -> ascii) (s : string) :
  String.length (Text.mapChars f s) = String.length s.
Proof. induction s as [|c s IH]; cbn; [reflexivity|]. rewrite IH. reflexivity. Qed.

Lemma allChars_mapChars (p q : ascii -> bool) (f : ascii -> ascii) (s : string) :
  (forall c, p c = true -> q (f c) = true) ->
  Text.allChars p s = true -> Text.allChars q (Text.mapChars f s) = true.
Proof.
  intros F. induction s as [|c s IH]; cbn; [reflexivity|].
  intros A. apply andb_true_iff in A as [A1 A2].
  rewrite (F _ A1), (IH A2). reflexivity.
Qed.

Lemma allChars_weaken (p q : ascii -> bool) (s : string) :
  (forall c, p c = true -> q c = true) ->
  Text.allChars p s = true -> Text.allChars q s = true.
Proof.
  intros F. induction s as [|c s IH]; cbn; [reflexivity|].
  intros A. apply andb_true_iff in A as [A1 A2].
  rewrite (F _ A1), (IH A2). reflexivity.
Qed.

Lemma allChars_substring (p : ascii -> bool) (s : string) (a n : nat) :
  Text.allChars p s = true -> Text.allChars p (String.substring a n s) = true.
Proof.
  revert a n. induction s as [|c s IH]; intros [|a] [|n]; cbn; try reflexivity.
  - intros A. apply andb_true_iff in A as [A1 A2]. rewrite A1, (IH _ _ A2). reflexivity.
  - intros A. apply andb_true_iff in A as [_ A2]. apply IH. exact A2.
  - intros A. apply andb_true_iff in A as [_ A2]. apply IH. exact A2.
Qed.

(** *** The decimal text of the time stamp *)

Lemma decimal_digit (n : N) : Text.isDigit (ascii_of_N (48 + n mod 10)) = true.
Proof.
  assert (B : (n mod 10 < 10)%N) by (apply N.mod_lt; discriminate).
  destruct (n mod 10)%N as [|[[[|[]|]|[[]|[]|]|]|[[[]|[]|]|[|[]|]|]|]]; try lia; reflexivity.
Qed.

Lemma digitsFrom_digits (fuel : nat) (n : N) (acc : string) :
  Text.allChars Text.isDigit acc = true ->
  Text.allChars Text.isDigit (Text.digitsFrom fuel n acc) = true.
Proof.
  revert n acc. induction fuel as [|f IH]; intros n acc A; cbn [Text.digitsFrom].
  - exact A.
  - assert (A' : Text.allChars Text.isDigit (String (ascii_of_N (48 + n mod 10)) acc) = true).
    { cbn [Text.allChars]. rewrite decimal_digit, A. reflexivity. }
    cbv zeta. destruct (n / 10 =? 0)%N; [exact A' | apply IH; exact A'].
Qed.

Lemma digitsFrom_grows (fuel : nat) (n : N) (acc : string) :
  String.length acc <= String.length (Text.digitsFrom fuel n acc).
Proof.
  revert n acc. induction fuel as [|f IH]; intros n acc; cbn [Text.digitsFrom].
  - lia.
  - cbv zeta. destruct (n / 10 =? 0)%N.
    + cbn [String.length]. lia.
    + etransitivity; [|apply IH]. cbn [String.length]. lia.
Qed.

(** A number of at least [10^k] has more than [k] digits, given the fuel
    for them. *)
Lemma digitsFrom_length (k fuel : nat) (n : N) (acc : string) :
  (10 ^ N.of_nat k <= n)%N -> k < fuel ->
  k + 1 + String.length acc <= String.length (Text.digitsFrom fuel n acc).
Proof.
  revert fuel n acc. induction k as [|k IH]; intros [|f] n acc B F; try lia;
    cbn [Text.digitsFrom]; cbv zeta.
  - destruct (n / 10 =? 0)%N.
    + cbn [String.length]. lia.
    + etransitivity; [|apply digitsFrom_grows]. cbn [String.length]. lia.
  - assert (D : (10 ^ N.of_nat k <= n / 10)%N).
    { apply N.div_le_lower_bound; [discriminate|].
      rewrite Nat2N.inj_succ, N.pow_succ_r' in B. exact B. }
    assert (P : (0 < 10 ^ N.of_nat k)%N) by (apply N.neq_0_lt_0, N.pow_nonzero; discriminate).
    destruct (N.eqb_spec (n / 10) 0) as [Z|_]; [lia|].
    etransitivity; [|apply IH; [exact D | lia]]. cbn [String.length]. lia.
Qed.

(** From [10^7] on, which the clock passed within three hours of 1970,
    the time stamp has eight digits or more. *)
Lemma timestamp_digits (z : Z) :
  (10 ^ 7 <= z)%Z ->
  String.length (Text.sliceLast 8 (Text.decimalZ z)) = 8
  /\ Text.allChars Text.isDigit (Text.sliceLast 8 (Text.decimalZ z)) = true.
Proof.
  intros B. destruct z as [|p|p]; try lia.
  cbn [Text.decimalZ]. unfold Text.sliceLast, Text.decimalN.
  assert (B' : (10 ^ N.of_nat 7 <= Z.to_N (Z.pos p))%N) by (cbn; lia).
  assert (L : (N.log2 (10 ^ N.of_nat 7) <= N.log2 (Z.to_N (Z.pos p)))%N)
    by (apply N.log2_le_mono; exact B').
  change (N.log2 (10 ^ N.of_nat 7)) with 23%N in L.
  pose proof (digitsFrom_length 7 (S (N.to_nat (N.log2 (Z.to_N (Z.pos p)))))
                (Z.to_N (Z.pos p)) EmptyString B' ltac:(lia)) as G.
  split.
  - rewrite length_substring. lia.
  - apply allChars_substring, digitsFrom_digits. reflexivity.
Qed.

Lemma timestamp_length (z : Z) :
  String.length (Text.sliceLast 8 (Text.decimalZ z)) <= 8.
Proof. unfold Text.sliceLast. rewrite length_substring. lia. Qed.

(** *** The pattern *)

Lemma lang_lit (p : string) : lang (lit p) p.
Proof.
  induction p as [|c p IH]; cbn [lit]; [constructor|].
  change (String c p) with (String c EmptyString +:+ p).
  constructor; [|exact IH]. constructor. unfold classHas. cbn.
  rewrite Ascii.eqb_refl. reflexivity.
Qed.

Lemma lang_times (k : nat) (l : list atom) (s : string) :
  String.length s = k ->
  Text.allChars (classHas false l) s = true ->
  lang (times k (Class false l)) s.
Proof.
  intros <-. induction s as [|c s IH]; cbn [String.length times Text.allChars];
    [constructor|].
  intros A. apply andb_true_iff in A as [A1 A2].
  change (String c s) with (String c EmptyString +:+ s).
  constructor; [constructor; exact A1 | apply IH; exact A2].
Qed.

Lemma lang_Class_length (n : bool) (l : list atom) (w : string) :
  lang (Class n l) w -> String.length w = 1.
Proof. intros L. inversion L. reflexivity. Qed.

Lemma lang_lit_length (p w : string) : lang (lit p) w -> String.length w = String.length p.
Proof.
  revert w. induction p as [|c p IH]; intros w L; cbn [lit] in L.
  - apply lang_Eps in L. subst w. reflexivity.
  - apply lang_Seq_inv in L as (u & v & -> & Lu & Lv).
    rewrite length_append, (lang_Class_length _ _ _ Lu), (IH _ Lv). reflexivity.
Qed.

Lemma lang_times_length (k : nat) (n : bool) (l : list atom) (w : string) :
  lang (times k (Class n l)) w -> String.length w = k.
Proof.
  revert w. induction k as [|k IH]; intros w L; cbn [times] in L.
  - apply lang_Eps in L. subst w. reflexivity.
  - apply lang_Seq_inv in L as (u & v & -> & Lu & Lv).
    rewrite length_append, (lang_Class_length _ _ _ Lu), (IH _ Lv). reflexivity.
Qed.

(** A string of the format is 14 characters longer than the prefix. *)
Lemma referencePattern_length (prefix w : string) :
  lang (referencePattern prefix) w -> String.length w = String.length prefix + 14.
Proof.
  unfold referencePattern, seqs. cbn [fold_right]. intros L.
  apply lang_Seq_inv in L as (u1 & v1 & -> & L1 & L).
  apply lang_Seq_inv in L as (u2 & v2 & -> & L2 & L).
  apply lang_Seq_inv in L as (u3 & v3 & -> & L3 & L).
  apply lang_Seq_inv in L as (u4 & v4 & -> & L4 & L).
  apply lang_Seq_inv in L as (u5 & v5 & -> & L5 & L).
  apply lang_Eps in L. subst v5.
  apply lang_lit_length in L1. apply lang_Class_length in L2, L4.
  apply lang_times_length in L3, L5.
  rewrite !length_append, L1, L2, L3, L4, L5. cbn [String.length]. lia.
Qed.

Lemma generateReference_length (prefix : string) (env : Env) :
  String.length (generateReference prefix env)
  = String.length prefix + 1
    + String.length (Text.sliceLast 8 (Text.decimalZ (now env))) + 1
    + Nat.min 4 (String.length (random36 env) - 2).
Proof.
  unfold generateReference. cbv zeta. unfold Text.toUpperCase, Text.substring.
  rewrite !length_append, length_mapChars, length_substring.
  cbn [String.length]. lia.
Qed.

Lemma upperChar_class (c : ascii) :
  Text.isDigit c || Text.isLower c = true ->
  classHas false [ARange "A" "Z"; ARange "0" "9"] (Text.upperChar c) = true.
Proof.
  destruct c as [[] [] [] [] [] [] [] []]; vm_compute; intros E;
    first [reflexivity | discriminate E].
Qed.

(** A draw whose radix-36 text has four digits or more behind [0.] gives
    a reference of the format. *)
Lemma reference_format_long (prefix : string) (env : Env) :
  (10 ^ 7 <= now env)%Z ->
  6 <= String.length (random36 env) ->
  Text.allChars (fun c => Text.isDigit c || Text.isLower c)
                (Text.substring 2 6 (random36 env)) = true ->
  Regex.test (referencePattern prefix) (generateReference prefix env) = true.
Proof.
  intros B R A. apply test_lang.
  destruct (timestamp_digits _ B) as [T1 T2].
  unfold generateReference, referencePattern, seqs. cbv zeta. cbn [fold_right].
  constructor; [apply lang_lit|].
  constructor; [constructor; reflexivity|].
  constructor.
  { apply lang_times; [exact T1|].
    apply (allChars_weaken Text.isDigit); [|exact T2].
    intros c D. unfold classHas. cbn. rewrite D. reflexivity. }
  constructor; [constructor; reflexivity|].
  rewrite <- (append_empty (Text.toUpperCase _)).
  constructor; [|constructor].
  apply lang_times.
  { unfold Text.toUpperCase, Text.substring.
    rewrite length_mapChars, length_substring. lia. }
  apply (allChars_mapChars (fun c => Text.isDigit c || Text.isLower c));
    [apply upperChar_class | exact A].
Qed.

(** A draw whose radix-36 text has fewer than four digits behind [0.]
    gives a reference that is too short for the format, whatever the clock
    and the prefix. *)
Lemma reference_format_short (prefix : string) (env : Env) :
  String.length (random36 env) < 6 ->
  Regex.test (referencePattern prefix) (generateReference prefix env) = false.
Proof.
  intros R. destruct (Regex.test _ _) eqn:T; [|reflexivity].
  apply test_lang, referencePattern_length in T.
  rewrite generateReference_length in T.
  pose proof (timestamp_length (now env)). lia.
Qed.

End ReferenceFormat.

(** ** The store *)

Lemma findOne_finds (q : Doc -> bool) (db : Collection) (d : Doc) :
  In d db -> q d = true -> exists d', findOne q db = Some d' /\ q d' = true.
Proof.
  intros I Q. unfold findOne. destruct (find q db) as [d'|] eqn:F.
  - exists d'. split; [reflexivity|]. apply find_some in F. tauto.
  - exfalso. apply (find_none _ _ F) in I. congruence.
Qed.

Lemma findOne_none (q : Doc -> bool) (db : Collection) :
  findOne q db = None -> forall d, In d db -> q d = false.
Proof. intros F d I. apply (find_none _ _ F), I. Qed.

Lemma findOne_app (q : Doc -> bool) (db : Collection) (d : Doc) :
  findOne q (db ++ [d])
  = match findOne q db with
    | Some x => Some x
    | None => if q d then Some d else None
    end.
Proof.
  unfold findOne. induction db as [|x db IH]; cbn.
  - reflexivity.
  - destruct (q x); [reflexivity|exact IH].
Qed.

Lemma replaceFirst_length (q : Doc -> bool) (d : Doc) (db : Collection) :
  List.length (replaceFirst q d db) = List.length db.
Proof.
  induction db as [|x db IH]; cbn; [reflexivity|].
  destruct (q x); cbn; congruence.
Qed.

(** Replacing the document a query found by one that agrees with it on
    [k] leaves the values of [k] in the collection as they were. *)
Lemma replaceFirst_same_field (q : Doc -> bool) (k : string) (d d' : Doc)
    (db : Collection) :
  findOne q db = Some d -> d' !! k = d !! k ->
  map (fun x : Doc => x !! k) (replaceFirst q d' db) = map (fun x : Doc => x !! k) db.
Proof.
  unfold findOne. induction db as [|x db IH]; cbn; [discriminate|].
  destruct (q x); intros F E.
  - injection F as ->. cbn. congruence.
  - cbn. f_equal. apply IH; assumption.
Qed.

(** ** Contact-us: the duplicate guard *)

Section ContactUs.
Context `{Engine}.
Import ContactUsController.

(** C6: when a contact-us record of the same email was created within
    the last 15 minutes, a submission that passes the checks is answered
    429 and the collection, hence the number of records, is unchanged. *)
Theorem contact_us_duplicate_rejected (env : Env) (req : Request) (db : Collection)
    (c : Checked) (d : Doc) (t : Z) :
  checkContactUs (body req) = inr c ->
  In d db ->
  d !! "email" = Some (FStr (email c)) ->
  d !! "createdAt" = Some (FDate t) ->
  (now env - 15 * 60 * 1000 <= t)%Z ->
  let '(r, db') := submitContactUs env req db in
  code r = 429 /\ success r = false /\ db' = db
  /\ countDocuments db' = countDocuments db.
Proof.
  intros C I E T W. unfold submitContactUs. rewrite C.
  destruct (findOne_finds
              (fun x => hasEmail (email c) x
                        && createdSince (now env - 15 * 60 * 1000) x) db d I)
    as (d' & F & _).
  - unfold hasEmail, createdSince. rewrite E, T. cbn.
    rewrite String.eqb_refl. cbn. apply Z.leb_le. exact W.
  - unfold recentContact. rewrite F. cbn. auto.
Qed.

End ContactUs.

(** ** Creation *)

Lemma prop_insert_ne (b : Obj) (k k' : string) (v : JsVal) :
  k <> k' -> prop (<[k := v]> b) k' = prop b k'.
Proof. intros N. unfold prop. rewrite lookup_insert_ne by exact N. reflexivity. Qed.

Lemma prop_insert_eq (b : Obj) (k : string) (v : JsVal) :
  prop (<[k := v]> b) k = v.
Proof. unfold prop. rewrite lookup_insert_eq. reflexivity. Qed.

Lemma prop_list_to_map (k k' : string) (v : JsVal) (l : list (string * JsVal)) :
  prop (list_to_map ((k, v) :: l)) k'
  = if String.eqb k k' then v else prop (list_to_map l) k'.
Proof.
  unfold prop. cbn [list_to_map foldr fst snd].
  destruct (String.eqb_spec k k') as [->|N].
  - rewrite lookup_insert_eq. reflexivity.
  - rewrite lookup_insert_ne by exact N. reflexivity.
Qed.

(** Reads a property of an object literal. *)
Ltac read_props :=
  rewrite ?prop_list_to_map; cbn [String.eqb Ascii.eqb Bool.eqb].

Section CreationFacts.
Context `{Engine}.

Lemma castDoc_lookup (env : Env) (s : Schema) (o : Obj) (d : Doc) (k : string) :
  castDoc env s o = Some d -> d !! k = castField env s o k.
Proof.
  revert d. induction s as [|p r IH]; cbn; intros d C.
  - injection C as <-. apply lookup_empty.
  - destruct (castPath env p (prop o (pathName p))) as [[f|]|] eqn:P;
      destruct (castDoc env r o) as [d'|]; try discriminate; injection C as <-.
    + destruct (String.eqb_spec (pathName p) k) as [->|N].
      * apply lookup_insert_eq.
      * rewrite lookup_insert_ne by exact N. apply IH. reflexivity.
    + destruct (String.eqb (pathName p) k); apply IH; reflexivity.
Qed.

Lemma create_inr (M : Model) (env : Env) (o : Obj) (db db' : Collection) (d : Doc) :
  create M env o db = inr (d, db') ->
  exists d0,
    castDoc env (schema M) o = Some d0
    /\ validateDoc (schema M) d0 = true
    /\ d = <["_id" := FId (freshId db)]> (stampCreated env (preSave M env d0))
    /\ violatesUnique M db d = false
    /\ db' = db ++ [d].
Proof.
  unfold create. destruct (castDoc env (schema M) o) as [d0|]; [|discriminate].
  destruct (validateDoc (schema M) d0) eqn:V; [|discriminate]. cbn [negb].
  match goal with
  | |- context [violatesUnique ?m ?c ?x] => destruct (violatesUnique m c x) eqn:U
  end; [discriminate|].
  intros E. injection E as <- <-. exists d0. auto.
Qed.

(** A created document holds, at a path that is not a time stamp, the id
    or the reference, what the cast gave it. *)
Lemma created_lookup (field prefix k : string) (env : Env) (db : Collection) (d0 : Doc) :
  k <> "_id" -> k <> "createdAt" -> k <> "updatedAt" -> k <> field ->
  (<["_id" := FId (freshId db)]>
     (stampCreated env (referenceHook field prefix env d0)) : Doc) !! k = d0 !! k.
Proof.
  intros N1 N2 N3 N4. unfold stampCreated.
  rewrite !lookup_insert_ne by congruence. apply referenceHook_other. exact N4.
Qed.

End CreationFacts.

(** ** Contact-us: priority *)

(** Resolves lookups in documents built by assignments to named paths. *)
Ltac lookups :=
  repeat first
    [ rewrite lookup_insert_eq
    | rewrite lookup_delete_eq
    | rewrite lookup_insert_ne by (intro; discriminate)
    | rewrite lookup_delete_ne by (intro; discriminate) ].

(** Takes the tests of a handler apart in a hypothesis. *)
Ltac split_tests H :=
  cbv zeta in H;
  repeat match type of H with
         | (if ?b then _ else _) = _ => destruct b eqn:?
         | (match ?x with _ => _ end) = _ => destruct x eqn:?
         end.

Section ContactUsPriority.
Context `{Engine}.
Import ContactUsController ContactUsModel.

Lemma checkContactUs_subject (b : Obj) (c : Checked) :
  checkContactUs b = inr c -> includesStr validSubjects (subject c) = true.
Proof.
  unfold checkContactUs. intros C. split_tests C; try discriminate.
  injection C as <-. cbn.
  match goal with
  | E : negb (includesStr validSubjects _) = false |- _ =>
      apply negb_false_iff in E; exact E
  end.
Qed.

Lemma checkContactUs_rejects (b : Obj) (r : Response) :
  checkContactUs b = inl r -> code r = 400 \/ code r = 500.
Proof.
  unfold checkContactUs. intros C. split_tests C; try discriminate;
    injection C as <-; cbn; auto.
Qed.

Lemma includesStr_inv (l : list string) (v : JsVal) :
  includesStr l v = true -> exists s, v = JStr s /\ In s l.
Proof.
  destruct v; try discriminate. cbn. intros E. exists s. split; [reflexivity|].
  apply existsb_exists in E as (x & I & E). apply String.eqb_eq in E. congruence.
Qed.

(** The priority is not read from the request. *)
Lemma priority_not_chosen (env : Env) (req : Request) (db : Collection) (v : JsVal) :
  submitContactUs env (withField "priority" v req) db = submitContactUs env req db.
Proof.
  unfold submitContactUs, withField. cbn [body clientIp userAgentHeader].
  assert (E : checkContactUs (<["priority" := v]> (body req)) = checkContactUs (body req)).
  { unfold checkContactUs. rewrite !prop_insert_ne by discriminate. reflexivity. }
  rewrite E. reflexivity.
Qed.

(** C10: an accepted contact-us submission stores one new record, whose
    subject is one of the valid subjects and whose priority is derived
    from it: high for donation and partnership, low for general-inquiry,
    medium for the others; a priority sent with the request changes
    nothing. *)
Theorem contact_us_priority (env : Env) (req : Request) (db db' : Collection)
    (r : Response) :
  submitContactUs env req db = (r, db') ->
  code r = 201 ->
  (exists (d : Doc) (s : string),
      db' = db ++ [d]
      /\ In s validSubjects
      /\ d !! "subject" = Some (FStr s)
      /\ d !! "priority" = Some (FStr (priorityOf (JStr s))))
  /\ priorityOf (JStr "donation") = "high"
  /\ priorityOf (JStr "partnership") = "high"
  /\ priorityOf (JStr "general-inquiry") = "low"
  /\ priorityOf (JStr "volunteering") = "medium"
  /\ priorityOf (JStr "internship") = "medium"
  /\ priorityOf (JStr "other") = "medium"
  /\ (forall v, submitContactUs env (withField "priority" v req) db
               = submitContactUs env req db).
Proof.
  intros S C. split; [|repeat split; try reflexivity; intros; apply priority_not_chosen].
  unfold submitContactUs in S.
  destruct (checkContactUs (body req)) as [r0|c] eqn:K.
  { injection S as <- <-. apply checkContactUs_rejects in K. lia. }
  destruct (recentContact env (email c) db); [injection S as <- <-; discriminate|].
  match type of S with
  | context [create ?M ?e ?o ?db] => destruct (create M e o db) as [|[d db1]] eqn:Cr
  end; [injection S as <- <-; discriminate|].
  injection S as <- <-.
  apply create_inr in Cr as (d0 & Cast & _ & -> & _ & ->).
  destruct (includesStr_inv _ _ (checkContactUs_subject _ _ K)) as (s & Es & Is).
  exists (<["_id" := FId (freshId db)]>
            (stampCreated env (preSave ContactUs env d0))), s.
  split; [reflexivity|]. split; [exact Is|].
  cbn [preSave ContactUs]. unfold preSaveHook.
  rewrite !created_lookup by discriminate.
  rewrite !(castDoc_lookup _ _ _ _ _ Cast). rewrite Es.
  split; vm_compute; reflexivity.
Qed.

End ContactUsPriority.

(** ** Status updates *)

Section StatusUpdates.
Context `{Engine}.

Lemma castUpdate_absent (s : Schema) (u : Update) (set : Doc) (k : string) :
  castUpdate s u = Some set -> u !! k = None -> set !! k = None.
Proof.
  revert set. induction s as [|p r IH]; cbn; intros set C U.
  - injection C as <-. apply lookup_empty.
  - destruct (castUpdate r u) as [d|]; [|discriminate].
    specialize (IH d eq_refl U).
    destruct (u !! pathName p) as [[v|t|]|] eqn:E.
    + destruct (castAs (pathType p) v) as [[f|]|]; try discriminate;
        injection C as <-; [|exact IH].
      rewrite lookup_insert_ne; [exact IH|]. intros Q. rewrite Q in E. congruence.
    + injection C as <-. rewrite lookup_insert_ne; [exact IH|].
      intros Q. rewrite Q in E. congruence.
    + discriminate.
    + injection C as <-. exact IH.
Qed.

Lemma hasId_idOf (i : N) (d : Doc) : hasId i d = true -> d !! "_id" = Some (FId i).
Proof.
  unfold hasId, fieldEq. destruct (d !! "_id") as [[]|]; cbn; try discriminate.
  intros E. apply N.eqb_eq in E. congruence.
Qed.

(** An update that does not set [k] leaves the values of [k] in the
    collection as they were, whatever its outcome. *)
Lemma findByIdAndUpdate_keeps (M : Model) (env : Env) (id : option N) (u : Update)
    (db db' : Collection) (k : string) (found : option Doc) :
  u !! k = None -> u !! "_id" = None -> k <> "updatedAt" ->
  findByIdAndUpdate M env id u db = inr (found, db') ->
  valuesOf k db' = valuesOf k db.
Proof.
  intros U I N. unfold findByIdAndUpdate.
  destruct id as [i|]; [|discriminate].
  destruct (castUpdate (schema M) u) as [set|] eqn:C; [|discriminate].
  destruct (validateUpdate (schema M) set); [|discriminate]. cbn [negb].
  unfold findById. destruct (findOne (hasId i) db) as [d|] eqn:F.
  - intros E. injection E as _ <-. unfold replaceDoc, valuesOf.
    assert (Q : hasId i d = true) by (apply find_some in F; tauto).
    apply hasId_idOf in Q.
    assert (Id : idOf (<["updatedAt" := FDate (now env)]> (set ∪ d)) = i).
    { unfold idOf. rewrite lookup_insert_ne by discriminate.
      rewrite lookup_union_r by (eapply castUpdate_absent; eassumption).
      rewrite Q. reflexivity. }
    rewrite Id. apply replaceFirst_same_field with (d := d); [exact F|].
    rewrite lookup_insert_ne by congruence.
    apply lookup_union_r. eapply castUpdate_absent; eassumption.
  - intros E. injection E as _ <-. reflexivity.
Qed.

Import DonationController EventRegistrationController.

Lemma donationUpdateData_unlisted (env : Env) (b : Obj) :
  includesStr statusValues (prop b "status") = false ->
  donationUpdateData env b
  = if truthy (prop b "paymentStatus")
       && includesStr paymentStatusValues (prop b "paymentStatus")
    then {[ "paymentStatus" := Raw (prop b "paymentStatus") ]}
    else ∅.
Proof.
  intros U. unfold donationUpdateData. rewrite U, andb_false_r. reflexivity.
Qed.


End StatusUpdates.


(** ** Status updates: every handler *)

(** Takes an [updateData] object apart, condition by condition. *)
Ltac each_condition :=
  cbv zeta;
  repeat match goal with
         | |- context [if ?c then _ else _] => destruct c
         end.

Section UpdateData.

Lemma size_insert_pos (k : string) (v : UpdateValue) (u : Update) :
  (size (<[k := v]> u) =? 0) = false.
Proof.
  apply Nat.eqb_neq. intros E. apply map_size_empty_iff in E.
  exact (insert_non_empty _ _ _ E).
Qed.

Lemma replaceFirst_split (q : Doc -> bool) (d d' : Doc) (db : Collection) :
  findOne q db = Some d ->
  exists l1 l2 : Collection,
    db = l1 ++ d :: l2
    /\ (forall x, In x l1 -> q x = false)
    /\ replaceFirst q d' db = l1 ++ d' :: l2.
Proof.
  unfold findOne. induction db as [|x db IH]; cbn [find replaceFirst]; [discriminate|].
  destruct (q x) eqn:Q; intros F.
  - injection F as ->. exists [], db. split; [reflexivity|]. split; [intros y []|reflexivity].
  - destruct (IH F) as (l1 & l2 & -> & A & R). exists (x :: l1), l2.
    split; [reflexivity|]. split; [|cbn; rewrite R; reflexivity].
    intros y [<-|I]; [exact Q|exact (A y I)].
Qed.

End UpdateData.

Section StatusHandlers.
Context `{Engine} `{DateParser}.

Lemma findByIdAndUpdate_length (M : Model) (env : Env) (id : option N) (u : Update)
    (db db' : Collection) (found : option Doc) :
  findByIdAndUpdate M env id u db = inr (found, db') ->
  countDocuments db' = countDocuments db.
Proof.
  unfold findByIdAndUpdate. destruct id as [i|]; [|discriminate].
  destruct (castUpdate (schema M) u); [|discriminate].
  destruct (negb _); [discriminate|].
  destruct (findById i db); intros E; injection E as _ <-; [|reflexivity].
  apply replaceFirst_length.
Qed.

(** The answer to an update that does not set the path [k]: the values of
    [k] and the number of records are kept; the reply is 500, 404 or 200,
    and only 200 comes with a change. *)
Lemma answerUpdate_outcome (M : Model) (env : Env) (id : option N) (u : Update)
    (db : Collection) (nf up k : string) :
  u !! k = None -> u !! "_id" = None -> k <> "updatedAt" ->
  let '(r, db') := answerUpdate nf up db (findByIdAndUpdate M env id u db) in
  valuesOf k db' = valuesOf k db
  /\ countDocuments db' = countDocuments db
  /\ (code r =? 400) = false
  /\ (code r = 400 \/ code r = 500 \/ code r = 404 \/ code r = 200)
  /\ (code r <> 200 -> db' = db)
  /\ (id = None -> code r <> 200 /\ code r <> 404).
Proof.
  intros U I N.
  destruct (findByIdAndUpdate M env id u db) as [e|[[d|] db']] eqn:F;
    cbn [answerUpdate code reject accept serverErrorShort Nat.eqb].
  - split; [reflexivity|]. split; [reflexivity|]. split; [reflexivity|].
    split; [auto|]. split; [reflexivity|]. intros _. split; discriminate.
  - split; [eapply findByIdAndUpdate_keeps; eassumption|].
    split; [eapply findByIdAndUpdate_length; eassumption|].
    split; [reflexivity|]. split; [auto|]. split; [intros C; contradiction|].
    intros ->. discriminate.
  - split; [reflexivity|]. split; [reflexivity|]. split; [reflexivity|].
    split; [auto|]. split; [reflexivity|]. intros ->. discriminate.
Qed.

(** The same for a handler that answers 400 when [updateData] is empty. *)
Lemma updateData_outcome (M : Model) (env : Env) (id : option N) (u : Update)
    (db : Collection) (nf up k : string) (other : bool) :
  u !! k = None -> u !! "_id" = None -> k <> "updatedAt" ->
  (size u =? 0) = negb other ->
  let '(r, db') :=
    if size u =? 0 then (reject 400 "No valid fields to update", db)
    else answerUpdate nf up db (findByIdAndUpdate M env id u db) in
  valuesOf k db' = valuesOf k db
  /\ countDocuments db' = countDocuments db
  /\ (code r =? 400) = negb other
  /\ (code r = 400 \/ code r = 500 \/ code r = 404 \/ code r = 200)
  /\ (code r <> 200 -> db' = db)
  /\ (id = None -> code r <> 200 /\ code r <> 404).
Proof.
  intros U I N S. rewrite S.
  pose proof (answerUpdate_outcome M env id u db nf up k U I N) as A.
  destruct other; cbn [negb].
  - destruct (answerUpdate nf up db (findByIdAndUpdate M env id u db)) as [r db'].
    exact A.
  - cbn [code reject Nat.eqb].
    split; [reflexivity|]. split; [reflexivity|]. split; [reflexivity|].
    split; [auto|]. split; [reflexivity|]. intros _. split; discriminate.
Qed.

(** The same for a handler that answers 400 to every unlisted status. *)
Lemma rejected_outcome (msg k : string) (id : option N) (db : Collection) :
  let '(r, db') := (reject 400 msg, db) in
  valuesOf k db' = valuesOf k db
  /\ countDocuments db' = countDocuments db
  /\ (code r =? 400) = negb false
  /\ (code r = 400 \/ code r = 500 \/ code r = 404 \/ code r = 200)
  /\ (code r <> 200 -> db' = db)
  /\ (id = None -> code r <> 200 /\ code r <> 404).
Proof.
  cbn [code reject Nat.eqb negb].
  split; [reflexivity|]. split; [reflexivity|]. split; [reflexivity|].
  split; [auto|]. split; [reflexivity|]. intros _. split; discriminate.
Qed.

(** With a status that is not listed, an [updateData] object holds neither
    a status nor an [_id], and is empty exactly when no other field of the
    request is taken. *)
Ltac unlisted_updateData U :=
  unfold presentIn, present; rewrite U, andb_false_r;
  split; [|split];
  each_condition;
  rewrite ?size_insert_pos, ?map_size_empty;
  rewrite ?lookup_insert_ne by discriminate;
  rewrite ?lookup_empty;
  reflexivity.

Lemma donationUpdateData_other (env : Env) (b : Obj) :
  includesStr DonationController.statusValues (prop b "status") = false ->
  let u := DonationController.donationUpdateData env b in
  u !! "status" = None /\ u !! "_id" = None
  /\ (size u =? 0)
     = negb (presentIn DonationController.paymentStatusValues b "paymentStatus").
Proof.
  intros U. unfold DonationController.donationUpdateData. unlisted_updateData U.
Qed.

Lemma volunteerUpdateData_other (env : Env) (b : Obj) :
  includesStr VolunteerStatus.statusValues (prop b "status") = false ->
  let u := VolunteerStatus.volunteerUpdateData env b in
  u !! "status" = None /\ u !! "_id" = None
  /\ (size u =? 0)
     = negb (presentIn VolunteerStatus.availabilityValues b "availability"
             || present b "reviewedBy" || present b "notes").
Proof.
  intros U. unfold VolunteerStatus.volunteerUpdateData. unlisted_updateData U.
Qed.

Lemma contactUsUpdateData_other (env : Env) (b : Obj) :
  includesStr ContactUsStatus.statusValues (prop b "status") = false ->
  let u := ContactUsStatus.contactUsUpdateData env b in
  u !! "status" = None /\ u !! "_id" = None
  /\ (size u =? 0)
     = negb (presentIn ContactUsStatus.priorityValues b "priority"
             || present b "assignedTo" || present b "notes").
Proof.
  intros U. unfold ContactUsStatus.contactUsUpdateData. unlisted_updateData U.
Qed.

Lemma internUpdateData_other (env : Env) (b : Obj) :
  includesStr InternStatus.statusValues (prop b "status") = false ->
  let u := InternStatus.internUpdateData env b in
  u !! "status" = None /\ u !! "_id" = None
  /\ (size u =? 0)
     = negb (presentIn InternStatus.durationValues b "duration"
             || present b "reviewedBy" || present b "notes" || present b "mentor"
             || present b "interviewDate" || present b "startDate"
             || present b "endDate").
Proof.
  intros U. unfold InternStatus.internUpdateData. unlisted_updateData U.
Qed.

Lemma collaborationUpdateData_other (env : Env) (b : Obj) :
  includesStr CollaborationStatus.statusValues (prop b "status") = false ->
  let u := CollaborationStatus.collaborationUpdateData env b in
  u !! "status" = None /\ u !! "_id" = None
  /\ (size u =? 0)
     = negb (presentIn CollaborationStatus.organizationTypeValues b "organizationType"
             || presentIn CollaborationStatus.partnershipTypeValues b "partnershipType"
             || presentIn CollaborationStatus.priorityValues b "priority"
             || present b "reviewedBy" || present b "notes" || present b "meetingDate").
Proof.
  intros U. unfold CollaborationStatus.collaborationUpdateData. unlisted_updateData U.
Qed.

Lemma newsSubmissionUpdateData_other (env : Env) (b : Obj) :
  includesStr NewsSubmissionStatus.statusValues (prop b "status") = false ->
  let u := NewsSubmissionStatus.submissionUpdateData env b in
  u !! "status" = None /\ u !! "_id" = None
  /\ (size u =? 0)
     = negb (presentIn NewsSubmissionStatus.categoryValues b "category"
             || present b "reviewedBy").
Proof.
  intros U. unfold NewsSubmissionStatus.submissionUpdateData. unlisted_updateData U.
Qed.

Lemma mediaUpdateData_other (env : Env) (b : Obj) :
  includesStr MediaController.statusValues (prop b "status") = false ->
  let u := MediaController.submissionUpdateData env b in
  u !! "status" = None /\ u !! "_id" = None
  /\ (size u =? 0)
     = negb (presentIn MediaController.categoryValues b "category"
             || present b "reviewedBy").
Proof.
  intros U. unfold MediaController.submissionUpdateData. unlisted_updateData U.
Qed.

(** The update of a listed payment status alone, cast and validated. *)
Lemma paymentStatus_update (p : string) :
  In p DonationController.paymentStatusValues ->
  castUpdate DonationModel.donationSchema ({[ "paymentStatus" := Raw (JStr p) ]})
  = Some ({[ "paymentStatus" := FStr p ]})
  /\ validateUpdate DonationModel.donationSchema ({[ "paymentStatus" := FStr p ]}) = true.
Proof.
  intros L. split.
  - unfold DonationModel.donationSchema.
    cbn [castUpdate pathName pathType pathOptions path fullNamePath emailPath mobilePath].
    rewrite !lookup_singleton_ne by discriminate. rewrite lookup_singleton_eq.
    cbn [castAs castString applySetters fold_left applySetter]. reflexivity.
  - unfold DonationController.paymentStatusValues in L. cbn [In] in L.
    repeat (destruct L as [<-|L]; [reflexivity|]). contradiction.
Qed.

(** C1 (as amended): a status that is not in the enumeration of its
    operation is never written, by any of the nine admin status updates:
    the status of every record stays as it was and no record is added or
    removed. The reply is 400, with nothing changed, exactly when the
    request holds no other field the operation takes; otherwise it is 500,
    404 or 200, only 200 comes with a change, and an id that is no
    ObjectId is never answered 200 or 404. For the donation update with a
    listed payment status: 500 for an id that is no ObjectId, 404 for an
    id without record, and otherwise 200 with the payment status written
    to the record of that id, its other paths and the other records
    kept. *)
Theorem unlisted_status_not_written (Contact : Model) (env : Env) (id : option N)
    (b : Obj) (db : Collection) :
  (forall op : StatusUpdate,
      In op (statusUpdates Contact) ->
      includesStr (enumeration op) (prop b (statusProperty op)) = false ->
      let '(r, db') := handler op env id b db in
      valuesOf (statusProperty op) db' = valuesOf (statusProperty op) db
      /\ countDocuments db' = countDocuments db
      /\ (code r =? 400) = negb (otherField op b)
      /\ (code r = 400 \/ code r = 500 \/ code r = 404 \/ code r = 200)
      /\ (code r <> 200 -> db' = db)
      /\ (id = None -> code r <> 200 /\ code r <> 404))
  /\ (forall p : string,
      includesStr DonationController.statusValues (prop b "status") = false ->
      prop b "paymentStatus" = JStr p ->
      In p DonationController.paymentStatusValues ->
      match id with
      | None =>
          DonationController.updateDonationStatus env id b db = (serverErrorShort, db)
      | Some i =>
          match findById i db with
          | None =>
              DonationController.updateDonationStatus env id b db
              = (reject 404 "Donation not found", db)
          | Some d =>
              exists (l1 l2 : Collection) (d' : Doc),
                db = l1 ++ d :: l2
                /\ DonationController.updateDonationStatus env id b db
                   = (accept 200 "Donation status updated successfully", l1 ++ d' :: l2)
                /\ d' !! "paymentStatus" = Some (FStr p)
                /\ d' !! "updatedAt" = Some (FDate (now env))
                /\ (forall k, k <> "paymentStatus" -> k <> "updatedAt" ->
                    d' !! k = d !! k)
          end
      end).
Proof.
  split.
  - intros op I U. unfold statusUpdates in I. cbn [In] in I.
    repeat (destruct I as [<-|I]); [..|contradiction];
      cbn [handler statusProperty enumeration otherField] in *.
    + destruct (donationUpdateData_other env b U) as (S & I0 & Z).
      apply (updateData_outcome DonationModel.Donation env id _ db
               "Donation not found" "Donation status updated successfully" "status");
        [exact S|exact I0|discriminate|exact Z].
    + unfold EventRegistrationController.updateRegistrationStatus. cbv zeta.
      rewrite U. cbn [negb]. apply rejected_outcome.
    + destruct (volunteerUpdateData_other env b U) as (S & I0 & Z).
      apply updateData_outcome; [exact S|exact I0|discriminate|exact Z].
    + destruct (contactUsUpdateData_other env b U) as (S & I0 & Z).
      apply updateData_outcome; [exact S|exact I0|discriminate|exact Z].
    + destruct (internUpdateData_other env b U) as (S & I0 & Z).
      apply updateData_outcome; [exact S|exact I0|discriminate|exact Z].
    + destruct (collaborationUpdateData_other env b U) as (S & I0 & Z).
      apply updateData_outcome; [exact S|exact I0|discriminate|exact Z].
    + destruct (newsSubmissionUpdateData_other env b U) as (S & I0 & Z).
      apply updateData_outcome; [exact S|exact I0|discriminate|exact Z].
    + destruct (mediaUpdateData_other env b U) as (S & I0 & Z).
      apply updateData_outcome; [exact S|exact I0|discriminate|exact Z].
    + unfold ContactStatus.updateContactStatus. cbv zeta.
      rewrite U. cbn [negb]. apply rejected_outcome.
  - intros p U P L.
    assert (T : truthy (JStr p) = true).
    { unfold DonationController.paymentStatusValues in L. cbn [In] in L.
      repeat (destruct L as [<-|L]; [reflexivity|]). contradiction. }
    assert (Inc : includesStr DonationController.paymentStatusValues (JStr p) = true).
    { cbn [includesStr]. apply existsb_exists. exists p. split; [exact L|].
      apply String.eqb_refl. }
    unfold DonationController.updateDonationStatus. cbv zeta.
    rewrite (donationUpdateData_unlisted env b U), P, T, Inc. cbn [andb].
    rewrite map_size_singleton. cbn [Nat.eqb].
    unfold findByIdAndUpdate. destruct id as [i|]; [|reflexivity].
    cbn [schema DonationModel.Donation].
    destruct (paymentStatus_update p L) as [Cast Valid]. rewrite Cast, Valid. cbn [negb].
    destruct (findById i db) as [d|] eqn:F; [|reflexivity].
    set (d' := <["updatedAt" := FDate (now env)]> ({[ "paymentStatus" := FStr p ]} ∪ d)).
    assert (Id : idOf d' = i).
    { assert (Q : hasId i d = true) by (apply find_some in F; tauto).
      apply hasId_idOf in Q. unfold idOf, d'.
      rewrite lookup_insert_ne by discriminate.
      rewrite lookup_union_r by (apply lookup_singleton_ne; discriminate).
      rewrite Q. reflexivity. }
    unfold replaceDoc. rewrite Id.
    destruct (replaceFirst_split (hasId i) d d' db F) as (l1 & l2 & E & _ & R).
    exists l1, l2, d'. split; [exact E|]. split; [rewrite R; reflexivity|].
    unfold d'. split; [|split].
    + rewrite lookup_insert_ne by discriminate.
      erewrite lookup_union_Some_l; [reflexivity|]. apply lookup_singleton_eq.
    + apply lookup_insert_eq.
    + intros k N1 N2. rewrite lookup_insert_ne by congruence.
      apply lookup_union_r. apply lookup_singleton_ne. congruence.
Qed.

End StatusHandlers.

(** ** Newsletter *)

Lemma fieldEq_str (f : option Field) (s : string) :
  fieldEq f (Some (FStr s)) = true -> f = Some (FStr s).
Proof.
  unfold fieldEq. destruct f as [[]|]; cbn; try discriminate.
  intros E. apply String.eqb_eq in E. congruence.
Qed.

Lemma fieldEq_FStr (s t : string) :
  fieldEq (Some (FStr s)) (Some (FStr t)) = String.eqb s t.
Proof. reflexivity. Qed.

Lemma fieldEq_FNum (n m : JsNum) :
  fieldEq (Some (FNum n)) (Some (FNum m)) = numEq n m.
Proof. reflexivity. Qed.

Section Newsletter.
Context `{Engine}.
Import NewsController NewsletterModel.

(** The validators of the email path read the email only. *)
Lemma validate_email_same (d d' : Doc) :
  d' !! "email" = d !! "email" ->
  validatePath d' (emailPath [Unique]) = validatePath d (emailPath [Unique]).
Proof.
  intros E. unfold validatePath, emailPath. cbn [pathName pathOptions path].
  rewrite E. reflexivity.
Qed.

Lemma valid_email_path (sub : Doc) :
  validateDoc newsletterSchema sub = true ->
  validatePath sub (emailPath [Unique]) = true.
Proof.
  unfold validateDoc, newsletterSchema. cbn [forallb]. intros V.
  apply andb_true_iff in V. tauto.
Qed.

Lemma reactivated_validates (env : Env) (sub : Doc) :
  validateDoc newsletterSchema sub = true ->
  validateModified newsletterSchema
    ["status"; "subscribedAt"; "unsubscribedAt"; "unsubscribeToken"]
    (reactivated env sub) = true.
Proof.
  intros V. apply valid_email_path in V.
  unfold validateModified, newsletterSchema. cbn [forallb].
  cbn [inList existsb pathName isRequired pathOptions path emailPath app
              String.eqb Ascii.eqb Bool.eqb orb andb].
  rewrite (validate_email_same sub), V.
  - unfold validatePath, reactivated. cbn [pathName pathOptions path forallb andb].
    lookups. reflexivity.
  - unfold reactivated. lookups. reflexivity.
Qed.

Lemma unsubscribed_validates (env : Env) (sub : Doc) :
  validateDoc newsletterSchema sub = true ->
  validateModified newsletterSchema ["status"; "unsubscribedAt"]
    (unsubscribed env sub) = true.
Proof.
  intros V. apply valid_email_path in V.
  unfold validateModified, newsletterSchema. cbn [forallb].
  cbn [inList existsb pathName isRequired pathOptions path emailPath app
              String.eqb Ascii.eqb Bool.eqb orb andb].
  rewrite (validate_email_same sub), V.
  - unfold validatePath, unsubscribed. cbn [pathName pathOptions path forallb andb].
    lookups. reflexivity.
  - unfold unsubscribed. lookups. reflexivity.
Qed.


End Newsletter.


(** ** The store: writing over a document *)

Section DistinctIds.

Lemma distinctIds_id (db : Collection) (d : Doc) :
  distinctIds db = true -> In d db -> exists i, d !! "_id" = Some (FId i).
Proof.
  induction db as [|x db IH]; cbn [distinctIds In]; [tauto|].
  destruct (x !! "_id") as [[| | | | |i|]|] eqn:X; try discriminate.
  intros D [<-|I]; [eauto|]. apply andb_true_iff in D as [_ D]. exact (IH D I).
Qed.

Lemma hasId_lookup (i : N) (d : Doc) : d !! "_id" = Some (FId i) -> hasId i d = true.
Proof. intros E. unfold hasId, fieldEq. rewrite E. cbn. apply N.eqb_refl. Qed.

(** In a collection of documents with ids of their own, writing a
    document over the one of its [_id] replaces that one, where it is. *)
Lemma replaceDoc_split (q : Doc -> bool) (d d' : Doc) (db : Collection) :
  distinctIds db = true ->
  findOne q db = Some d ->
  d' !! "_id" = d !! "_id" ->
  exists l1 l2 : Collection,
    db = l1 ++ d :: l2
    /\ (forall x, In x l1 -> q x = false)
    /\ replaceDoc d' db = l1 ++ d' :: l2.
Proof.
  unfold findOne, replaceDoc. intros D F E.
  induction db as [|x db IH]; [discriminate|].
  cbn [distinctIds] in D.
  destruct (x !! "_id") as [[| | | | |i|]|] eqn:X; try discriminate.
  apply andb_true_iff in D as [D1 D2]. apply negb_true_iff in D1.
  cbn [find] in F. destruct (q x) eqn:Q.
  - injection F as <-. exists [], db. split; [reflexivity|].
    split; [intros y []|]. cbn [replaceFirst app].
    assert (Id : idOf d' = i) by (unfold idOf; rewrite E, X; reflexivity).
    rewrite Id, (hasId_lookup i x X). reflexivity.
  - destruct (IH D2 F) as (l1 & l2 & -> & A & R).
    exists (x :: l1), l2. split; [reflexivity|].
    split; [intros y [<-|I]; [exact Q|exact (A y I)]|].
    cbn [replaceFirst app]. rewrite R.
    destruct (distinctIds_id _ d D2) as [j J]; [apply in_elt|].
    assert (Id : idOf d' = j) by (unfold idOf; rewrite E, J; reflexivity).
    rewrite Id.
    assert (Nx : hasId j x = false).
    { unfold hasId, fieldEq. rewrite X. cbn. apply N.eqb_neq. intros <-.
      assert (Hd : hasId i d = true) by (apply hasId_lookup, J).
      assert (Ex : existsb (hasId i) (l1 ++ d :: l2) = true).
      { apply existsb_exists. exists d. split; [apply in_elt|exact Hd]. }
      congruence. }
    rewrite Nx. reflexivity.
Qed.

Lemma findOne_middle (q : Doc -> bool) (l1 l2 : Collection) (d : Doc) :
  (forall x, In x l1 -> q x = false) -> q d = true ->
  findOne q (l1 ++ d :: l2) = Some d.
Proof.
  unfold findOne. intros A Q. induction l1 as [|x l1 IH]; cbn [app find].
  - rewrite Q. reflexivity.
  - rewrite (A x) by (left; reflexivity). apply IH. intros y I. apply A. right. exact I.
Qed.

Lemma valuesOf_middle (k : string) (l1 l2 : Collection) (d d' : Doc) :
  d' !! k = d !! k -> valuesOf k (l1 ++ d' :: l2) = valuesOf k (l1 ++ d :: l2).
Proof. intros E. unfold valuesOf. rewrite !map_app. cbn [map]. rewrite E. reflexivity. Qed.

End DistinctIds.

(** ** Newsletter: reactivation and unsubscription in the store *)

Section NewsletterStore.
Context `{Engine}.
Import NewsController NewsletterModel.

(** What subscribing the email of an unsubscribed record stores. *)
Lemma reactivation_stored (env : Env) (req : Request) (db : Collection)
    (email : string) (sub : Doc) :
  checkSubscription (body req) = inr email ->
  findOne (hasEmail email) db = Some sub ->
  sub !! "status" = Some (FStr "unsubscribed") ->
  validateDoc newsletterSchema sub = true ->
  distinctIds db = true ->
  exists (l1 l2 : Collection) (sub' : Doc),
    db = l1 ++ sub :: l2
    /\ (forall x, In x l1 -> hasEmail email x = false)
    /\ subscribeNewsletter env req db
       = (accept 200 "Welcome back! Your subscription has been reactivated.",
          l1 ++ sub' :: l2)
    /\ sub' = <["updatedAt" := FDate (now env)]> (reactivated env sub).
Proof.
  intros C F S V D.
  set (sub' := <["updatedAt" := FDate (now env)]> (reactivated env sub)).
  destruct (replaceDoc_split (hasEmail email) sub sub' db D F) as (l1 & l2 & E & A & R).
  { unfold sub', reactivated. lookups. reflexivity. }
  exists l1, l2, sub'. split; [exact E|]. split; [exact A|]. split; [|reflexivity].
  unfold subscribeNewsletter. rewrite C, F, S.
  cbn [fieldIs String.eqb Ascii.eqb Bool.eqb].
  unfold save. cbn [schema preSave Newsletter].
  rewrite (reactivated_validates env sub V). cbn [negb].
  fold sub'. rewrite R. reflexivity.
Qed.

(** C9: subscribing an email whose stored record is unsubscribed answers
    200 and writes over that record, where it is in the collection: same
    [_id], same email, status active again, [subscribedAt] the time of the
    request, [unsubscribedAt] unset, the other paths but the token and
    [updatedAt] as they were. The other records are kept and none is
    added: the email finds the reactivated record. *)
Theorem resubscribe_reactivates (env : Env) (req : Request) (db : Collection)
    (email : string) (sub : Doc) :
  checkSubscription (body req) = inr email ->
  findOne (hasEmail email) db = Some sub ->
  sub !! "status" = Some (FStr "unsubscribed") ->
  validateDoc newsletterSchema sub = true ->
  distinctIds db = true ->
  exists (l1 l2 : Collection) (sub' : Doc),
    db = l1 ++ sub :: l2
    /\ subscribeNewsletter env req db
       = (accept 200 "Welcome back! Your subscription has been reactivated.",
          l1 ++ sub' :: l2)
    /\ sub' !! "_id" = sub !! "_id"
    /\ sub' !! "email" = Some (FStr email)
    /\ sub' !! "status" = Some (FStr "active")
    /\ sub' !! "subscribedAt" = Some (FDate (now env))
    /\ sub' !! "unsubscribedAt" = None
    /\ (forall k, ~ In k ["status"; "subscribedAt"; "unsubscribedAt"; "unsubscribeToken";
                          "updatedAt"] ->
        sub' !! k = sub !! k)
    /\ findOne (hasEmail email) (l1 ++ sub' :: l2) = Some sub'
    /\ countDocuments (l1 ++ sub' :: l2) = countDocuments db.
Proof.
  intros C F S V D.
  destruct (reactivation_stored env req db email sub C F S V D)
    as (l1 & l2 & sub' & E & A & R & Sub).
  assert (Em : sub !! "email" = Some (FStr email)).
  { apply find_some in F as [_ F]. apply fieldEq_str. exact F. }
  assert (Em' : sub' !! "email" = Some (FStr email)).
  { rewrite Sub. unfold reactivated. lookups. exact Em. }
  exists l1, l2, sub'. split; [exact E|]. split; [exact R|].
  split; [rewrite Sub; unfold reactivated; lookups; reflexivity|].
  split; [exact Em'|].
  split; [rewrite Sub; unfold reactivated; lookups; reflexivity|].
  split; [rewrite Sub; unfold reactivated; lookups; reflexivity|].
  split; [rewrite Sub; unfold reactivated; lookups; reflexivity|].
  split.
  { intros k N. rewrite Sub. unfold reactivated.
    rewrite lookup_insert_ne by (intros <-; apply N; cbn [In]; tauto).
    rewrite lookup_insert_ne by (intros <-; apply N; cbn [In]; tauto).
    rewrite lookup_delete_ne by (intros <-; apply N; cbn [In]; tauto).
    rewrite lookup_insert_ne by (intros <-; apply N; cbn [In]; tauto).
    rewrite lookup_insert_ne by (intros <-; apply N; cbn [In]; tauto).
    reflexivity. }
  split.
  { apply findOne_middle; [exact A|]. unfold hasEmail. rewrite Em'.
    rewrite fieldEq_FStr. apply String.eqb_refl. }
  rewrite E. unfold countDocuments. rewrite !length_app. reflexivity.
Qed.

(** What unsubscribing with the token of a stored record stores. *)
Lemma unsubscription_stored (env : Env) (token : string) (db : Collection) (sub : Doc) :
  token <> "" ->
  distinctIds db = true ->
  findOne (hasToken token) db = Some sub ->
  validateDoc newsletterSchema sub = true ->
  exists (l1 l2 : Collection) (sub' : Doc),
    db = l1 ++ sub :: l2
    /\ (forall x, In x l1 -> hasToken token x = false)
    /\ unsubscribeNewsletter env token db
       = (accept 200 "You have been successfully unsubscribed from our newsletter.",
          l1 ++ sub' :: l2)
    /\ sub' = <["updatedAt" := FDate (now env)]> (unsubscribed env sub).
Proof.
  intros T D F V. apply String.eqb_neq in T.
  set (sub' := <["updatedAt" := FDate (now env)]> (unsubscribed env sub)).
  destruct (replaceDoc_split (hasToken token) sub sub' db D F) as (l1 & l2 & E & A & R).
  { unfold sub', unsubscribed. lookups. reflexivity. }
  exists l1, l2, sub'. split; [exact E|]. split; [exact A|]. split; [|reflexivity].
  unfold unsubscribeNewsletter. rewrite T, F.
  unfold save. cbn [schema preSave Newsletter].
  rewrite (unsubscribed_validates env sub V). cbn [negb].
  fold sub'. rewrite R. reflexivity.
Qed.

(** Unsubscribing changes the token of no record. *)
Lemma unsubscribe_keeps_tokens (env : Env) (token : string) (db : Collection) :
  distinctIds db = true ->
  valuesOf "unsubscribeToken" (snd (unsubscribeNewsletter env token db))
  = valuesOf "unsubscribeToken" db.
Proof.
  intros D. unfold unsubscribeNewsletter.
  destruct (String.eqb token ""); [reflexivity|].
  destruct (findOne (hasToken token) db) as [sub|] eqn:F; [|reflexivity].
  unfold save. destruct (negb _); [reflexivity|]. cbn [snd preSave Newsletter].
  set (sub' := <["updatedAt" := FDate (now env)]> (unsubscribed env sub)).
  destruct (replaceDoc_split (hasToken token) sub sub' db D F) as (l1 & l2 & E & _ & R).
  { unfold sub', unsubscribed. lookups. reflexivity. }
  rewrite R, E. apply valuesOf_middle. unfold sub', unsubscribed. lookups. reflexivity.
Qed.

(** A subscription that is not answered 200 leaves every stored record as
    it is. *)
Lemma subscribe_keeps_records (env : Env) (req : Request) (db : Collection) :
  code (fst (subscribeNewsletter env req db)) <> 200 ->
  exists new : Collection, snd (subscribeNewsletter env req db) = db ++ new.
Proof.
  assert (New : forall email,
             exists new : Collection,
               snd (newSubscription env req email db) = db ++ new).
  { intros email. unfold newSubscription. cbv zeta.
    destruct (create Newsletter env _ db) as [[]|[d db']] eqn:Cr;
      try (exists []; cbn [snd]; rewrite app_nil_r; reflexivity).
    apply create_inr in Cr as (_ & _ & _ & _ & _ & ->). exists [d]. reflexivity. }
  unfold subscribeNewsletter.
  destruct (checkSubscription (body req)) as [r|email];
    [intros _; exists []; cbn [snd]; rewrite app_nil_r; reflexivity|].
  destruct (findOne (hasEmail email) db) as [sub|]; [|intros _; apply New].
  destruct (fieldIs "active" _);
    [intros _; exists []; cbn [snd]; rewrite app_nil_r; reflexivity|].
  destruct (fieldIs "unsubscribed" _); [|intros _; apply New].
  destruct (save Newsletter env _ _ db) as [e|[d db']]; cbn [fst snd code accept].
  - intros _. exists []. rewrite app_nil_r. reflexivity.
  - intros N. contradiction.
Qed.

(** C2 (as amended): a token some stored subscriber carries is answered 200
    and that subscriber is stored as unsubscribed with the same token,
    whatever its status was, so also when it was unsubscribed already: the
    token finds the record again. 404 is the answer when no record carries
    the token. Unsubscribing changes no token; a subscription replaces the
    token of the record it reactivates, and one that is not answered 200
    leaves every stored record as it is. *)
Theorem unsubscribe_by_token (env : Env) (token : string) (db : Collection) :
  token <> "" ->
  distinctIds db = true ->
  (forall sub : Doc,
      findOne (hasToken token) db = Some sub ->
      validateDoc newsletterSchema sub = true ->
      exists (l1 l2 : Collection) (sub' : Doc),
        db = l1 ++ sub :: l2
        /\ unsubscribeNewsletter env token db
           = (accept 200 "You have been successfully unsubscribed from our newsletter.",
              l1 ++ sub' :: l2)
        /\ sub' !! "_id" = sub !! "_id"
        /\ sub' !! "status" = Some (FStr "unsubscribed")
        /\ sub' !! "unsubscribeToken" = Some (FStr token)
        /\ sub' !! "unsubscribedAt" = Some (FDate (now env))
        /\ (forall k, ~ In k ["status"; "unsubscribedAt"; "updatedAt"] ->
            sub' !! k = sub !! k)
        /\ findOne (hasToken token) (l1 ++ sub' :: l2) = Some sub')
  /\ (findOne (hasToken token) db = None ->
      unsubscribeNewsletter env token db
      = (reject 404 "Invalid or expired unsubscribe link", db))
  /\ valuesOf "unsubscribeToken" (snd (unsubscribeNewsletter env token db))
     = valuesOf "unsubscribeToken" db
  /\ (forall (env' : Env) (req : Request) (email : string) (sub : Doc),
      checkSubscription (body req) = inr email ->
      findOne (hasEmail email) db = Some sub ->
      sub !! "status" = Some (FStr "unsubscribed") ->
      validateDoc newsletterSchema sub = true ->
      exists (l1 l2 : Collection) (sub' : Doc),
        db = l1 ++ sub :: l2
        /\ subscribeNewsletter env' req db
           = (accept 200 "Welcome back! Your subscription has been reactivated.",
              l1 ++ sub' :: l2)
        /\ sub' !! "unsubscribeToken" = Some (FStr (randomHex env')))
  /\ (forall (env' : Env) (req : Request),
      code (fst (subscribeNewsletter env' req db)) <> 200 ->
      exists new : Collection, snd (subscribeNewsletter env' req db) = db ++ new).
Proof.
  intros T D. split; [|split; [|split; [|split]]].
  - intros sub F V.
    destruct (unsubscription_stored env token db sub T D F V)
      as (l1 & l2 & sub' & E & A & R & Sub).
    assert (Tk : sub !! "unsubscribeToken" = Some (FStr token)).
    { apply find_some in F as [_ F]. apply fieldEq_str. exact F. }
    assert (Tk' : sub' !! "unsubscribeToken" = Some (FStr token)).
    { rewrite Sub. unfold unsubscribed. lookups. exact Tk. }
    exists l1, l2, sub'. split; [exact E|]. split; [exact R|].
    split; [rewrite Sub; unfold unsubscribed; lookups; reflexivity|].
    split; [rewrite Sub; unfold unsubscribed; lookups; reflexivity|].
    split; [exact Tk'|].
    split; [rewrite Sub; unfold unsubscribed; lookups; reflexivity|].
    split.
    { intros k N. rewrite Sub. unfold unsubscribed.
      rewrite !lookup_insert_ne by (intros <-; apply N; cbn [In]; tauto).
      reflexivity. }
    apply findOne_middle; [exact A|]. unfold hasToken. rewrite Tk'.
    rewrite fieldEq_FStr. apply String.eqb_refl.
  - intros F. apply String.eqb_neq in T.
    unfold unsubscribeNewsletter. rewrite T, F. reflexivity.
  - apply unsubscribe_keeps_tokens, D.
  - intros env' req email sub C F S V.
    destruct (reactivation_stored env' req db email sub C F S V D)
      as (l1 & l2 & sub' & E & _ & R & Sub).
    exists l1, l2, sub'. split; [exact E|]. split; [exact R|].
    rewrite Sub. unfold reactivated. lookups. reflexivity.
  - intros env' req. apply subscribe_keeps_records.
Qed.

End NewsletterStore.

(** ** Volunteer registration: expertise *)

Section Volunteer.
Context `{Engine}.
Import VolunteerController VolunteerModel.

Lemma sanitizedExpertise_filter (l : list JsVal) :
  sanitizedExpertise (JArr (List.filter listedExpertise l)) = sanitizedExpertise (JArr l).
Proof.
  unfold sanitizedExpertise, listedExpertise.
  induction l as [|x l IH]; cbn [List.filter map]; [reflexivity|].
  destruct (includesStr validExpertise (sanitizeInput x)) eqn:E;
    cbn [List.filter map]; rewrite ?E, IH; reflexivity.
Qed.

Lemma sanitizedExpertise_listed (v : JsVal) :
  Forall (fun x => includesStr validExpertise x = true) (sanitizedExpertise v).
Proof.
  unfold sanitizedExpertise. destruct v; try constructor.
  apply List.Forall_forall. intros x I. apply filter_In in I. tauto.
Qed.

Lemma castElements_listed (l : list JsVal) :
  Forall (fun x => includesStr validExpertise x = true) l ->
  castElements l = Some (stringsOf l)
  /\ forallb (fun s => inList s expertiseValues) (stringsOf l) = true.
Proof.
  induction 1 as [|x l X _ [IH1 IH2]]; [split; reflexivity|].
  destruct x; try discriminate. cbn [castElements castString stringsOf forallb].
  rewrite IH1, IH2. split; [reflexivity|]. rewrite andb_true_r. exact X.
Qed.

Lemma registerVolunteer_expertise (env : Env) (req : Request) (db : Collection)
    (v v' : JsVal) :
  sanitizedExpertise v = sanitizedExpertise v' ->
  registerVolunteer env (withField "expertise" v req) db
  = registerVolunteer env (withField "expertise" v' req) db.
Proof.
  intros E. unfold registerVolunteer, withField. cbn [body clientIp userAgentHeader].
  rewrite !prop_insert_eq, E.
  assert (K : forall w, checkVolunteer (<["expertise" := w]> (body req))
                        = checkVolunteer (body req)).
  { intros w. unfold checkVolunteer. rewrite !prop_insert_ne by discriminate.
    reflexivity. }
  rewrite !K. reflexivity.
Qed.

Lemma checkVolunteer_rejects (b : Obj) (r : Response) :
  checkVolunteer b = inl r -> code r = 400 \/ code r = 500.
Proof.
  unfold checkVolunteer. intros C. split_tests C; try discriminate;
    injection C as <-; cbn; auto.
Qed.

(** C5 (as amended): an expertise value that is not listed (once
    sanitized) is dropped, not refused. The outcome of a registration,
    reply and store, is that of the same registration without the values
    that are not listed; what an accepted registration stores as expertise
    is the listed values, in order. *)
Theorem unlisted_expertise_dropped (env : Env) (req : Request) (db : Collection)
    (l : list JsVal) :
  registerVolunteer env (withField "expertise" (JArr l) req) db
  = registerVolunteer env (withField "expertise" (JArr (List.filter listedExpertise l)) req) db
  /\ Forall (fun x => includesStr validExpertise x = true) (sanitizedExpertise (JArr l))
  /\ (forall (r : Response) (db' : Collection),
      registerVolunteer env (withField "expertise" (JArr l) req) db = (r, db') ->
      code r = 201 ->
      exists d : Doc,
        db' = db ++ [d]
        /\ d !! "expertise" = Some (FList (stringsOf (sanitizedExpertise (JArr l))))).
Proof.
  split; [|split].
  - apply registerVolunteer_expertise. symmetry. apply sanitizedExpertise_filter.
  - apply sanitizedExpertise_listed.
  - intros r db' R C. unfold registerVolunteer in R.
    destruct (checkVolunteer (body (withField "expertise" (JArr l) req))) as [r0|c] eqn:K.
    { injection R as <- <-. apply checkVolunteer_rejects in K. lia. }
    destruct (truthy (message c) && lengthGt (message c) 500);
      [injection R as <- <-; discriminate|].
    destruct (findOne (hasEmail (email c)) db); [injection R as <- <-; discriminate|].
    match type of R with
    | context [create ?M ?e ?o ?db] => destruct (create M e o db) as [[]|[d db1]] eqn:Cr
    end; try (injection R as <- <-; discriminate).
    injection R as <- <-.
    apply create_inr in Cr as (d0 & Cast & _ & -> & _ & ->).
    eexists. split; [reflexivity|].
    cbn [preSave Volunteer]. unfold preSaveHook.
    rewrite created_lookup by discriminate.
    rewrite (castDoc_lookup _ _ _ _ _ Cast).
    unfold withField. cbn [body]. rewrite prop_insert_eq.
    destruct (castElements_listed _ (sanitizedExpertise_listed (JArr l))) as [E _].
    generalize dependent (sanitizedExpertise (JArr l)). intros kept E.
    cbn [castField schema Volunteer volunteerSchema pathName path fullNamePath emailPath
                   mobilePath String.eqb Ascii.eqb Bool.eqb].
    read_props. unfold castPath. cbn [castAs pathType path castStrings]. rewrite E.
    reflexivity.
Qed.

End Volunteer.

(** ** Event registration: one registration per email and event *)

Lemma isSpace_lowerChar (c : ascii) : Text.isSpace (Text.lowerChar c) = Text.isSpace c.
Proof. destruct c as [[] [] [] [] [] [] [] []]; reflexivity. Qed.

Lemma trimStart_lower (s : string) :
  Text.trimStart (Text.toLowerCase s) = Text.toLowerCase (Text.trimStart s).
Proof.
  induction s as [|c s IH]; [reflexivity|].
  cbn [Text.toLowerCase Text.mapChars Text.trimStart].
  rewrite isSpace_lowerChar. destruct (Text.isSpace c); [exact IH|reflexivity].
Qed.

Lemma trimEnd_lower (s : string) :
  Text.trimEnd (Text.toLowerCase s) = Text.toLowerCase (Text.trimEnd s).
Proof.
  induction s as [|c s IH]; [reflexivity|].
  cbn [Text.toLowerCase Text.mapChars Text.trimEnd].
  fold (Text.toLowerCase s). rewrite IH, isSpace_lowerChar.
  destruct (Text.trimEnd s); [destruct (Text.isSpace c)|]; reflexivity.
Qed.

(** Lower-casing and trimming commute: the email a query looks for is the
    email the setters of the schema store. *)
Lemma trim_lower (s : string) :
  Text.trim (Text.toLowerCase s) = Text.toLowerCase (Text.trim s).
Proof. unfold Text.trim. rewrite trimStart_lower, trimEnd_lower. reflexivity. Qed.

Lemma numEq_refl (n : JsNum) : isNaN n = false -> numEq n n = true.
Proof.
  destruct n; cbn; try congruence. intros _. apply Qeq_bool_iff. reflexivity.
Qed.

Lemma idOf_le_fold (db : Collection) (x : Doc) :
  In x db -> (idOf x <= fold_right (fun d m => N.max (idOf d) m) 0%N db)%N.
Proof.
  induction db as [|y db IH]; cbn; [tauto|].
  intros [<-|I]; [lia|]. specialize (IH I). lia.
Qed.

(** A fresh id is the id of no stored document. *)
Lemma freshId_new (db : Collection) (x : Doc) :
  In x db -> fieldEq (Some (FId (freshId db))) (x !! "_id") = false.
Proof.
  intros I. apply idOf_le_fold in I. unfold freshId, idOf, fieldEq in *.
  destruct (x !! "_id") as [[]|]; cbn; try reflexivity.
  apply N.eqb_neq. lia.
Qed.

(** Steps [castField] through the paths of the registration schema. *)
Ltac step_castField :=
  cbn [castField schema EventRegistrationModel.EventRegistration
                 EventRegistrationModel.eventRegistrationSchema pathName path
                 fullNamePath emailPath mobilePath String.eqb Ascii.eqb Bool.eqb].

Section EventRegistration.
Context `{Engine}.
Import EventRegistrationController EventRegistrationModel.

Lemma checkRegistration_rejects (b : Obj) (r : Response) :
  checkRegistration b = inl r -> code r = 400 \/ code r = 500.
Proof.
  unfold checkRegistration. intros C. split_tests C; try discriminate;
    injection C as <-; cbn; auto.
Qed.

Lemma checkRegistration_eventId (b : Obj) (c : Checked) :
  checkRegistration b = inr c -> eventId c = prop b "eventId".
Proof.
  unfold checkRegistration. intros C. split_tests C; try discriminate.
  injection C as <-. reflexivity.
Qed.

Lemma checkRegistration_forEvent (b : Obj) (c : Checked) (v : JsVal) :
  checkRegistration b = inr c -> truthy v = true ->
  checkRegistration (<["eventId" := v]> b) = inr (forEvent v c).
Proof.
  unfold checkRegistration. intros C T. cbv zeta.
  repeat first [rewrite prop_insert_eq | rewrite prop_insert_ne by discriminate].
  split_tests C; try discriminate. injection C as <-.
  repeat match goal with
         | E : _ || _ = false |- _ => apply orb_false_iff in E as [? ?]
         end.
  repeat match goal with
         | E : ?x = false |- context [?x] => rewrite E
         | E : ?x = Some _ |- context [?x] => rewrite E
         end.
  rewrite T. reflexivity.
Qed.

(** What a created registration stores at the paths the indexes use. *)
Lemma registration_created (env : Env) (req : Request) (c : Checked)
    (db db' : Collection) (d : Doc) :
  create EventRegistration env (registrationFields req c) db = inr (d, db') ->
  isNaN (parseInt (eventId c)) = false ->
  db' = db ++ [d]
  /\ d !! "_id" = Some (FId (freshId db))
  /\ d !! "email" = Some (FStr (Text.toLowerCase (Text.trim (email c))))
  /\ d !! "eventId" = Some (FNum (parseInt (eventId c)))
  /\ d !! "registrationReference" = Some (FStr (generateReference "REG" env)).
Proof.
  intros Cr N. apply create_inr in Cr as (d0 & Cast & _ & -> & _ & ->).
  cbn [preSave EventRegistration]. unfold preSaveHook.
  split; [reflexivity|]. split; [apply lookup_insert_eq|].
  rewrite !created_lookup by discriminate.
  unfold stampCreated. rewrite !lookup_insert_ne by discriminate.
  rewrite referenceHook_lookup.
  rewrite !(castDoc_lookup _ _ _ _ _ Cast).
  unfold registrationFields. step_castField. read_props.
  unfold castPath. cbn [castAs pathType path castString castNumber ToNumber].
  rewrite N. cbn. auto.
Qed.

End EventRegistration.

(** ** Casting and validation of two objects that differ in one property *)

Section CastingFacts.
Context `{Engine}.

Lemma castDoc_casts (env : Env) (s : Schema) (o : Obj) (d : Doc) :
  castDoc env s o = Some d -> castsAll s o = true.
Proof.
  revert d. induction s as [|p r IH]; [reflexivity|].
  cbn [castDoc castsAll forallb]. unfold castPath. intros d C.
  destruct (castAs (pathType p) (prop o (pathName p))) as [[f|]|];
    [| |discriminate];
    destruct (castDoc env r o) as [d'|];
    try discriminate; try (destruct (defaultOf env (pathOptions p)); discriminate);
    apply (IH d' eq_refl).
Qed.

Lemma castDoc_some (env : Env) (s : Schema) (o : Obj) :
  castsAll s o = true -> exists d, castDoc env s o = Some d.
Proof.
  induction s as [|p r IH]; [exists ∅; reflexivity|].
  cbn [castDoc castsAll forallb]. unfold castPath. intros C.
  apply andb_true_iff in C as [C1 C2]. destruct (IH C2) as [d' ->].
  destruct (castAs (pathType p) (prop o (pathName p))) as [[f|]|];
    [| |discriminate]; [|destruct (defaultOf env (pathOptions p))]; eauto.
Qed.

Lemma castField_agree (env env' : Env) (s : Schema) (o o' : Obj) (k : string) :
  (forall p, In p s -> pathName p = k ->
             castPath env' p (prop o' k) = castPath env p (prop o k)) ->
  castField env' s o' k = castField env s o k.
Proof.
  induction s as [|p r IH]; [reflexivity|]. intros A. cbn [castField].
  rewrite IH by (intros q I; apply A; right; exact I).
  destruct (String.eqb_spec (pathName p) k) as [E|N]; [|reflexivity].
  rewrite E, (A p (or_introl eq_refl) E). reflexivity.
Qed.

(** The validators of a path read its value, and the document only
    through the [validate] functions. *)
Lemma validatePath_agree (d d' : Doc) (p : Path) :
  d' !! pathName p = d !! pathName p ->
  (forall f v, In (Validate f) (pathOptions p) -> f d' v = f d v) ->
  validatePath d' p = validatePath d p.
Proof.
  unfold validatePath. intros -> A.
  induction (pathOptions p) as [|o os IH]; [reflexivity|]. cbn [forallb].
  rewrite IH by (intros f v I; apply A; right; exact I). f_equal.
  destruct o; try reflexivity.
  destruct (d !! pathName p) as [v|]; [|reflexivity].
  cbn. apply A. left. reflexivity.
Qed.

Lemma existsb_none {A : Type} (f : A -> bool) (l : list A) :
  (forall x, In x l -> f x = false) -> existsb f l = false.
Proof.
  induction l as [|x l IH]; [reflexivity|]. intros F. cbn.
  rewrite (F x (or_introl eq_refl)), IH; [reflexivity|].
  intros y I. apply F. right. exact I.
Qed.

End CastingFacts.

Section CastingFacts2.
Context `{Engine}.

Lemma castsAll_agree (s : Schema) (o o' : Obj) :
  (forall p, In p s ->
             castAs (pathType p) (prop o' (pathName p)) = CastFails ->
             castAs (pathType p) (prop o (pathName p)) = CastFails) ->
  castsAll s o = true -> castsAll s o' = true.
Proof.
  unfold castsAll. intros A C. apply forallb_forall. intros p I.
  rewrite forallb_forall in C. specialize (C p I). specialize (A p I).
  destruct (castAs (pathType p) (prop o' (pathName p))); [reflexivity|].
  rewrite (A eq_refl) in C. discriminate.
Qed.

Lemma validateDoc_agree (s : Schema) (d d' : Doc) :
  validateDoc s d = true ->
  (forall p, In p s -> validatePath d' p = validatePath d p \/ validatePath d' p = true) ->
  validateDoc s d' = true.
Proof.
  unfold validateDoc. intros V A. apply forallb_forall. intros p I.
  rewrite forallb_forall in V. destruct (A p I) as [-> | ->]; auto.
Qed.

Lemma findOne_none_intro (q : Doc -> bool) (db : Collection) :
  (forall x, In x db -> q x = false) -> findOne q db = None.
Proof.
  unfold findOne. intros A. destruct (find q db) as [x|] eqn:F; [|reflexivity].
  apply find_some in F as [I Q]. rewrite (A x I) in Q. discriminate.
Qed.

End CastingFacts2.

(** Takes the membership of a path in a schema apart, path by path. *)
Ltac each_path I :=
  cbn [In] in I;
  repeat (let E := fresh "E" in destruct I as [E|I]; [symmetry in E; subst|]);
  [..|contradiction].

Section OtherEvent.
Context `{Engine}.
Import EventRegistrationController EventRegistrationModel.

Lemma registrationFields_casts (req : Request) (c : Checked) (v : JsVal) :
  isNaN (parseInt v) = false ->
  castsAll eventRegistrationSchema (registrationFields req c) = true ->
  castsAll eventRegistrationSchema
    (registrationFields (withField "eventId" v req) (forEvent v c)) = true.
Proof.
  intros N. apply castsAll_agree. intros p I.
  unfold eventRegistrationSchema in I. each_path I;
    unfold registrationFields;
    cbn [pathName pathType path fullNamePath emailPath mobilePath];
    read_props; try exact id.
  cbn [castAs castNumber ToNumber forEvent eventId]. rewrite N. discriminate.
Qed.

(** The two documents agree but for the event and the default date. *)
Lemma registrationFields_agree (env env' : Env) (req : Request) (c : Checked)
    (v : JsVal) (k : string) :
  k <> "eventId" -> k <> "registrationDate" ->
  castField env' eventRegistrationSchema
    (registrationFields (withField "eventId" v req) (forEvent v c)) k
  = castField env eventRegistrationSchema (registrationFields req c) k.
Proof.
  intros N1 N2. apply castField_agree. intros p I E.
  unfold eventRegistrationSchema in I. each_path I;
    cbn [pathName path fullNamePath emailPath mobilePath] in *;
    try (exfalso; apply N1; reflexivity); try (exfalso; apply N2; reflexivity);
    unfold registrationFields; read_props; reflexivity.
Qed.

Lemma other_event_validates (d d' : Doc) (n : JsNum) :
  validateDoc eventRegistrationSchema d = true ->
  (forall k, k <> "eventId" -> k <> "registrationDate" -> d' !! k = d !! k) ->
  d' !! "eventId" = Some (FNum n) ->
  validateDoc eventRegistrationSchema d' = true.
Proof.
  intros V A E. apply (validateDoc_agree _ d d' V). intros p I.
  unfold eventRegistrationSchema in I. each_path I.
  all: try (left; apply validatePath_agree;
            [ apply A; discriminate
            | intros f v J; cbn [pathOptions path fullNamePath emailPath mobilePath
                                             app In] in J;
              repeat (destruct J as [J|J]; try discriminate); try contradiction ]).
  - injection J as <-. unfold disabilityTypeValidator. rewrite A by discriminate.
    reflexivity.
  - injection J as <-. unfold otherDisabilityTextValidator. rewrite A by discriminate.
    reflexivity.
  - right. unfold validatePath. cbn [pathName pathOptions path forallb].
    rewrite E. reflexivity.
  - right. unfold validatePath. cbn [pathName pathOptions path forallb].
    destruct (d' !! "registrationDate"); reflexivity.
Qed.

Lemma numEq_sym (n m : JsNum) : numEq n m = numEq m n.
Proof.
  destruct n, m; try reflexivity. cbn.
  destruct (Qeq_bool q q0) eqn:A, (Qeq_bool q0 q) eqn:B; try reflexivity.
  - apply Qeq_bool_iff in A. symmetry in A. apply Qeq_bool_iff in A. congruence.
  - apply Qeq_bool_iff in B. symmetry in B. apply Qeq_bool_iff in B. congruence.
Qed.

Lemma fieldEq_sym (a b : option Field) : fieldEq a b = fieldEq b a.
Proof.
  unfold fieldEq.
  destruct (default FNull a) as [|s|n|x|t|i|l], (default FNull b) as [|s'|n'|x'|t'|i'|l'];
    try reflexivity.
  - apply String.eqb_sym.
  - apply numEq_sym.
  - destruct x, x'; reflexivity.
  - apply Z.eqb_sym.
  - apply N.eqb_sym.
  - destruct (decide (l = l')) as [->|N].
    + reflexivity.
    + rewrite !bool_decide_eq_false_2; congruence.
Qed.

Lemma registration_uniqueKeys :
  uniqueKeys EventRegistration
  = [["_id"]; ["registrationReference"]; ["email"; "eventId"]].
Proof. reflexivity. Qed.

(** The paths of a registration the indexes use, from its cast. *)
Lemma registration_doc (env : Env) (req : Request) (c : Checked) (d0 : Doc) (i : N) :
  castDoc env eventRegistrationSchema (registrationFields req c) = Some d0 ->
  isNaN (parseInt (eventId c)) = false ->
  let d : Doc := <["_id" := FId i]> (stampCreated env (preSaveHook env d0)) in
  d !! "_id" = Some (FId i)
  /\ d !! "email" = Some (FStr (Text.toLowerCase (Text.trim (email c))))
  /\ d !! "eventId" = Some (FNum (parseInt (eventId c)))
  /\ d !! "registrationReference" = Some (FStr (generateReference "REG" env)).
Proof.
  intros Cast N d. subst d. unfold preSaveHook.
  split; [apply lookup_insert_eq|].
  unfold stampCreated. rewrite !lookup_insert_ne by discriminate.
  rewrite !referenceHook_other by discriminate. rewrite referenceHook_lookup.
  rewrite !(castDoc_lookup _ _ _ _ _ Cast).
  unfold registrationFields. step_castField. read_props.
  unfold castPath. cbn [castAs pathType path castString castNumber ToNumber].
  rewrite N. cbn. auto.
Qed.


End OtherEvent.


(** ** Event registration: the same event, another event *)

Section OneRegistration.
Context `{Engine}.
Import EventRegistrationController EventRegistrationModel.

Lemma numEq_not_NaN (n m : JsNum) : numEq n m = true -> isNaN n = false /\ isNaN m = false.
Proof. destruct n, m; cbn; try discriminate; auto. Qed.

(** A request without a truthy [eventId] is answered 400. *)
Lemma eventId_missing (env : Env) (req : Request) (db : Collection) :
  truthy (prop (body req) "eventId") = false ->
  registerForEvent env req db = (reject 400 "All mandatory fields are required", db).
Proof.
  intros T. unfold registerForEvent, checkRegistration. cbv zeta. rewrite T.
  cbn [negb]. rewrite !orb_true_r. cbn [orb]. reflexivity.
Qed.

(** A request whose [eventId] [parseInt] reads as [NaN] fails in the
    query. *)
Lemma eventId_NaN (env : Env) (req : Request) (db : Collection) (c : Checked) :
  checkRegistration (body req) = inr c ->
  isNaN (parseInt (prop (body req) "eventId")) = true ->
  registerForEvent env req db = (serverError, db).
Proof.
  intros K N. unfold registerForEvent. rewrite K.
  unfold isAlreadyRegistered. rewrite (checkRegistration_eventId _ _ K), N. reflexivity.
Qed.

(** Once a registration is stored, a submission of its email for its
    event is answered 409. *)
Lemma registered_conflict (env : Env) (req : Request) (db : Collection) (c : Checked)
    (d : Doc) (n : JsNum) :
  checkRegistration (body req) = inr c ->
  In d db ->
  d !! "email" = Some (FStr (Text.toLowerCase (Text.trim (email c)))) ->
  d !! "eventId" = Some (FNum n) ->
  numEq n (parseInt (eventId c)) = true ->
  registerForEvent env req db = (alreadyRegistered, db).
Proof.
  intros K I Em Ev Eq. unfold registerForEvent. rewrite K.
  unfold isAlreadyRegistered.
  destruct (numEq_not_NaN _ _ Eq) as [_ N]. rewrite N.
  match goal with
  | |- context [findOne ?q db] =>
      destruct (findOne_finds q db d I) as (x & F & _); [|rewrite F; reflexivity]
  end.
  rewrite Em, Ev, trim_lower, fieldEq_FStr, fieldEq_FNum, String.eqb_refl, Eq.
  reflexivity.
Qed.

(** C7 (as amended): once a registration is accepted, every submission
    that passes the checks with the same email and an [eventId] that
    [parseInt] reads as the same number is answered 409 and stores
    nothing, in every collection that holds the registration. The same
    request for another event (an [eventId] that is truthy and that
    [parseInt] reads as a different number) is accepted and stored, when
    that email is not yet registered for that event and the reference
    generated for it is not taken. Events are told apart as [parseInt]
    reads them: a falsy [eventId] is answered 400 as a missing field, and
    one that is read as [NaN] is answered 500. *)
Theorem one_registration_per_event (env1 env2 : Env) (req : Request)
    (db db1 : Collection) (r1 : Response) :
  registerForEvent env1 req db = (r1, db1) ->
  code r1 = 201 ->
  (exists (c1 : Checked) (d1 : Doc),
      checkRegistration (body req) = inr c1
      /\ db1 = db ++ [d1]
      /\ forall (req2 : Request) (c2 : Checked) (db2 : Collection),
          checkRegistration (body req2) = inr c2 ->
          email c2 = email c1 ->
          numEq (parseInt (prop (body req2) "eventId"))
                (parseInt (prop (body req) "eventId")) = true ->
          In d1 db2 ->
          registerForEvent env2 req2 db2
          = (reject 409 "You are already registered for this event", db2))
  /\ (forall (v2 : JsVal) (d1 : Doc),
      db1 = db ++ [d1] ->
      truthy v2 = true ->
      isNaN (parseInt v2) = false ->
      numEq (parseInt (prop (body req) "eventId")) (parseInt v2) = false ->
      (forall x, In x db ->
         fieldEq (x !! "email") (d1 !! "email")
         && fieldEq (x !! "eventId") (Some (FNum (parseInt v2))) = false) ->
      (forall x, In x db1 ->
         fieldEq (x !! "registrationReference")
                 (Some (FStr (generateReference "REG" env2))) = false) ->
      exists d2 : Doc,
        registerForEvent env2 (withField "eventId" v2 req) db1
        = (accept 201 "Thank you for submitting your response. Your response has been submitted successfully.",
           db1 ++ [d2])
        /\ d2 !! "email" = d1 !! "email"
        /\ d2 !! "eventId" = Some (FNum (parseInt v2)))
  /\ (forall (v2 : JsVal) (db2 : Collection),
      truthy v2 = false ->
      registerForEvent env2 (withField "eventId" v2 req) db2
      = (reject 400 "All mandatory fields are required", db2))
  /\ (forall (v2 : JsVal) (db2 : Collection),
      truthy v2 = true ->
      isNaN (parseInt v2) = true ->
      registerForEvent env2 (withField "eventId" v2 req) db2
      = (reject 500 "Internal server error. Please try again later.", db2)).
Proof.
  intros R C. split; [|split; [|split]].
  - unfold registerForEvent in R.
    destruct (checkRegistration (body req)) as [r0|c] eqn:K.
    { injection R as <- <-. apply checkRegistration_rejects in K. lia. }
    pose proof (checkRegistration_eventId _ _ K) as Ev.
    unfold isAlreadyRegistered in R.
    destruct (isNaN (parseInt (eventId c))) eqn:N1; [injection R as <- <-; discriminate|].
    match type of R with
    | context [findOne ?q db] => destruct (findOne q db) eqn:F
    end; [injection R as <- <-; discriminate|].
    destruct (create EventRegistration env1 (registrationFields req c) db)
      as [[]|[d db']] eqn:Cr; try (injection R as <- <-; discriminate).
    injection R as <- <-.
    apply registration_created in Cr as (E1 & _ & Em1 & Ev1 & _); [|exact N1].
    exists c, d. split; [reflexivity|]. split; [exact E1|].
    intros req2 c2 db2 K2 Em Eq I.
    apply (registered_conflict env2 req2 db2 c2 d (parseInt (eventId c)) K2 I).
    + rewrite Em. exact Em1.
    + exact Ev1.
    + rewrite numEq_sym, (checkRegistration_eventId _ _ K2), Ev. exact Eq.
  - intros v2 d1 D T N2 Ne Free Fresh.
    unfold registerForEvent in R.
    destruct (checkRegistration (body req)) as [r0|c] eqn:K.
    { injection R as <- <-. apply checkRegistration_rejects in K. lia. }
    pose proof (checkRegistration_eventId _ _ K) as Ev.
    unfold isAlreadyRegistered in R.
    destruct (isNaN (parseInt (eventId c))) eqn:N1; [injection R as <- <-; discriminate|].
    match type of R with
    | context [findOne ?q db] => destruct (findOne q db) eqn:F
    end; [injection R as <- <-; discriminate|].
    destruct (create EventRegistration env1 (registrationFields req c) db)
      as [[]|[d db']] eqn:Cr; try (injection R as <- <-; discriminate).
    injection R as <- <-.
    pose proof Cr as Cr'. apply create_inr in Cr' as (d01 & Cast1 & V1 & _ & _ & _).
    apply registration_created in Cr as (E1 & Id1 & Em1 & Ev1 & Ref1); [|exact N1].
    rewrite E1 in D. apply app_inj_tail in D as [_ D]. subst d db'.
    (* the request for the other event *)
    unfold registerForEvent, withField. cbn [body].
    rewrite (checkRegistration_forEvent _ _ v2 K T).
    unfold isAlreadyRegistered. cbn [forEvent eventId email]. rewrite N2.
    rewrite findOne_none_intro; cycle 1.
    { intros x I. apply in_app_or in I as [I|[<-|[]]].
      - rewrite trim_lower, <- Em1. apply Free, I.
      - rewrite Ev1, fieldEq_FNum, Ev, Ne. apply andb_false_r. }
    (* its document casts and validates *)
    destruct (castDoc_some env2 eventRegistrationSchema
                (registrationFields (withField "eventId" v2 req) (forEvent v2 c)))
      as [d02 Cast2].
    { apply registrationFields_casts; [exact N2|]. eapply castDoc_casts, Cast1. }
    pose proof (registration_doc env2 _ _ d02 (freshId (db ++ [d1])) Cast2) as Doc2.
    cbn [forEvent eventId email] in Doc2. specialize (Doc2 N2).
    cbv zeta in Doc2. destruct Doc2 as (Id2 & Em2 & Ev2 & Ref2).
    assert (V2 : validateDoc eventRegistrationSchema d02 = true).
    { apply (other_event_validates d01 d02 (parseInt v2) V1).
      - intros k K1 K2. rewrite (castDoc_lookup _ _ _ _ _ Cast1),
          (castDoc_lookup _ _ _ _ _ Cast2).
        apply registrationFields_agree; assumption.
      - rewrite (castDoc_lookup _ _ _ _ _ Cast2).
        unfold registrationFields. step_castField. read_props.
        unfold castPath. cbn [castAs pathType path castNumber ToNumber forEvent eventId].
        rewrite N2. reflexivity. }
    unfold withField in Cast2. 
    unfold create. cbn [schema EventRegistration preSave].
    unfold withField. rewrite Cast2, V2. cbn [negb].
    unfold withField in *.
    set (d2 := <["_id" := FId (freshId (db ++ [d1]))]>
                 (stampCreated env2 (preSaveHook env2 d02))) in *.
    assert (U : violatesUnique EventRegistration (db ++ [d1]) d2 = false).
    { unfold violatesUnique. rewrite registration_uniqueKeys. cbn [existsb].
      rewrite !existsb_none; [reflexivity| | |]; intros x I;
        unfold sameKey; cbn [forallb].
      - rewrite Em2, Ev2. apply in_app_or in I as [I|[<-|[]]].
        + rewrite andb_true_r, (fieldEq_sym _ (x !! "email")), (fieldEq_sym _ (x !! "eventId")).
          rewrite <- Em1. apply Free, I.
        + rewrite Ev1, fieldEq_FNum, numEq_sym, Ev, Ne. rewrite andb_false_r. reflexivity.
      - rewrite Ref2, fieldEq_sym, (Fresh x I). reflexivity.
      - rewrite Id2, (freshId_new _ x I). reflexivity. }
    fold EventRegistration in U.
    change ({| schema := eventRegistrationSchema; uniqueIndexes := [["email"; "eventId"]];
               preSave := preSaveHook |}) with EventRegistration.
    rewrite U. exists d2. split; [reflexivity|]. split; congruence.
  - intros v2 db2 T. apply eventId_missing. unfold withField. cbn [body].
    rewrite prop_insert_eq. exact T.
  - intros v2 db2 T N.
    unfold registerForEvent in R.
    destruct (checkRegistration (body req)) as [r0|c] eqn:K.
    { injection R as <- <-. apply checkRegistration_rejects in K. lia. }
    apply (eventId_NaN env2 _ db2 (forEvent v2 c)).
    + unfold withField. cbn [body]. apply checkRegistration_forEvent; assumption.
    + unfold withField. cbn [body]. rewrite prop_insert_eq. exact N.
Qed.

End OneRegistration.


(* ===================================================================== *)
(** * Further properties of the controllers and models *)
(* ===================================================================== *)

(** ** Sanitization *)

Section SanitizeFacts.

Lemma sublist_trimStart (s : string) :
  sublist (list_ascii_of_string (Text.trimStart s)) (list_ascii_of_string s).
Proof.
  induction s as [|c s IH]; cbn [Text.trimStart]; [constructor|].
  destruct (Text.isSpace c); [|reflexivity].
  cbn [list_ascii_of_string]. apply sublist_cons. exact IH.
Qed.

Lemma sublist_trimEnd (s : string) :
  sublist (list_ascii_of_string (Text.trimEnd s)) (list_ascii_of_string s).
Proof.
  induction s as [|c s IH]; cbn [Text.trimEnd]; [constructor|].
  cbn [list_ascii_of_string].
  destruct (Text.trimEnd s) as [|c' r].
  - destruct (Text.isSpace c); cbn [list_ascii_of_string].
    + apply sublist_nil_l.
    + apply sublist_skip, sublist_nil_l.
  - cbn [list_ascii_of_string] in *. apply sublist_skip. exact IH.
Qed.

Lemma sublist_removeChars (p : ascii -> bool) (s : string) :
  sublist (list_ascii_of_string (Text.removeChars p s)) (list_ascii_of_string s).
Proof.
  induction s as [|c s IH]; cbn [Text.removeChars]; [constructor|].
  destruct (p c); cbn [list_ascii_of_string];
    [apply sublist_cons | apply sublist_skip]; exact IH.
Qed.

Lemma sublist_dropScheme (k : nat) (s : string) :
  sublist (list_ascii_of_string (Text.dropScheme k s)) (list_ascii_of_string s).
Proof.
  revert k. induction s as [|c s IH]; intros k; [constructor|].
  cbn [Text.dropScheme list_ascii_of_string].
  destruct k as [|k]; [|apply sublist_cons, IH].
  destruct (Text.startsWithCI _ _); [apply sublist_cons, IH|].
  cbn [list_ascii_of_string]. apply sublist_skip, IH.
Qed.

Lemma sublist_dropHandlers (k : nat) (s : string) :
  sublist (list_ascii_of_string (Text.dropHandlers k s)) (list_ascii_of_string s).
Proof.
  revert k. induction s as [|c s IH]; intros k; [constructor|].
  cbn [Text.dropHandlers list_ascii_of_string].
  destruct k as [|k]; [|apply sublist_cons, IH].
  destruct (Text.handlerMatch _); [apply sublist_cons, IH|].
  cbn [list_ascii_of_string]. apply sublist_skip, IH.
Qed.

(** The sanitized text is the input with characters deleted. *)
Lemma sublist_sanitize (s : string) :
  sublist (list_ascii_of_string (sanitize s)) (list_ascii_of_string s).
Proof.
  unfold sanitize, Text.trim.
  etransitivity; [apply sublist_dropHandlers|].
  etransitivity; [apply sublist_dropScheme|].
  etransitivity; [apply sublist_removeChars|].
  etransitivity; [apply sublist_trimEnd|].
  apply sublist_trimStart.
Qed.

Lemma allChars_Forall (p : ascii -> bool) (s : string) :
  Text.allChars p s = true <-> Forall (fun c => p c = true) (list_ascii_of_string s).
Proof.
  induction s as [|c s IH]; cbn [Text.allChars list_ascii_of_string].
  - split; [constructor|reflexivity].
  - rewrite andb_true_iff, IH, Forall_cons. reflexivity.
Qed.

(** Deleting characters keeps what holds of every character. *)
Lemma allChars_sublist (p : ascii -> bool) (s t : string) :
  sublist (list_ascii_of_string t) (list_ascii_of_string s) ->
  Text.allChars p s = true -> Text.allChars p t = true.
Proof.
  rewrite !allChars_Forall. intros S.
  induction S as [|x l1 l2 _ IH|x l1 l2 _ IH]; intros A.
  - constructor.
  - apply Forall_cons in A as [A1 A2]. apply Forall_cons. auto.
  - apply Forall_cons in A as [_ A2]. auto.
Qed.

Lemma allChars_removeChars (p : ascii -> bool) (s : string) :
  Text.allChars (fun c => negb (p c)) (Text.removeChars p s) = true.
Proof.
  induction s as [|c s IH]; cbn [Text.removeChars]; [reflexivity|].
  destruct (p c) eqn:E; [exact IH|]. cbn [Text.allChars]. rewrite E, IH. reflexivity.
Qed.

Lemma length_list_ascii (s : string) :
  List.length (list_ascii_of_string s) = String.length s.
Proof. induction s as [|c s IH]; cbn; congruence. Qed.

End SanitizeFacts.

(** X1: whatever the input, [sanitizeInput] only deletes characters (the
    result is a subsequence of the input, so never longer), and no [<] or
    [>] is left. *)
Theorem sanitize_deletes_angle_brackets (s : string) :
  sublist (list_ascii_of_string (sanitize s)) (list_ascii_of_string s)
  /\ String.length (sanitize s) <= String.length s
  /\ Text.allChars (fun c => negb (isAngle c)) (sanitize s) = true
  /\ sanitizeInput (JStr s) = JStr (sanitize s).
Proof.
  split; [apply sublist_sanitize|]. split; [|split; [|reflexivity]].
  - rewrite <- !length_list_ascii. apply sublist_length, sublist_sanitize.
  - unfold sanitize.
    eapply allChars_sublist; [apply sublist_dropHandlers|].
    eapply allChars_sublist; [apply sublist_dropScheme|].
    apply allChars_removeChars.
Qed.

Section SinglePass.

Lemma trimEnd_cons (c : ascii) (r : string) :
  Text.isSpace c = false -> Text.trimEnd (String c r) = String c (Text.trimEnd r).
Proof.
  intros E. cbn [Text.trimEnd]. rewrite E. destruct (Text.trimEnd r); reflexivity.
Qed.

End SinglePass.

(** X2: the removal of [javascript:] is one pass from the left: the two
    halves of an occurrence it deletes can join into a new one. Whatever
    follows it, the input [javajavascript:script:] comes out as
    [javascript:]. *)
Theorem sanitize_is_one_pass (t : string) :
  sanitize ("javajavascript:script:" +:+ t)
  = "javascript:"
    +:+ Text.dropHandlers 0 (Text.dropScheme 0 (Text.removeChars isAngle (Text.trimEnd t)))
  /\ String.prefix "javascript:" (sanitize ("javajavascript:script:" +:+ t)) = true.
Proof.
  assert (E : sanitize ("javajavascript:script:" +:+ t)
              = "javascript:"
                +:+ Text.dropHandlers 0
                      (Text.dropScheme 0 (Text.removeChars isAngle (Text.trimEnd t)))).
  { unfold sanitize, Text.trim.
    change ("javajavascript:script:" +:+ t)
      with (String "j" (String "a" (String "v" (String "a" (String "j" (String "a"
           (String "v" (String "a" (String "s" (String "c" (String "r" (String "i"
           (String "p" (String "t" (String ":" (String "s" (String "c" (String "r"
           (String "i" (String "p" (String "t" (String ":" t)))))))))))))))))))))).
    cbn [Text.trimStart]. change (Text.isSpace "j") with false. cbv iota.
    rewrite !trimEnd_cons by reflexivity.
    generalize (Text.trimEnd t). intros u.
    change (Text.removeChars isAngle
              (String "j" (String "a" (String "v" (String "a" (String "j" (String "a"
              (String "v" (String "a" (String "s" (String "c" (String "r" (String "i"
              (String "p" (String "t" (String ":" (String "s" (String "c" (String "r"
              (String "i" (String "p" (String "t" (String ":" u)))))))))))))))))))))))
      with (String "j" (String "a" (String "v" (String "a" (String "j" (String "a"
           (String "v" (String "a" (String "s" (String "c" (String "r" (String "i"
           (String "p" (String "t" (String ":" (String "s" (String "c" (String "r"
           (String "i" (String "p" (String "t" (String ":"
             (Text.removeChars isAngle u))))))))))))))))))))))).
    generalize (Text.removeChars isAngle u). intros w.
    reflexivity. }
  split; [exact E|]. rewrite E.
  generalize (Text.dropHandlers 0
                (Text.dropScheme 0 (Text.removeChars isAngle (Text.trimEnd t)))).
  intros w. destruct w; reflexivity.
Qed.

(** ** The patterns of the validation helpers *)

Section ClassLanguages.
Import Regex.

Lemma allChars_append (p : ascii -> bool) (u v : string) :
  Text.allChars p (u +:+ v) = Text.allChars p u && Text.allChars p v.
Proof.
  induction u as [|c u IH]; [reflexivity|].
  rewrite append_cons. cbn [Text.allChars]. rewrite IH. apply andb_assoc.
Qed.

Lemma allChars_ext (p q : ascii -> bool) (s : string) :
  (forall c, p c = q c) -> Text.allChars p s = Text.allChars q s.
Proof.
  intros E. induction s as [|c s IH]; [reflexivity|].
  cbn [Text.allChars]. rewrite E, IH. reflexivity.
Qed.

(** A string of [k] characters or more has a head of [k] characters. *)
Lemma string_split (k : nat) (w : string) :
  k <= String.length w ->
  exists u v, w = u +:+ v /\ String.length u = k.
Proof.
  revert w. induction k as [|k IH]; intros w L.
  - exists EmptyString, w. split; reflexivity.
  - destruct w as [|c w]; cbn [String.length] in L; [lia|].
    destruct (IH w) as (u & v & -> & E); [lia|].
    exists (String c u), v. split; [reflexivity|]. cbn [String.length]. lia.
Qed.

Lemma lang_Class_inv (n : bool) (l : list atom) (w : string) :
  lang (Class n l) w -> exists c, w = String c EmptyString /\ classHas n l c = true.
Proof. intros L. inversion L; subst. eauto. Qed.

Lemma lang_Alt_inv (r s : t) (w : string) : lang (Alt r s) w -> lang r w \/ lang s w.
Proof. intros L. inversion L; subst; auto. Qed.

Lemma lang_Star_class (n : bool) (l : list atom) (w : string) :
  lang (Star (Class n l)) w <-> Text.allChars (classHas n l) w = true.
Proof.
  split.
  - intros L. remember (Star (Class n l)) as x eqn:X. revert X.
    induction L as [| | | | | |r u v Lu _ Lv IH]; try discriminate; intros X.
    + reflexivity.
    + injection X as ->. apply lang_Class_inv in Lu as (c & -> & C).
      rewrite append_cons, append_nil. cbn [Text.allChars]. rewrite C, IH; reflexivity.
  - induction w as [|c w IH]; cbn [Text.allChars]; intros A; [constructor|].
    apply andb_true_iff in A as [A1 A2].
    change (String c w) with (String c EmptyString +:+ w).
    constructor; [constructor; exact A1 | apply IH; exact A2].
Qed.

Lemma lang_plus_class (n : bool) (l : list atom) (w : string) :
  lang (plus (Class n l)) w <-> w <> EmptyString /\ Text.allChars (classHas n l) w = true.
Proof.
  unfold plus. split.
  - intros L. apply lang_Seq_inv in L as (u & v & -> & Lu & Lv).
    apply lang_Class_inv in Lu as (c & -> & C). apply lang_Star_class in Lv.
    rewrite append_cons, append_nil. cbn [Text.allChars]. rewrite C, Lv.
    split; [discriminate|reflexivity].
  - intros [N A]. destruct w as [|c w]; [contradiction|].
    cbn [Text.allChars] in A. apply andb_true_iff in A as [A1 A2].
    change (String c w) with (String c EmptyString +:+ w).
    constructor; [constructor; exact A1 | apply lang_Star_class; exact A2].
Qed.

Lemma lang_times_class (k : nat) (n : bool) (l : list atom) (w : string) :
  lang (times k (Class n l)) w
  <-> String.length w = k /\ Text.allChars (classHas n l) w = true.
Proof.
  revert w. induction k as [|k IH]; intros w; cbn [times].
  - split.
    + intros L. apply lang_Eps in L. subst w. split; reflexivity.
    + intros [E _]. destruct w; [constructor|discriminate].
  - split.
    + intros L. apply lang_Seq_inv in L as (u & v & -> & Lu & Lv).
      apply lang_Class_inv in Lu as (c & -> & C). apply IH in Lv as [E A].
      rewrite append_cons, append_nil. cbn [String.length Text.allChars].
      rewrite C, A, E. split; reflexivity.
    + intros [E A]. destruct w as [|c w]; [discriminate|].
      cbn [String.length Text.allChars] in *. apply andb_true_iff in A as [A1 A2].
      change (String c w) with (String c EmptyString +:+ w).
      constructor; [constructor; exact A1 | apply IH; split; [lia | exact A2]].
Qed.

Lemma lang_upTo_class (k : nat) (n : bool) (l : list atom) (w : string) :
  lang (upTo k (Class n l)) w
  <-> String.length w <= k /\ Text.allChars (classHas n l) w = true.
Proof.
  revert w. induction k as [|k IH]; intros w; cbn [upTo]; unfold opt.
  - split.
    + intros L. apply lang_Eps in L. subst w. split; reflexivity.
    + intros [E _]. destruct w; [constructor|cbn in E; lia].
  - split.
    + intros L. apply lang_Alt_inv in L as [L|L].
      * apply lang_Eps in L. subst w. split; [cbn; lia|reflexivity].
      * apply lang_Seq_inv in L as (u & v & -> & Lu & Lv).
        apply lang_Class_inv in Lu as (c & -> & C). apply IH in Lv as [E A].
        rewrite append_cons, append_nil. cbn [String.length Text.allChars].
        rewrite C, A. split; [lia|reflexivity].
    + intros [E A]. destruct w as [|c w]; [apply LAltL; constructor|].
      cbn [String.length Text.allChars] in *. apply andb_true_iff in A as [A1 A2].
      apply LAltR. change (String c w) with (String c EmptyString +:+ w).
      constructor; [constructor; exact A1 | apply IH; split; [lia | exact A2]].
Qed.

(** [[...]{a,b}] matches the strings of [a] to [b] characters of the class. *)
Lemma lang_bounded_class (a b : nat) (n : bool) (l : list atom) (w : string) :
  a <= b ->
  lang (bounded a b (Class n l)) w
  <-> (a <= String.length w /\ String.length w <= b)
      /\ Text.allChars (classHas n l) w = true.
Proof.
  intros AB. unfold bounded. split.
  - intros L. apply lang_Seq_inv in L as (u & v & -> & Lu & Lv).
    apply lang_times_class in Lu as [E1 A1]. apply lang_upTo_class in Lv as [E2 A2].
    rewrite length_append, allChars_append, A1, A2. split; [lia|reflexivity].
  - intros [[L1 L2] A]. destruct (string_split a w L1) as (u & v & -> & E).
    rewrite allChars_append in A. apply andb_true_iff in A as [A1 A2].
    rewrite length_append in L2.
    constructor; [apply lang_times_class | apply lang_upTo_class]; split;
      try assumption; lia.
Qed.

(** [[...]{a,}] *)
Lemma lang_atLeast_class (a : nat) (n : bool) (l : list atom) (w : string) :
  lang (atLeast a (Class n l)) w
  <-> a <= String.length w /\ Text.allChars (classHas n l) w = true.
Proof.
  unfold atLeast. split.
  - intros L. apply lang_Seq_inv in L as (u & v & -> & Lu & Lv).
    apply lang_times_class in Lu as [E1 A1]. apply lang_Star_class in Lv.
    rewrite length_append, allChars_append, A1, Lv. split; [lia|reflexivity].
  - intros [L A]. destruct (string_split a w L) as (u & v & -> & E).
    rewrite allChars_append in A. apply andb_true_iff in A as [A1 A2].
    constructor; [apply lang_times_class; split; assumption
                 | apply lang_Star_class; exact A2].
Qed.

Lemma classHas_chr (c x : ascii) : classHas false [AChar c] x = Ascii.eqb c x.
Proof. unfold classHas. cbn [existsb atomHas xorb]. apply orb_false_r. Qed.

Lemma lang_chr_inv (c : ascii) (w : string) : lang (chr c) w -> w = String c EmptyString.
Proof.
  intros L. apply lang_Class_inv in L as (x & -> & C).
  rewrite classHas_chr in C. apply Ascii.eqb_eq in C. congruence.
Qed.

Lemma lang_chr (c : ascii) : lang (chr c) (String c EmptyString).
Proof. constructor. rewrite classHas_chr. apply Ascii.eqb_refl. Qed.

(** [/^[0-9]{10,15}$/] matches the strings of 10 to 15 decimal digits. *)
Lemma schemaMobileRegex_digits (s : string) :
  Regex.test schemaMobileRegex s
  = Text.allChars Text.isDigit s
    && (10 <=? String.length s) && (String.length s <=? 15).
Proof.
  apply eq_true_iff_eq. rewrite test_lang. unfold schemaMobileRegex.
  rewrite lang_bounded_class by lia.
  rewrite (allChars_ext _ Text.isDigit)
    by (intros c; unfold Regex.classHas; cbn; apply orb_false_r).
  rewrite !andb_true_iff, !Nat.leb_le. tauto.
Qed.

End ClassLanguages.

(** ** Email validation *)

Section EmailFacts.

Lemma plain_class (x : ascii) :
  Regex.classHas true [Regex.ASpace; Regex.AChar "@"] x
  = negb (Text.isSpace x || Ascii.eqb "@" x).
Proof.
  unfold Regex.classHas. cbn [existsb Regex.atomHas xorb].
  rewrite orb_false_r. reflexivity.
Qed.

(** What [/^[^\s@]+@[^\s@]+\.[^\s@]+$/] matches. *)
Lemma emailRegex_shape (e : string) :
  Regex.test emailRegex e = true
  <-> exists a b c : string,
      e = a +:+ "@" +:+ b +:+ "." +:+ c
      /\ a <> "" /\ b <> "" /\ c <> ""
      /\ Text.allChars (fun x => negb (Text.isSpace x || Ascii.eqb "@" x))
                       (a +:+ b +:+ c) = true.
Proof.
  rewrite test_lang. unfold emailRegex, seqs. cbv zeta. cbn [fold_right]. split.
  - intros L.
    apply lang_Seq_inv in L as (a & v1 & -> & La & L).
    apply lang_Seq_inv in L as (u2 & v2 & -> & L2 & L).
    apply lang_Seq_inv in L as (b & v3 & -> & Lb & L).
    apply lang_Seq_inv in L as (u4 & v4 & -> & L4 & L).
    apply lang_Seq_inv in L as (c & v5 & -> & Lc & L).
    apply lang_Eps in L. subst v5. rewrite append_empty.
    apply lang_plus_class in La as [Na Aa], Lb as [Nb Ab], Lc as [Nc Ac].
    apply lang_chr_inv in L2, L4. subst u2 u4.
    exists a, b, c. repeat split; try assumption.
    rewrite !allChars_append, <- !(allChars_ext _ _ _ plain_class), Aa, Ab, Ac.
    reflexivity.
  - intros (a & b & c & -> & Na & Nb & Nc & A).
    rewrite !allChars_append, <- !(allChars_ext _ _ _ plain_class) in A.
    apply andb_true_iff in A as [Aa A]. apply andb_true_iff in A as [Ab Ac].
    constructor; [apply lang_plus_class; auto|].
    change ("@" +:+ b +:+ "." +:+ c) with (String "@" "" +:+ (b +:+ "." +:+ c)).
    constructor; [apply lang_chr|].
    constructor; [apply lang_plus_class; auto|].
    change ("." +:+ c) with (String "." "" +:+ c).
    constructor; [apply lang_chr|].
    rewrite <- (append_empty c).
    constructor; [apply lang_plus_class; auto | constructor].
Qed.

Lemma validateEmail_valid (e : string) :
  isValid (validateEmail e) = true
  <-> e <> "" /\ Regex.test emailRegex e = true /\ String.length e <= 254.
Proof.
  unfold validateEmail. destruct (String.eqb_spec e "") as [->|Ne].
  - cbn. split; [discriminate|]. intros [N _]. contradiction.
  - destruct (Regex.test emailRegex e); cbn [negb].
    + destruct (Nat.ltb_spec 254 (String.length e)); cbn.
      * split; [discriminate|]. intros (_ & _ & L). lia.
      * split; [|reflexivity]. intros _. repeat split; [exact Ne|lia].
    + cbn. split; [discriminate|]. intros (_ & D & _). discriminate.
Qed.

End EmailFacts.

(** X3: [validateEmail] accepts exactly the strings of at most 254
    characters made of a local part, [@], a domain, [.] and a last label,
    the three of them non-empty and free of white space and of [@]; so an
    accepted email holds one [@] and no white space. *)
Theorem validateEmail_accepts (e : string) :
  isValid (validateEmail e) = true
  <-> String.length e <= 254
      /\ exists a b c : string,
          e = a +:+ "@" +:+ b +:+ "." +:+ c
          /\ a <> "" /\ b <> "" /\ c <> ""
          /\ Text.allChars (fun x => negb (Text.isSpace x || Ascii.eqb "@" x))
                           (a +:+ b +:+ c) = true.
Proof.
  rewrite validateEmail_valid, emailRegex_shape. split.
  - intros (_ & S & L). auto.
  - intros (L & a & b & c & E & Na & S). split; [|split; [|exact L]].
    + subst e. destruct a; [contradiction|discriminate].
    + exists a, b, c. auto.
Qed.

(** ** Mobile number validation *)

Section MobileFacts.
Context `{Engine}.

(** The patterns [/^0{10,}$/] and [/^1{10,}$/] select nothing that
    [/^(.)\1{9,}$/] does not. *)
Lemma atLeast_repeated (c : ascii) (s : string) :
  Text.isLineTerminator c = false ->
  Regex.test (Regex.atLeast 10 (Regex.chr c)) s = true -> repeatedChar s = true.
Proof.
  intros N T. apply test_lang in T. unfold Regex.chr in T.
  apply lang_atLeast_class in T as [L A].
  rewrite (allChars_ext _ _ _ (classHas_chr c)) in A.
  destruct s as [|x r]; cbn [String.length] in L; [lia|].
  cbn [Text.allChars] in A. apply andb_true_iff in A as [A1 A2].
  apply Ascii.eqb_eq in A1. subst x.
  unfold repeatedChar. rewrite N, A2. cbn [negb andb]. apply Nat.leb_le. lia.
Qed.

Lemma suspicious_repeated (s : string) :
  existsb (fun pattern => pattern s) suspiciousPatterns = repeatedChar s.
Proof.
  unfold suspiciousPatterns. cbn [existsb]. rewrite orb_false_r.
  destruct (repeatedChar s) eqn:R; [rewrite !orb_true_r; reflexivity|].
  rewrite !orb_false_r. apply orb_false_iff. split.
  - destruct (Regex.test _ s) eqn:T; [|reflexivity].
    apply atLeast_repeated in T; [congruence|reflexivity].
  - destruct (Regex.test _ s) eqn:T; [|reflexivity].
    apply atLeast_repeated in T; [congruence|reflexivity].
Qed.

End MobileFacts.

Section Mobile.
Context `{Engine}.

(** X4: [validateMobile] accepts a value exactly when it is truthy, its
    text holds 10 to 15 digits and these are not all the same digit; the
    number it hands on is the digits alone, which the pattern
    [/^[0-9]{10,15}$/] of the schemas always matches. *)
Theorem validateMobile_accepts (m : JsVal) :
  let clean := Text.removeChars (fun c => negb (Text.isDigit c)) (ToString m) in
  isValid (validateMobile m)
  = truthy m && (10 <=? String.length clean) && (String.length clean <=? 15)
    && negb (repeatedChar clean)
  /\ (isValid (validateMobile m) = true ->
      cleanPhone (validateMobile m) = clean
      /\ Text.allChars Text.isDigit clean = true
      /\ Regex.test schemaMobileRegex clean = true).
Proof.
  intros clean.
  assert (D : Text.allChars Text.isDigit clean = true).
  { subst clean.
    rewrite (allChars_ext _ (fun c => negb (negb (Text.isDigit c))))
      by (intros c; symmetry; apply negb_involutive).
    apply (allChars_removeChars (fun c => negb (Text.isDigit c))). }
  unfold validateMobile. fold clean. cbv zeta.
  rewrite suspicious_repeated.
  rewrite (Nat.ltb_antisym 10 (String.length clean)),
    (Nat.ltb_antisym (String.length clean) 15).
  destruct (truthy m); cbn [negb andb]; [|split; [reflexivity|discriminate]].
  destruct (10 <=? String.length clean) eqn:E1,
           (String.length clean <=? 15) eqn:E2,
           (repeatedChar clean);
    cbn [negb orb andb isValid invalid valid cleanPhone];
    split; try reflexivity; try discriminate.
  intros _. split; [reflexivity|]. split; [exact D|].
  rewrite schemaMobileRegex_digits, D, E1, E2. reflexivity.
Qed.

(** X5: the event registration form tests the number as it was sent: it is
    accepted exactly when its text is 10 to 15 digits and nothing else, so
    a number written with spaces, a sign or dashes, which the other forms
    clean and accept, is rejected here. *)
Theorem validateMobileNumber_accepts (m : JsVal) :
  isValid (validateMobileNumber m)
  = truthy m && Text.allChars Text.isDigit (ToString m)
    && (10 <=? String.length (ToString m)) && (String.length (ToString m) <=? 15).
Proof.
  unfold validateMobileNumber. rewrite schemaMobileRegex_digits.
  destruct (truthy m); [|reflexivity]. cbn [negb andb].
  destruct (Text.allChars Text.isDigit (ToString m) && _ && _); reflexivity.
Qed.

End Mobile.

(** ** The checked email and the setters of the schemas *)

Section NormalEmail.

Lemma lowerChar_idem (c : ascii) : Text.lowerChar (Text.lowerChar c) = Text.lowerChar c.
Proof. destruct c as [[] [] [] [] [] [] [] []]; reflexivity. Qed.

Lemma mapChars_fixed (f : ascii -> ascii) (s : string) :
  Text.allChars (fun c => Ascii.eqb (f c) c) s = true -> Text.mapChars f s = s.
Proof.
  induction s as [|c s IH]; cbn [Text.allChars Text.mapChars]; [reflexivity|].
  intros A. apply andb_true_iff in A as [A1 A2]. apply Ascii.eqb_eq in A1.
  rewrite A1, (IH A2). reflexivity.
Qed.

Lemma toLowerCase_fixed (s : string) :
  Text.allChars (fun c => Ascii.eqb (Text.lowerChar c) c) (Text.toLowerCase s) = true.
Proof.
  induction s as [|c s IH]; [reflexivity|].
  cbn [Text.toLowerCase Text.mapChars Text.allChars].
  rewrite lowerChar_idem, Ascii.eqb_refl. exact IH.
Qed.

(** Sanitizing a lower-case text leaves it in lower case. *)
Lemma toLowerCase_sanitize (s : string) :
  Text.toLowerCase (sanitize (Text.toLowerCase s)) = sanitize (Text.toLowerCase s).
Proof.
  apply mapChars_fixed.
  eapply allChars_sublist; [apply sublist_sanitize | apply toLowerCase_fixed].
Qed.

Lemma trimEnd_id (s : string) :
  Text.allChars (fun c => negb (Text.isSpace c)) s = true -> Text.trimEnd s = s.
Proof.
  induction s as [|c s IH]; [reflexivity|]. cbn [Text.allChars]. intros A.
  apply andb_true_iff in A as [A1 A2]. apply negb_true_iff in A1.
  rewrite trimEnd_cons by exact A1. rewrite (IH A2). reflexivity.
Qed.

Lemma trim_id (s : string) :
  Text.allChars (fun c => negb (Text.isSpace c)) s = true -> Text.trim s = s.
Proof.
  intros A. unfold Text.trim.
  assert (E : Text.trimStart s = s).
  { destruct s as [|c s]; [reflexivity|]. cbn [Text.allChars Text.trimStart] in *.
    apply andb_true_iff in A as [A1 _]. apply negb_true_iff in A1.
    rewrite A1. reflexivity. }
  rewrite E. apply trimEnd_id. exact A.
Qed.

Lemma validateEmail_no_space (e : string) :
  isValid (validateEmail e) = true ->
  Text.allChars (fun c => negb (Text.isSpace c)) e = true.
Proof.
  intros V. apply validateEmail_valid in V as (_ & S & _).
  apply emailRegex_shape in S as (a & b & c & -> & _ & _ & _ & A).
  assert (W : forall s, Text.allChars (fun x => negb (Text.isSpace x || Ascii.eqb "@" x)) s
                        = true ->
                        Text.allChars (fun x => negb (Text.isSpace x)) s = true).
  { intros s. apply allChars_weaken. intros x. rewrite negb_orb, andb_true_iff. tauto. }
  rewrite !allChars_append in A. apply andb_true_iff in A as [Aa A].
  apply andb_true_iff in A as [Ab Ac].
  rewrite !allChars_append, (W _ Aa), (W _ Ab), (W _ Ac). reflexivity.
Qed.

(** The email a handler validated is what the setters [trim] and
    [lowercase] of the schemas make of it. *)
Lemma checked_email_normal (raw : string) :
  isValid (validateEmail (sanitize (Text.toLowerCase raw))) = true ->
  Text.toLowerCase (Text.trim (sanitize (Text.toLowerCase raw)))
  = sanitize (Text.toLowerCase raw).
Proof.
  intros V. rewrite (trim_id _ (validateEmail_no_space _ V)).
  apply toLowerCase_sanitize.
Qed.

Lemma email_setters (e : string) :
  applySetters (pathOptions (emailPath [])) (FStr e)
  = FStr (Text.toLowerCase (Text.trim e)).
Proof. reflexivity. Qed.

Lemma email_setters_unique (e : string) :
  applySetters (pathOptions (emailPath [Unique])) (FStr e)
  = FStr (Text.toLowerCase (Text.trim e)).
Proof. reflexivity. Qed.

End NormalEmail.

(** ** What an accepted submission stores *)

(** Reads the value the cast gives a path of a schema, for an object
    literal. *)
Ltac cast_field :=
  cbn [castField schema pathName path fullNamePath emailPath mobilePath app
       String.eqb Ascii.eqb Bool.eqb];
  read_props; unfold castPath;
  cbn [castAs pathType path fullNamePath emailPath mobilePath
       castString castNumber castStrings castDate castBoolean].

Section Created.
Context `{Engine}.

Lemma toLowerCaseOf_inv (v : JsVal) (lower : string) :
  toLowerCaseOf v = Some lower -> exists s, v = JStr s /\ lower = Text.toLowerCase s.
Proof. destruct v; try discriminate. intros E. injection E as <-. eauto. Qed.

(** The fields of a document made by [create] for a model whose hook is the
    reference hook. *)
Lemma created_by_reference (M : Model) (field prefix : string) (env : Env) (o : Obj)
    (db db' : Collection) (d : Doc) :
  preSave M = referenceHook field prefix ->
  create M env o db = inr (d, db') ->
  db' = db ++ [d]
  /\ d !! "_id" = Some (FId (freshId db))
  /\ d !! "createdAt" = Some (FDate (now env))
  /\ d !! "updatedAt" = Some (FDate (now env))
  /\ (forall k, k <> "_id" -> k <> "createdAt" -> k <> "updatedAt" -> k <> field ->
      d !! k = castField env (schema M) o k)
  /\ (field <> "_id" -> field <> "createdAt" -> field <> "updatedAt" ->
      d !! field
      = if truthyField (castField env (schema M) o field)
        then castField env (schema M) o field
        else Some (FStr (generateReference prefix env))).
Proof.
  intros P Cr. apply create_inr in Cr as (d0 & Cast & _ & -> & _ & ->). rewrite P.
  split; [reflexivity|]. split; [apply lookup_insert_eq|].
  unfold stampCreated.
  split; [rewrite lookup_insert_ne by discriminate; apply lookup_insert_eq|].
  split; [rewrite !lookup_insert_ne by discriminate; apply lookup_insert_eq|].
  split.
  - intros k N1 N2 N3 N4. rewrite !lookup_insert_ne by congruence.
    rewrite referenceHook_other by exact N4. apply (castDoc_lookup _ _ _ _ _ Cast).
  - intros N1 N2 N3. rewrite !lookup_insert_ne by congruence.
    rewrite referenceHook_lookup, (castDoc_lookup _ _ _ _ _ Cast). reflexivity.
Qed.

End Created.

(** ** Volunteer registration: one registration per email *)

Section VolunteerOnce.
Context `{Engine}.
Import VolunteerController VolunteerModel.



End VolunteerOnce.

(** ** Newsletter: the life of a subscription *)

Section StoreFacts.

Lemma existsb_false {A : Type} (f : A -> bool) (l : list A) (x : A) :
  existsb f l = false -> In x l -> f x = false.
Proof.
  intros E I. destruct (f x) eqn:F; [|reflexivity].
  assert (existsb f l = true) by (apply existsb_exists; eauto). congruence.
Qed.

(** Replacing the document a query selects, when it is the last one. *)
Lemma replaceFirst_last (q : Doc -> bool) (d d' : Doc) (db : Collection) :
  (forall x, In x db -> q x = false) -> q d = true ->
  replaceFirst q d' (db ++ [d]) = db ++ [d'].
Proof.
  intros N Q. induction db as [|x db IH]; cbn [replaceFirst app].
  - rewrite Q. reflexivity.
  - rewrite (N x (or_introl eq_refl)), IH; [reflexivity|].
    intros y I. apply N. right. exact I.
Qed.

Lemma hasId_fresh (db : Collection) (x : Doc) :
  In x db -> hasId (freshId db) x = false.
Proof. intros I. unfold hasId. rewrite fieldEq_sym. apply freshId_new, I. Qed.

End StoreFacts.

Section NewsletterLife.
Context `{Engine}.
Import NewsController NewsletterModel.

Lemma checkSubscription_email (b : Obj) (e : string) :
  checkSubscription b = inr e -> Text.toLowerCase (Text.trim e) = e.
Proof.
  unfold checkSubscription. intros C. split_tests C; try discriminate.
  injection C as <-.
  match goal with
  | E : toLowerCaseOf _ = Some _ |- _ => apply toLowerCaseOf_inv in E as (raw & _ & ->)
  end.
  apply checked_email_normal.
  match goal with
  | E : negb (isValid _) = false |- _ => apply negb_false_iff in E; exact E
  end.
Qed.

Lemma checkSubscription_rejects (b : Obj) (r : Response) :
  checkSubscription b = inl r -> code r = 400 \/ code r = 500.
Proof.
  unfold checkSubscription. intros C. split_tests C; try discriminate;
    injection C as <-; cbn; auto.
Qed.

(** A stored subscription validates as the document it was made from. *)
Lemma stamped_subscription_validates (env : Env) (i : N) (d0 : Doc) :
  validateDoc newsletterSchema d0 = true ->
  validateDoc newsletterSchema (<["_id" := FId i]> (stampCreated env d0)) = true.
Proof.
  intros V. apply (validateDoc_agree _ d0 _ V). intros p I. left.
  unfold newsletterSchema in I. each_path I;
    (apply validatePath_agree;
     [ unfold stampCreated; cbn [pathName path emailPath]; lookups; reflexivity
     | intros f v J; cbn [pathOptions path emailPath app In] in J;
       repeat (destruct J as [J|J]; try discriminate); contradiction ]).
Qed.

(** What [Newsletter.create] stores for a new subscriber. *)
Lemma subscription_created (env : Env) (req : Request) (email : string)
    (db db' : Collection) (d : Doc) :
  Text.toLowerCase (Text.trim email) = email ->
  create Newsletter env
    (list_to_map [("email", JStr email); ("ipAddress", clientIp req);
                  ("userAgent", orElse (userAgentHeader req) (JStr ""));
                  ("unsubscribeToken", JStr (randomHex env))]) db = inr (d, db') ->
  db' = db ++ [d]
  /\ d !! "_id" = Some (FId (freshId db))
  /\ d !! "email" = Some (FStr email)
  /\ d !! "status" = Some (FStr "active")
  /\ d !! "unsubscribeToken" = Some (FStr (randomHex env))
  /\ d !! "subscribedAt" = Some (FDate (now env))
  /\ validateDoc newsletterSchema d = true
  /\ (forall x, In x db -> hasEmail email x = false).
Proof.
  intros Nf Cr. apply create_inr in Cr as (d0 & Cast & V & -> & U & ->).
  cbn [preSave schema Newsletter] in *.
  assert (Em : d0 !! "email" = Some (FStr email)).
  { rewrite (castDoc_lookup _ _ _ _ _ Cast). unfold newsletterSchema. cast_field.
    rewrite email_setters_unique, Nf. reflexivity. }
  split; [reflexivity|]. unfold stampCreated at 1 2 3 4 5. lookups.
  split; [reflexivity|]. split; [exact Em|].
  rewrite !(castDoc_lookup _ _ _ _ _ Cast). unfold newsletterSchema.
  split; [cast_field; reflexivity|]. split; [cast_field; reflexivity|].
  split; [cast_field; reflexivity|].
  split; [apply stamped_subscription_validates, V|].
  intros x I. unfold violatesUnique in U.
  apply (existsb_false _ _ ["email"]) in U; [|right; left; reflexivity].
  apply (existsb_false _ _ x) in U; [|exact I].
  unfold sameKey in U. cbn [forallb] in U. rewrite andb_true_r in U.
  unfold stampCreated in U. rewrite !lookup_insert_ne in U by discriminate.
  rewrite Em, fieldEq_sym in U. exact U.
Qed.

(** X7: an accepted new subscription stores one active record that
    carries the token of the request. From then on the same request is
    answered 400 (already subscribed) and writes nothing; and the token,
    when no older record carries it, unsubscribes that record: 200, and
    the record is there with the same email and the status unsubscribed. *)
Theorem subscription_life_cycle (env1 env2 : Env) (req : Request)
    (db db1 : Collection) (r1 : Response) :
  subscribeNewsletter env1 req db = (r1, db1) ->
  code r1 = 201 ->
  exists d : Doc,
    db1 = db ++ [d]
    /\ d !! "status" = Some (FStr "active")
    /\ d !! "unsubscribeToken" = Some (FStr (randomHex env1))
    /\ d !! "subscribedAt" = Some (FDate (now env1))
    /\ subscribeNewsletter env2 req db1
       = (reject 400 "This email is already subscribed to our newsletter", db1)
    /\ (randomHex env1 <> "" ->
        (forall x, In x db -> hasToken (randomHex env1) x = false) ->
        exists d' : Doc,
          unsubscribeNewsletter env2 (randomHex env1) db1
          = (accept 200 "You have been successfully unsubscribed from our newsletter.",
             db ++ [d'])
          /\ d' !! "email" = d !! "email"
          /\ d' !! "status" = Some (FStr "unsubscribed")
          /\ d' !! "unsubscribedAt" = Some (FDate (now env2))).
Proof.
  intros R C. unfold subscribeNewsletter in R.
  destruct (checkSubscription (body req)) as [r0|email] eqn:K.
  { injection R as <- <-. apply checkSubscription_rejects in K. lia. }
  pose proof (checkSubscription_email _ _ K) as Nf.
  assert (New : newSubscription env1 req email db = (r1, db1)).
  { destruct (findOne (hasEmail email) db) as [sub|]; [|exact R].
    destruct (fieldIs "active" (sub !! "status"));
      [injection R as <- <-; discriminate|].
    destruct (fieldIs "unsubscribed" (sub !! "status")); [|exact R].
    destruct (save _ _ _ _ _) as [|[]]; injection R as <- <-; discriminate. }
  clear R. unfold newSubscription in New.
  match type of New with
  | context [create ?M ?e ?o ?db] => destruct (create M e o db) as [[]|[d db']] eqn:Cr
  end; try (injection New as <- <-; discriminate).
  injection New as <- <-.
  apply (subscription_created _ _ _ _ _ _ Nf) in Cr
    as (-> & Id & Em & St & Tk & Sa & V & Fresh).
  exists d. repeat (split; [assumption || reflexivity|]).
  assert (HE : hasEmail email d = true).
  { unfold hasEmail. rewrite Em, fieldEq_FStr. apply String.eqb_refl. }
  split.
  - unfold subscribeNewsletter. rewrite K, findOne_app.
    rewrite (findOne_none_intro _ _ Fresh), HE, St. reflexivity.
  - intros T Free. apply String.eqb_neq in T.
    exists (<["updatedAt" := FDate (now env2)]> (unsubscribed env2 d)).
    assert (HT : hasToken (randomHex env1) d = true).
    { unfold hasToken. rewrite Tk, fieldEq_FStr. apply String.eqb_refl. }
    unfold unsubscribeNewsletter. rewrite T, findOne_app.
    rewrite (findOne_none_intro _ _ Free), HT.
    unfold save. cbn [schema preSave Newsletter].
    rewrite (unsubscribed_validates env2 d V). cbn [negb].
    split.
    + f_equal. unfold replaceDoc. apply replaceFirst_last.
      * intros x I. unfold idOf, unsubscribed. lookups. rewrite Id.
        apply hasId_fresh, I.
      * unfold idOf, unsubscribed, hasId. lookups. rewrite Id.
        cbn. apply N.eqb_refl.
    + unfold unsubscribed. lookups. auto.
Qed.

(** X8: a subscriber on record whose status is not unsubscribed cannot
    subscribe again: an active one is told so (400), any other has the
    creation of a second record refused by the unique index, with the same
    400, or by validation (500); nothing is written. *)
Theorem standing_subscriber_not_written (env : Env) (req : Request) (db : Collection)
    (email : string) (sub : Doc) :
  checkSubscription (body req) = inr email ->
  findOne (hasEmail email) db = Some sub ->
  fieldIs "unsubscribed" (sub !! "status") = false ->
  (subscribeNewsletter env req db
   = (reject 400 "This email is already subscribed to our newsletter", db)
   \/ subscribeNewsletter env req db = (serverError, db))
  /\ (fieldIs "active" (sub !! "status") = true ->
      subscribeNewsletter env req db
      = (reject 400 "This email is already subscribed to our newsletter", db)).
Proof.
  intros K F S. unfold subscribeNewsletter. rewrite K, F, S.
  destruct (fieldIs "active" (sub !! "status")); [split; auto|].
  split; [|discriminate]. unfold newSubscription.
  match goal with
  | |- context [create ?M ?e ?o ?db] => destruct (create M e o db) as [[]|[d db']] eqn:Cr
  end; auto.
  exfalso. apply (subscription_created _ _ _ _ _ _ (checkSubscription_email _ _ K)) in Cr
    as (_ & _ & _ & _ & _ & _ & _ & Fresh).
  apply find_some in F as [I Q]. rewrite (Fresh _ I) in Q. discriminate.
Qed.

End NewsletterLife.

(** ** Donation form: what is recorded *)

Section DonationRecord.
Context `{Engine}.
Import DonationController DonationModel.

Lemma digit_not_space (c : ascii) : Text.isDigit c = true -> negb (Text.isSpace c) = true.
Proof. destruct c as [[] [] [] [] [] [] [] []]; vm_compute; congruence. Qed.

Lemma mobile_setters (n : string) (s : string) :
  Text.allChars Text.isDigit s = true ->
  applySetters (pathOptions (mobilePath n)) (FStr s) = FStr s.
Proof.
  intros D. cbn. rewrite trim_id; [reflexivity|].
  eapply allChars_weaken; [|exact D]. apply digit_not_space.
Qed.

Lemma clean_digits (s : string) :
  Text.allChars Text.isDigit (Text.removeChars (fun c => negb (Text.isDigit c)) s) = true.
Proof.
  rewrite (allChars_ext _ (fun c => negb (negb (Text.isDigit c))))
    by (intros c; symmetry; apply negb_involutive).
  apply (allChars_removeChars (fun c => negb (Text.isDigit c))).
Qed.

Lemma validateMobile_clean (m : JsVal) :
  isValid (validateMobile m) = true ->
  cleanPhone (validateMobile m)
  = Text.removeChars (fun c => negb (Text.isDigit c)) (ToString m).
Proof.
  unfold validateMobile. cbv zeta.
  destruct (negb (truthy m)); [discriminate|].
  destruct (_ || _); [discriminate|].
  destruct (existsb _ _); [discriminate|]. reflexivity.
Qed.

(** X9: the donation form answers 201, 400 or 500, and writes only with
    201: then one record is appended, pending in status and payment
    status, with the source of the form, the reference generated at that
    moment, the digits of the mobile number, and as amount the number the
    submitted amount converts to, which lies in [[1, 10000000]]. *)
Theorem donation_recorded (env : Env) (req : Request) (db db' : Collection)
    (r : Response) :
  submitDonationForm env req db = (r, db') ->
  (code r = 201 \/ code r = 400 \/ code r = 500)
  /\ (code r <> 201 -> db' = db)
  /\ (code r = 201 ->
      exists d : Doc,
        db' = db ++ [d]
        /\ d !! "status" = Some (FStr "pending")
        /\ d !! "paymentStatus" = Some (FStr "pending")
        /\ d !! "source" = Some (FStr "website-donation-form")
        /\ d !! "donationReference" = Some (FStr (generateReference "DON" env))
        /\ d !! "createdAt" = Some (FDate (now env))
        /\ d !! "mobile"
           = Some (FStr (Text.removeChars (fun c => negb (Text.isDigit c))
                           (ToString (sanitizeInput (prop (body req) "mobile")))))
        /\ d !! "donationAmount"
           = Some (FNum (ToNumber (prop (body req) "donationAmount")))
        /\ numLe (ofZ 1) (ToNumber (prop (body req) "donationAmount")) = true
        /\ numLe (ToNumber (prop (body req) "donationAmount")) (ofZ 10000000) = true).
Proof.
  intros S. unfold submitDonationForm in S. split_tests S;
    try (injection S as <- <-; cbn [code reject accept serverError];
         split; [auto|]; split; [reflexivity | intros; discriminate]).
  injection S as <- <-. cbn [code accept].
  split; [auto|]. split; [intros N; contradiction|]. intros _.
  match goal with
  | Cr : create _ _ _ _ = inr (?d, _) |- _ =>
      exists d;
      apply (created_by_reference _ "donationReference" "DON") in Cr
        as (-> & _ & Ct & _ & Flds & Ref); [|reflexivity]
  end.
  match goal with
  | E : negb (isValid (validateMobile _)) = false |- _ =>
      apply negb_false_iff in E; pose proof (validateMobile_clean _ E) as Cl
  end.
  match goal with
  | E : negb (amountValid (validateDonationAmount _)) = false |- _ =>
      apply negb_false_iff in E; pose proof E as Av;
      rewrite amount_valid_range in E; apply andb_true_iff in E as [A1 A2]
  end.
  split; [reflexivity|].
  rewrite Ct, Ref by discriminate. rewrite !Flds by discriminate.
  cbn [schema Donation]. unfold donationSchema.
  split; [cast_field; reflexivity|]. split; [cast_field; reflexivity|].
  split; [cast_field; reflexivity|]. split; [cast_field; reflexivity|].
  split; [reflexivity|].
  split.
  { cast_field. rewrite Cl, mobile_setters by apply clean_digits. reflexivity. }
  split; [|split; assumption].
  cast_field.
  assert (Am : amount (validateDonationAmount (prop (body req) "donationAmount"))
               = Some (ToNumber (prop (body req) "donationAmount"))).
  { unfold validateDonationAmount in *.
    destruct (isNaN _ || _); [discriminate|].
    destruct (numLt _ _); [discriminate|].
    destruct (numGt _ _); [discriminate|]. reflexivity. }
  rewrite Am. cbn [from_option ToNumber].
  destruct (ToNumber (prop (body req) "donationAmount")); try discriminate.
  reflexivity.
Qed.

End DonationRecord.

(** ** Contact-us: when the duplicate guard answers *)

Section ContactUsGuard.
Context `{Engine}.
Import ContactUsController ContactUsModel.

(** X10: the contact-us form answers 429 only when the submission passed
    the checks and a record of its email is at most 15 minutes old; so a
    record older than that never holds a submission back. *)
Theorem contact_us_429_needs_recent (env : Env) (req : Request) (db db' : Collection)
    (r : Response) :
  submitContactUs env req db = (r, db') ->
  code r = 429 ->
  db' = db
  /\ exists (c : Checked) (d : Doc) (t : Z),
      checkContactUs (body req) = inr c
      /\ In d db
      /\ d !! "email" = Some (FStr (email c))
      /\ d !! "createdAt" = Some (FDate t)
      /\ (now env - 15 * 60 * 1000 <= t)%Z.
Proof.
  intros S C. unfold submitContactUs in S.
  destruct (checkContactUs (body req)) as [r0|c] eqn:K.
  { injection S as <- <-. apply checkContactUs_rejects in K. lia. }
  destruct (recentContact env (email c) db) as [d|] eqn:F.
  - injection S as <- <-. split; [reflexivity|].
    unfold recentContact in F. apply find_some in F as [I Q].
    apply andb_true_iff in Q as [Q1 Q2].
    apply fieldEq_str in Q1. unfold createdSince in Q2.
    destruct (d !! "createdAt") as [[| | | |t| |]|] eqn:T; try discriminate.
    exists c, d, t. apply Z.leb_le in Q2. auto.
  - destruct (create _ _ _ _) as [|[]]; injection S as <- <-; discriminate.
Qed.

End ContactUsGuard.

(** ** An email that is not a string *)

Section EmailType.
Context `{Engine} `{UrlParser}.

(** X11: a request whose [email] is truthy but not a string (a number, a
    boolean, an array) gets no validation message: when the other
    required fields are there, lower-casing it fails and the form answers
    500; nothing is written. This holds for the six forms alike. *)
Theorem email_of_wrong_type (env : Env) (req : Request) (db : Collection) :
  truthy (prop (body req) "email") = true ->
  (forall s, prop (body req) "email" <> JStr s) ->
  let has k := truthy (prop (body req) k) in
  DonationController.submitDonationForm env req db
  = (if has "fullName" && has "mobile" && has "donationAmount" && has "donationType"
     then serverError else reject 400 "All required fields must be filled", db)
  /\ ContactUsController.submitContactUs env req db
     = (if has "fullName" && has "mobile" && has "subject" && has "message"
        then serverError else reject 400 "All fields are required", db)
  /\ VolunteerController.registerVolunteer env req db
     = (if has "fullName" && has "mobile" && has "howToHelp"
        then serverError else reject 400 "All required fields must be filled", db)
  /\ EventRegistrationController.registerForEvent env req db
     = (if has "fullName" && has "mobileNumber" && has "isPersonWithDisability"
           && has "eventId" && has "eventTitle"
        then serverError else reject 400 "All mandatory fields are required", db)
  /\ NewsController.subscribeNewsletter env req db = (serverError, db)
  /\ MediaController.submitMediaUpload env req db
     = (if has "fullName" && has "mediaUrl"
        then serverError else reject 400 "All required fields must be provided", db).
Proof.
  intros T N has. subst has. cbv beta.
  assert (L : toLowerCaseOf (prop (body req) "email") = None).
  { destruct (prop (body req) "email"); try reflexivity. exfalso. eapply N. reflexivity. }
  unfold DonationController.submitDonationForm,
    ContactUsController.submitContactUs, ContactUsController.checkContactUs,
    VolunteerController.registerVolunteer, VolunteerController.checkVolunteer,
    EventRegistrationController.registerForEvent,
    EventRegistrationController.checkRegistration,
    NewsController.subscribeNewsletter, NewsController.checkSubscription,
    MediaController.submitMediaUpload, MediaController.checkMediaUpload.
  cbv zeta. rewrite L, T. cbn [negb orb].
  split; [|split; [|split; [|split; [|split]]]];
    repeat match goal with
           | |- context [truthy ?v] => destruct (truthy v); cbn [negb orb andb]
           end; reflexivity.
Qed.

End EmailType.

(** ** The properties of the body a form reads *)

Section PropertiesRead.
Context `{Engine} `{UrlParser}.

(** X12: a form reads the properties of the body it names and no other:
    setting any other property (a status, a reference, a source, an
    [_id]) changes neither the answer nor what is written. *)
Theorem other_properties_not_read (env : Env) (req : Request) (db : Collection)
    (k : string) (v : JsVal) :
  (~ In k ["fullName"; "email"; "mobile"; "donationAmount"; "donationType"; "message"] ->
   DonationController.submitDonationForm env (withField k v req) db
   = DonationController.submitDonationForm env req db)
  /\ (~ In k ["fullName"; "email"; "mobile"; "subject"; "message"] ->
      ContactUsController.submitContactUs env (withField k v req) db
      = ContactUsController.submitContactUs env req db)
  /\ (~ In k ["fullName"; "email"; "mobile"; "expertise"; "howToHelp"; "message"] ->
      VolunteerController.registerVolunteer env (withField k v req) db
      = VolunteerController.registerVolunteer env req db)
  /\ (~ In k ["fullName"; "email"; "mobileNumber"; "city"; "occupation"; "organization";
               "isPersonWithDisability"; "disabilityType"; "otherDisabilityText";
               "eventId"; "eventTitle"] ->
      EventRegistrationController.registerForEvent env (withField k v req) db
      = EventRegistrationController.registerForEvent env req db)
  /\ (k <> "email" ->
      NewsController.subscribeNewsletter env (withField k v req) db
      = NewsController.subscribeNewsletter env req db)
  /\ (~ In k ["fullName"; "email"; "mediaUrl"; "description"] ->
      MediaController.submitMediaUpload env (withField k v req) db
      = MediaController.submitMediaUpload env req db).
Proof.
  unfold DonationController.submitDonationForm,
    ContactUsController.submitContactUs, ContactUsController.checkContactUs,
    VolunteerController.registerVolunteer, VolunteerController.checkVolunteer,
    EventRegistrationController.registerForEvent,
    EventRegistrationController.checkRegistration,
    EventRegistrationController.registrationFields,
    NewsController.subscribeNewsletter, NewsController.checkSubscription,
    NewsController.newSubscription,
    MediaController.submitMediaUpload, MediaController.checkMediaUpload, withField.
  cbn [body clientIp userAgentHeader In].
  split; [|split; [|split; [|split; [|split]]]]; intros N;
    repeat match goal with
           | |- context [prop (<[k := v]> (body req)) ?n] =>
               rewrite (prop_insert_ne (body req) k n v)
                 by (intros ->; apply N; tauto)
           end; reflexivity.
Qed.

End PropertiesRead.

(** ** Event registration: the disability fields *)

Section Disability.
Context `{Engine}.
Import EventRegistrationController EventRegistrationModel.

(** A created document, with the document the cast made and validated. *)
Lemma created_valid (M : Model) (field prefix : string) (env : Env) (o : Obj)
    (db db' : Collection) (d : Doc) :
  preSave M = referenceHook field prefix ->
  create M env o db = inr (d, db') ->
  exists d0 : Doc,
    validateDoc (schema M) d0 = true
    /\ castsAll (schema M) o = true
    /\ (forall k, d0 !! k = castField env (schema M) o k)
    /\ (forall k, k <> "_id" -> k <> "createdAt" -> k <> "updatedAt" -> k <> field ->
        d !! k = d0 !! k).
Proof.
  intros P Cr. apply create_inr in Cr as (d0 & Cast & V & -> & _ & ->). rewrite P.
  exists d0. split; [exact V|]. split; [eapply castDoc_casts, Cast|].
  split; [intros k; apply (castDoc_lookup _ _ _ _ _ Cast)|].
  intros k N1 N2 N3 N4. unfold stampCreated. rewrite !lookup_insert_ne by congruence.
  apply referenceHook_other. exact N4.
Qed.

Lemma inList_In (s : string) (l : list string) : inList s l = true -> In s l.
Proof.
  unfold inList. intros E. apply existsb_exists in E as (x & I & E).
  apply String.eqb_eq in E. congruence.
Qed.

(** A value that is there and casts to a string is stored as a string. *)
Lemma castString_present (v : JsVal) :
  v <> JUndefined -> v <> JNull -> castString v <> CastFails ->
  exists t, castString v = CastTo (Some (FStr t)).
Proof. destruct v; cbn [castString]; intros; try contradiction; eauto. Qed.

Lemma sanitized_present (v : JsVal) :
  truthy v = true -> sanitizeInput v <> JUndefined /\ sanitizeInput v <> JNull.
Proof. destruct v; cbn; try discriminate; intros _; split; discriminate. Qed.

Lemma optional_present (v : JsVal) :
  let w := if truthy v then sanitizeInput v else JStr "" in
  w <> JUndefined /\ w <> JNull.
Proof.
  cbv zeta. destruct (truthy v) eqn:T; [apply sanitized_present, T|].
  split; discriminate.
Qed.

(** What the checks establish of the disability fields. *)
Lemma checkRegistration_disability (b : Obj) (c : Checked) :
  checkRegistration b = inr c ->
  (isPersonWithDisability c = JStr "Yes" \/ isPersonWithDisability c = JStr "No")
  /\ (disabilityType c <> JUndefined /\ disabilityType c <> JNull)
  /\ (otherDisabilityText c <> JUndefined /\ otherDisabilityText c <> JNull).
Proof.
  unfold checkRegistration. intros K. split_tests K; try discriminate.
  injection K as <-. cbn [isPersonWithDisability disabilityType otherDisabilityText].
  split; [|split; apply optional_present].
  match goal with
  | E : negb (includesStr ["Yes"; "No"] ?v) = false |- _ =>
      apply negb_false_iff in E; apply includesStr_inv in E as (yn & Es & Is)
  end.
  rewrite Es. cbn [In] in Is. destruct Is as [<-|[<-|[]]]; auto.
Qed.

(** X13: an accepted registration stores one confirmed record whose
    disability fields agree: with the answer No no disability type is
    kept, whatever was sent; with Yes the type is one of the seven listed;
    and the type "Other (please specify)" comes with a description. *)
Theorem registration_disability_consistent (env : Env) (req : Request)
    (db db' : Collection) (r : Response) :
  registerForEvent env req db = (r, db') ->
  code r = 201 ->
  exists d : Doc,
    db' = db ++ [d]
    /\ d !! "registrationStatus" = Some (FStr "confirmed")
    /\ d !! "attendanceStatus" = Some (FStr "registered")
    /\ ((d !! "isPersonWithDisability" = Some (FStr "No")
         /\ d !! "disabilityType" = Some (FStr ""))
        \/ (d !! "isPersonWithDisability" = Some (FStr "Yes")
            /\ exists t : string,
                d !! "disabilityType" = Some (FStr t) /\ In t listedDisabilityTypes))
    /\ (d !! "disabilityType" = Some (FStr "Other (please specify)") ->
        truthyField (d !! "otherDisabilityText") = true).
Proof.
  intros R C. unfold registerForEvent in R.
  destruct (checkRegistration (body req)) as [r0|c] eqn:K.
  { injection R as <- <-. apply checkRegistration_rejects in K. lia. }
  destruct (isAlreadyRegistered _ _ _) as [[]|]; try (injection R as <- <-; discriminate).
  destruct (create EventRegistration env (registrationFields req c) db)
    as [[]|[d db1]] eqn:Cr; try (injection R as <- <-; discriminate).
  injection R as <- <-.
  pose proof Cr as Cr'.
  apply (created_by_reference _ "registrationReference" "REG") in Cr'
    as (-> & _); [|reflexivity].
  apply (created_valid _ "registrationReference" "REG") in Cr
    as (d0 & V & Casts & Cast & Same); [|reflexivity].
  exists d. split; [reflexivity|].
  rewrite !Same by discriminate.
  cbn [schema EventRegistration] in *.
  apply checkRegistration_disability in K as (Yn & [Dt1 Dt2] & [Od1 Od2]).
  (* the two values cast *)
  unfold castsAll in Casts. rewrite forallb_forall in Casts.
  pose proof (Casts (path "disabilityType" TString
                   [Enum ["Visual Impairment"; "Hearing Impairment"; "Locomotor Disability";
                          "Intellectual Disability"; "Speech & Language Disability";
                          "Multiple Disabilities"; "Other (please specify)"; ""];
                    Validate disabilityTypeValidator])) as Ct.
  pose proof (Casts (path "otherDisabilityText" TString
                   [Trim; MaxLength 200; Validate otherDisabilityTextValidator])) as Co.
  clear Casts.
  (* the validators of the two paths *)
  unfold validateDoc in V. rewrite forallb_forall in V.
  pose proof (V (path "disabilityType" TString
                   [Enum ["Visual Impairment"; "Hearing Impairment"; "Locomotor Disability";
                          "Intellectual Disability"; "Speech & Language Disability";
                          "Multiple Disabilities"; "Other (please specify)"; ""];
                    Validate disabilityTypeValidator])) as Vt.
  pose proof (V (path "otherDisabilityText" TString
                   [Trim; MaxLength 200; Validate otherDisabilityTextValidator])) as Vo.
  clear V.
  unfold eventRegistrationSchema in Vt, Vo, Ct, Co, Cast.
  specialize (Vt ltac:(cbn [In]; tauto)). specialize (Vo ltac:(cbn [In]; tauto)).
  specialize (Ct ltac:(cbn [In]; tauto)). specialize (Co ltac:(cbn [In]; tauto)).
  unfold validatePath in Vt, Vo. cbn [pathName pathOptions path forallb] in Vt, Vo.
  rewrite andb_true_r in Vt, Vo.
  apply andb_true_iff in Vt as [Vt1 Vt2].
  apply andb_true_iff in Vo as [_ Vo]. apply andb_true_iff in Vo as [_ Vo].
  cbn [pathName pathType path castAs] in Ct, Co.
  unfold registrationFields in Ct, Co. revert Ct Co. read_props. intros Ct Co.
  (* the stored values *)
  assert (St : d0 !! "registrationStatus" = Some (FStr "confirmed"))
    by (rewrite Cast; unfold registrationFields; cast_field; reflexivity).
  assert (At : d0 !! "attendanceStatus" = Some (FStr "registered"))
    by (rewrite Cast; unfold registrationFields; cast_field; reflexivity).
  split; [exact St|]. split; [exact At|].
  assert (Pw : d0 !! "isPersonWithDisability"
               = match isPersonWithDisability c with
                 | JStr s => Some (FStr s)
                 | _ => None
                 end).
  { rewrite Cast. unfold registrationFields. cast_field.
    destruct Yn as [-> | ->]; reflexivity. }
  assert (Ty : exists t, d0 !! "disabilityType" = Some (FStr t)
                         /\ (isPersonWithDisability c = JStr "No" -> t = "")).
  { rewrite Cast. unfold registrationFields. cast_field.
    destruct Yn as [Y|Y]; rewrite Y in *;
      cbn [isStr String.eqb Ascii.eqb Bool.eqb] in *.
    - destruct (castString_present (disabilityType c)) as [t Et]; try assumption.
      { intros E. rewrite E in Ct. discriminate. }
      rewrite Et. exists t. split; [reflexivity|discriminate].
    - exists "". split; reflexivity. }
  destruct Ty as (t & Ty & TNo).
  assert (Ot : exists x, d0 !! "otherDisabilityText" = Some (FStr x)).
  { rewrite Cast. unfold registrationFields. cast_field.
    destruct (isStr "Other (please specify)" (disabilityType c)).
    - destruct (castString_present (otherDisabilityText c)) as [x Ex]; try assumption.
      { intros E. rewrite E in Co. discriminate. }
      rewrite Ex. eauto.
    - eauto. }
  destruct Ot as (x & Ot).
  rewrite Ty, Ot in *. cbn [checkOption] in Vt1, Vt2, Vo.
  split.
  - destruct Yn as [Y|Y]; rewrite Y in Pw.
    + right. split; [exact Pw|]. exists t. split; [reflexivity|].
      unfold disabilityTypeValidator in Vt2. rewrite Pw in Vt2.
      cbn [fieldIs String.eqb Ascii.eqb Bool.eqb andb truthyField] in Vt2.
      destruct (String.eqb_spec t "") as [->|Nt]; [discriminate|].
      apply inList_In in Vt1. unfold listedDisabilityTypes. cbn [In] in *.
      repeat (destruct Vt1 as [Vt1|Vt1]; [auto 10; congruence|]).
      contradiction.
    + left. split; [exact Pw|]. rewrite (TNo Y). reflexivity.
  - intros O. injection O as ->.
    unfold otherDisabilityTextValidator in Vo. rewrite Ty in Vo.
    cbn [fieldIs String.eqb Ascii.eqb Bool.eqb andb] in Vo.
    destruct (truthyField (Some (FStr x))); [reflexivity|discriminate].
Qed.

End Disability.

(** ** Status updates: what they leave alone *)

Section KeysWithin.

Lemma keysWithin_empty (l : list string) : keysWithin l ∅.
Proof. intros k _. apply lookup_empty. Qed.

Lemma keysWithin_insert (l : list string) (k : string) (v : UpdateValue) (u : Update) :
  In k l -> keysWithin l u -> keysWithin l (<[k := v]> u).
Proof.
  intros I K x N. rewrite lookup_insert_ne; [apply K, N|]. intros <-. exact (N I).
Qed.

Lemma keysWithin_if (l : list string) (c : bool) (u v : Update) :
  keysWithin l u -> keysWithin l v -> keysWithin l (if c then u else v).
Proof. destruct c; auto. Qed.

Lemma keysWithin_let (l : list string) (a : Update) (f : Update -> Update) :
  keysWithin l a -> (forall u, keysWithin l u -> keysWithin l (f u)) ->
  keysWithin l (let u := a in f u).
Proof. intros A F. exact (F a A). Qed.

End KeysWithin.

(** Goes through an [updateData] object, assignment by assignment. *)
Ltac keys_step :=
  lazymatch goal with
  | |- keysWithin ?l (let u := ?a in @?f u) =>
      lazymatch type of a with
      | JsVal => change (keysWithin l (f a)); cbv beta
      | _ => apply (keysWithin_let l a f);
             [|let u := fresh "u" in let Hu := fresh "Hu" in intros u Hu; cbv beta]
      end
  | |- keysWithin _ (if _ then _ else _) => apply keysWithin_if
  | |- keysWithin _ (<[_ := _]> _) => apply keysWithin_insert; [cbn [In]; tauto|]
  | |- keysWithin _ ∅ => apply keysWithin_empty
  | |- keysWithin _ _ => assumption
  end.

(** Shows that an [updateData] object has no property [k], [N] saying that
    [k] is none of the names it may hold. *)
Ltac update_absent N :=
  lazymatch type of N with
  | ~ In ?k ?l =>
      lazymatch goal with
      | |- ?u !! k = None => revert k N; change (keysWithin l u); repeat keys_step
      end
  end.

Section UpdatesConfined.
Context `{Engine} `{DateParser}.

(** The answer to an update keeps the values of a path the update does not
    set, and the number of records. *)
Lemma answerUpdate_keeps (M : Model) (env : Env) (id : option N) (u : Update)
    (db : Collection) (nf up k : string) :
  u !! k = None -> u !! "_id" = None -> k <> "updatedAt" ->
  let out := answerUpdate nf up db (findByIdAndUpdate M env id u db) in
  valuesOf k (snd out) = valuesOf k db
  /\ countDocuments (snd out) = countDocuments db.
Proof.
  intros U I N. cbv zeta.
  destruct (findByIdAndUpdate M env id u db) as [e|[[d|] db']] eqn:F;
    cbn [answerUpdate snd]; try (split; reflexivity).
  split; [eapply findByIdAndUpdate_keeps; eassumption|].
  eapply findByIdAndUpdate_length; eassumption.
Qed.

Lemma donationUpdateData_absent (env : Env) (b : Obj) (k : string) :
  ~ In k ["status"; "contactedAt"; "completedAt"; "paymentStatus"] ->
  DonationController.donationUpdateData env b !! k = None.
Proof. intros N. unfold DonationController.donationUpdateData. update_absent N. Qed.

Lemma volunteerUpdateData_absent (env : Env) (b : Obj) (k : string) :
  ~ In k ["status"; "reviewedAt"; "approvedAt"; "rejectionReason"; "availability";
          "reviewedBy"; "notes"] ->
  VolunteerStatus.volunteerUpdateData env b !! k = None.
Proof. intros N. unfold VolunteerStatus.volunteerUpdateData. update_absent N. Qed.

Lemma contactUsUpdateData_absent (env : Env) (b : Obj) (k : string) :
  ~ In k ["status"; "resolvedAt"; "priority"; "assignedTo"; "notes"] ->
  ContactUsStatus.contactUsUpdateData env b !! k = None.
Proof. intros N. unfold ContactUsStatus.contactUsUpdateData. update_absent N. Qed.

Lemma submissionUpdateData_absent (env : Env) (b : Obj) (k : string) :
  ~ In k ["status"; "reviewedAt"; "featuredAt"; "rejectionReason"; "category";
          "reviewedBy"] ->
  MediaController.submissionUpdateData env b !! k = None.
Proof. intros N. unfold MediaController.submissionUpdateData. update_absent N. Qed.

Lemma internUpdateData_absent (env : Env) (b : Obj) (k : string) :
  ~ In k ["status"; "reviewedAt"; "rejectionReason"; "duration"; "reviewedBy"; "notes";
          "mentor"; "interviewDate"; "startDate"; "endDate"] ->
  InternStatus.internUpdateData env b !! k = None.
Proof. intros N. unfold InternStatus.internUpdateData. update_absent N. Qed.

Lemma collaborationUpdateData_absent (env : Env) (b : Obj) (k : string) :
  ~ In k ["status"; "reviewedAt"; "declineReason"; "partnershipStartDate";
          "organizationType"; "partnershipType"; "priority"; "reviewedBy"; "notes";
          "meetingDate"] ->
  CollaborationStatus.collaborationUpdateData env b !! k = None.
Proof. intros N. unfold CollaborationStatus.collaborationUpdateData. update_absent N. Qed.

Lemma newsSubmissionUpdateData_absent (env : Env) (b : Obj) (k : string) :
  ~ In k ["status"; "reviewedAt"; "publishedAt"; "rejectionReason"; "category";
          "reviewedBy"] ->
  NewsSubmissionStatus.submissionUpdateData env b !! k = None.
Proof. intros N. unfold NewsSubmissionStatus.submissionUpdateData. update_absent N. Qed.

(** X14: a status update never adds or removes a record and, whatever the
    request and its outcome, changes no path of any record other than the
    ones its handler may set (and [updatedAt]): not the name, the email,
    the amount, the reference or the [_id]. This holds for the nine
    handlers. *)
Theorem status_updates_confined (Contact : Model) (env : Env) (id : option N) (b : Obj)
    (db : Collection) (k : string) :
  k <> "updatedAt" ->
  (~ In k ["status"; "contactedAt"; "completedAt"; "paymentStatus"] ->
   let out := DonationController.updateDonationStatus env id b db in
   valuesOf k (snd out) = valuesOf k db
   /\ countDocuments (snd out) = countDocuments db)
  /\ (~ In k ["registrationStatus"; "notes"] ->
      let out := EventRegistrationController.updateRegistrationStatus env id b db in
      valuesOf k (snd out) = valuesOf k db
      /\ countDocuments (snd out) = countDocuments db)
  /\ (~ In k ["status"; "reviewedAt"; "approvedAt"; "rejectionReason"; "availability";
              "reviewedBy"; "notes"] ->
      let out := VolunteerStatus.updateVolunteerStatus env id b db in
      valuesOf k (snd out) = valuesOf k db
      /\ countDocuments (snd out) = countDocuments db)
  /\ (~ In k ["status"; "resolvedAt"; "priority"; "assignedTo"; "notes"] ->
      let out := ContactUsStatus.updateContactUsStatus env id b db in
      valuesOf k (snd out) = valuesOf k db
      /\ countDocuments (snd out) = countDocuments db)
  /\ (~ In k ["status"; "reviewedAt"; "featuredAt"; "rejectionReason"; "category";
              "reviewedBy"] ->
      let out := MediaController.updateSubmissionStatus env id b db in
      valuesOf k (snd out) = valuesOf k db
      /\ countDocuments (snd out) = countDocuments db)
  /\ (~ In k ["status"; "reviewedAt"; "publishedAt"; "rejectionReason"; "category";
              "reviewedBy"] ->
      let out := NewsSubmissionStatus.updateSubmissionStatus env id b db in
      valuesOf k (snd out) = valuesOf k db
      /\ countDocuments (snd out) = countDocuments db)
  /\ (~ In k ["status"; "reviewedAt"; "rejectionReason"; "duration"; "reviewedBy"; "notes";
              "mentor"; "interviewDate"; "startDate"; "endDate"] ->
      let out := InternStatus.updateInternStatus env id b db in
      valuesOf k (snd out) = valuesOf k db
      /\ countDocuments (snd out) = countDocuments db)
  /\ (~ In k ["status"; "reviewedAt"; "declineReason"; "partnershipStartDate";
              "organizationType"; "partnershipType"; "priority"; "reviewedBy"; "notes";
              "meetingDate"] ->
      let out := CollaborationStatus.updateCollaborationStatus env id b db in
      valuesOf k (snd out) = valuesOf k db
      /\ countDocuments (snd out) = countDocuments db)
  /\ (k <> "status" ->
      let out := ContactStatus.updateContactStatus Contact env id b db in
      valuesOf k (snd out) = valuesOf k db
      /\ countDocuments (snd out) = countDocuments db).
Proof.
  intros Nu. split; [|split; [|split; [|split; [|split; [|split; [|split; [|split]]]]]]];
    intros N.
  - unfold DonationController.updateDonationStatus. cbv zeta.
    destruct (size _ =? 0); [split; reflexivity|].
    apply (answerUpdate_keeps DonationModel.Donation env id _ db
             "Donation not found" "Donation status updated successfully" k);
      [apply donationUpdateData_absent; exact N
      |apply donationUpdateData_absent; cbn [In]; intuition discriminate
      |exact Nu].
  - unfold EventRegistrationController.updateRegistrationStatus. cbv zeta.
    destruct (negb _); [split; reflexivity|].
    apply (answerUpdate_keeps EventRegistrationModel.EventRegistration env id _ db
             "Registration not found" "Registration status updated successfully" k);
      [| |exact Nu].
    + rewrite !lookup_insert_ne by (intros <-; apply N; cbn [In]; tauto || exact (Nu eq_refl)).
      apply lookup_empty.
    + rewrite !lookup_insert_ne by discriminate. apply lookup_empty.
  - unfold VolunteerStatus.updateVolunteerStatus. cbv zeta.
    destruct (size _ =? 0); [split; reflexivity|].
    apply answerUpdate_keeps;
      [apply volunteerUpdateData_absent; exact N
      |apply volunteerUpdateData_absent; cbn [In]; intuition discriminate
      |exact Nu].
  - unfold ContactUsStatus.updateContactUsStatus. cbv zeta.
    destruct (size _ =? 0); [split; reflexivity|].
    apply answerUpdate_keeps;
      [apply contactUsUpdateData_absent; exact N
      |apply contactUsUpdateData_absent; cbn [In]; intuition discriminate
      |exact Nu].
  - unfold MediaController.updateSubmissionStatus. cbv zeta.
    destruct (size _ =? 0); [split; reflexivity|].
    apply answerUpdate_keeps;
      [apply submissionUpdateData_absent; exact N
      |apply submissionUpdateData_absent; cbn [In]; intuition discriminate
      |exact Nu].
  - unfold NewsSubmissionStatus.updateSubmissionStatus. cbv zeta.
    destruct (size _ =? 0); [split; reflexivity|].
    apply answerUpdate_keeps;
      [apply newsSubmissionUpdateData_absent; exact N
      |apply newsSubmissionUpdateData_absent; cbn [In]; intuition discriminate
      |exact Nu].
  - unfold InternStatus.updateInternStatus. cbv zeta.
    destruct (size _ =? 0); [split; reflexivity|].
    apply answerUpdate_keeps;
      [apply internUpdateData_absent; exact N
      |apply internUpdateData_absent; cbn [In]; intuition discriminate
      |exact Nu].
  - unfold CollaborationStatus.updateCollaborationStatus. cbv zeta.
    destruct (size _ =? 0); [split; reflexivity|].
    apply answerUpdate_keeps;
      [apply collaborationUpdateData_absent; exact N
      |apply collaborationUpdateData_absent; cbn [In]; intuition discriminate
      |exact Nu].
  - unfold ContactStatus.updateContactStatus. cbv zeta.
    destruct (negb _); [split; reflexivity|].
    apply answerUpdate_keeps; [| |exact Nu].
    + rewrite lookup_insert_ne by congruence. apply lookup_empty.
    + rewrite lookup_insert_ne by discriminate. apply lookup_empty.
Qed.

End UpdatesConfined.

(** ** Event registration: a status update and the notes *)

Section RegistrationNotes.
Context `{Engine}.
Import EventRegistrationController EventRegistrationModel.

(** The update of [updateRegistrationStatus] when no notes are sent, cast
    to the schema. *)
Lemma registration_update_cast (env : Env) (s : string) :
  castUpdate eventRegistrationSchema
    (<["registrationStatus" := Raw (JStr s)]>
       (<["notes" := Raw (JStr "")]> (<["updatedAt" := NewDate (now env)]> ∅)))
  = Some (<["registrationStatus" := FStr s]> (<["notes" := FStr ""]> ∅)).
Proof.
  unfold eventRegistrationSchema.
  cbn [castUpdate pathName pathType pathOptions path fullNamePath emailPath mobilePath].
  lookups. cbn [castAs castString applySetters fold_left applySetter].
  lookups. cbn [castAs castString applySetters fold_left applySetter].
  reflexivity.
Qed.

Lemma registration_update_valid (s : string) :
  inList s registrationStatusValues = true ->
  validateUpdate eventRegistrationSchema
    (<["registrationStatus" := FStr s]> (<["notes" := FStr ""]> ∅)) = true.
Proof.
  intros L. unfold registrationStatusValues in L.
  unfold validateUpdate. apply forallb_forall. intros p I.
  unfold eventRegistrationSchema in I. each_path I;
    cbn [pathName path fullNamePath emailPath mobilePath]; lookups;
    rewrite ?lookup_empty; try reflexivity;
    unfold validatePath; cbn [pathName pathOptions path forallb]; lookups;
    cbn [checkOption].
  rewrite L. reflexivity.
Qed.

(** X15: [updateRegistrationStatus] writes [notes || ''] with the status:
    a request with a listed status and no notes, for a record on file, is
    answered 200 and stores that record, in its place, with the new status
    and with empty notes, whatever notes it held; its other paths and the
    other records are kept. *)
Theorem registration_update_clears_notes (env : Env) (i : N) (b : Obj)
    (db : Collection) (d : Doc) (s : string) :
  prop b "registrationStatus" = JStr s ->
  In s ["confirmed"; "waitlist"; "cancelled"] ->
  truthy (prop b "notes") = false ->
  findById i db = Some d ->
  exists (l1 l2 : Collection) (d' : Doc),
    db = l1 ++ d :: l2
    /\ updateRegistrationStatus env (Some i) b db
       = (accept 200 "Registration status updated successfully", l1 ++ d' :: l2)
    /\ d' !! "registrationStatus" = Some (FStr s)
    /\ d' !! "notes" = Some (FStr "")
    /\ d' !! "updatedAt" = Some (FDate (now env))
    /\ (forall k, ~ In k ["registrationStatus"; "notes"; "updatedAt"] ->
        d' !! k = d !! k).
Proof.
  intros S L T F.
  assert (L' : inList s registrationStatusValues = true).
  { unfold inList. apply existsb_exists. exists s. split; [exact L|].
    apply String.eqb_refl. }
  set (d' := <["updatedAt" := FDate (now env)]>
               ((<["registrationStatus" := FStr s]> (<["notes" := FStr ""]> ∅)) ∪ d)).
  assert (Other : forall k, ~ In k ["registrationStatus"; "notes"; "updatedAt"] ->
                            d' !! k = d !! k).
  { intros k N. unfold d'.
    rewrite lookup_insert_ne by (intros <-; apply N; cbn [In]; tauto).
    apply lookup_union_r.
    rewrite !lookup_insert_ne by (intros <-; apply N; cbn [In]; tauto).
    apply lookup_empty. }
  assert (Id : idOf d' = i).
  { assert (Q : hasId i d = true) by (apply find_some in F; tauto).
    apply hasId_idOf in Q. unfold idOf. rewrite Other, Q; [reflexivity|].
    cbn [In]. intuition discriminate. }
  destruct (replaceFirst_split (hasId i) d d' db F) as (l1 & l2 & E & _ & R).
  exists l1, l2, d'. split; [exact E|]. split.
  - unfold updateRegistrationStatus. cbv zeta. rewrite S.
    change (includesStr registrationStatusValues (JStr s))
      with (inList s registrationStatusValues). rewrite L'.
    cbn [negb]. unfold orElse. rewrite T.
    unfold findByIdAndUpdate. cbn [schema EventRegistration].
    rewrite registration_update_cast, (registration_update_valid s L'), F.
    cbv zeta. fold d'. unfold replaceDoc. rewrite Id, R. reflexivity.
  - split; [|split; [|split]].
    + unfold d'. rewrite lookup_insert_ne by discriminate.
      erewrite lookup_union_Some_l; [reflexivity|]. apply lookup_insert_eq.
    + unfold d'. rewrite lookup_insert_ne by discriminate.
      erewrite lookup_union_Some_l; [reflexivity|].
      rewrite lookup_insert_ne by discriminate. apply lookup_insert_eq.
    + apply lookup_insert_eq.
    + exact Other.
Qed.

End RegistrationNotes.

(** ** Media submissions: the URL and the detected type *)

Section Includes.



Lemma includes_nil (c : ascii) (m : string) : Text.includes (String c m) "" = false.
Proof. reflexivity. Qed.











End Includes.

Section MediaType.
Import MediaSubmissionModel.

Lemma detectMediaType_type (d : Doc) (u : string) :
  d !! "mediaUrl" = Some (FStr u) ->
  d !! "mediaType" = Some (FStr "unknown") ->
  detectMediaType d !! "mediaType"
  = Some (FStr (if existsb (fun m => Text.includes m (Text.toLowerCase u)) videoMarks
                then "video"
                else if existsb (fun m => Text.includes m (Text.toLowerCase u)) imageMarks
                     then "image" else "unknown")).
Proof.
  intros U T. unfold detectMediaType. rewrite U, T.
  cbn [fieldIs String.eqb Ascii.eqb Bool.eqb andb].
  destruct (String.eqb_spec u "") as [->|N]; cbn [negb]; [exact T|].
  destruct (existsb _ videoMarks); [apply lookup_insert_eq|].
  destruct (existsb _ imageMarks); [apply lookup_insert_eq|exact T].
Qed.

(** X16: the hook detects the type once. It changes no path but
    [mediaType]; it leaves a submission alone whose type is not "unknown";
    detecting twice is detecting once; and a video mark wins over an image
    mark: a URL with "youtube", "youtu.be", "vimeo" or a video extension
    in it is a video whatever else it holds. *)
Theorem media_type_detection (d : Doc) :
  (forall k, k <> "mediaType" -> detectMediaType d !! k = d !! k)
  /\ (fieldIs "unknown" (d !! "mediaType") = false -> detectMediaType d = d)
  /\ detectMediaType (detectMediaType d) = detectMediaType d
  /\ (forall u m,
        d !! "mediaUrl" = Some (FStr u) ->
        d !! "mediaType" = Some (FStr "unknown") ->
        In m videoMarks -> Text.includes m (Text.toLowerCase u) = true ->
        detectMediaType d !! "mediaType" = Some (FStr "video")).
Proof.
  split; [intros k N; apply detectMediaType_other, N|].
  assert (Known : forall x : Doc,
             fieldIs "unknown" (x !! "mediaType") = false -> detectMediaType x = x).
  { intros x F. unfold detectMediaType. rewrite F.
    destruct (x !! "mediaUrl") as [[]|]; reflexivity. }
  split; [exact (Known d)|]. split.
  - assert (Cases : detectMediaType d = d
                     \/ fieldIs "unknown" (detectMediaType d !! "mediaType") = false).
    { unfold detectMediaType. destruct (d !! "mediaUrl") as [[|u| | | | |]|]; auto.
      destruct (_ && _); auto. cbv zeta.
      destruct (existsb _ videoMarks); [right; rewrite lookup_insert_eq; reflexivity|].
      destruct (existsb _ imageMarks); [right; rewrite lookup_insert_eq; reflexivity|].
      auto. }
    destruct Cases as [E|E]; [rewrite E; exact E | apply Known, E].
  - intros u m U T I Inc. rewrite (detectMediaType_type d u U T).
    assert (E : existsb (fun m => Text.includes m (Text.toLowerCase u)) videoMarks = true).
    { apply existsb_exists. exists m. auto. }
    rewrite E. reflexivity.
Qed.

End MediaType.

Section MediaUpload.
Context `{Engine} `{UrlParser}.
Import MediaController MediaSubmissionModel.

Lemma checkMediaUpload_rejects (b : Obj) (r : Response) :
  checkMediaUpload b = inl r -> code r = 400 \/ code r = 500.
Proof.
  unfold checkMediaUpload. intros K. split_tests K; try discriminate;
    injection K as <-; cbn; auto.
Qed.









(** X18: the media form answers 429 exactly when the submission passed the
    checks and a record of its email was created within the last hour;
    nothing is written then. *)
Theorem media_upload_guard (env : Env) (req : Request) (db : Collection) :
  (code (fst (submitMediaUpload env req db)) = 429
   <-> exists (c : Checked) (d : Doc) (t : Z),
         checkMediaUpload (body req) = inr c
         /\ In d db
         /\ d !! "email" = Some (FStr (email c))
         /\ d !! "createdAt" = Some (FDate t)
         /\ (now env - 60 * 60 * 1000 <= t)%Z)
  /\ (code (fst (submitMediaUpload env req db)) = 429 ->
      snd (submitMediaUpload env req db) = db).
Proof.
  unfold submitMediaUpload.
  destruct (checkMediaUpload (body req)) as [r0|c] eqn:K.
  { apply checkMediaUpload_rejects in K. cbn [fst snd].
    split; [split; [lia|intros (c & _ & _ & E & _); discriminate]|reflexivity]. }
  destruct (recentSubmission env (email c) db) as [d|] eqn:F; cbn [fst snd].
  - split; [|reflexivity]. split; [intros _|reflexivity].
    unfold recentSubmission in F. apply find_some in F as [I Q].
    apply andb_true_iff in Q as [Q1 Q2].
    apply fieldEq_str in Q1. unfold createdSince in Q2.
    destruct (d !! "createdAt") as [[| | | |t| |]|] eqn:T; try discriminate.
    exists c, d, t. apply Z.leb_le in Q2. auto.
  - cbv zeta.
    assert (N : code (fst (match create MediaSubmission env
                                   (list_to_map
                                      [("fullName", fullName c); ("email", JStr (email c));
                                       ("mediaUrl", mediaUrl c);
                                       ("description", description c);
                                       ("ipAddress", clientIp req);
                                       ("userAgent", orElse (userAgentHeader req) (JStr ""))])
                                   db with
                            | inr (_, db') =>
                                (accept 201 "Thank you for sharing your experience with MAD Foundation. Your media submission has been received successfully.", db')
                            | inl _ => (serverError, db)
                            end)) <> 429).
    { destruct (create _ _ _ _) as [|[]]; discriminate. }
    split; [|intros E; contradiction].
    split; [intros E; contradiction|].
    intros (c' & d & t & Ec & I & Em & Ct & Le). injection Ec as <-.
    exfalso. apply (findOne_none _ _ F) in I.
    unfold hasEmail, createdSince in I. rewrite Em, Ct in I.
    rewrite fieldEq_FStr, String.eqb_refl in I. cbn [andb] in I.
    apply Z.leb_gt in I. lia.
Qed.

End MediaUpload.

(* ===================================================================== *)
(** * The handlers at work *)
(* ===================================================================== *)

(** The statements above hold for every engine; here the handlers run on
    the sample requests with the integer engine. *)
#[local] Existing Instance IntegerEngine.engine.

(** Closes an equation between closed terms by evaluating both sides. *)
Ltac computed :=
  lazymatch goal with
  | |- ?l = ?r => exact (@eq_refl _ r <: l = r)
  end.

(** The sample stores are what the handlers answer 201 with. *)
Lemma sample_stores :
  DonationController.submitDonationForm Samples.env1 Samples.donation []
  = (accept 201 "Thank you for your generous intention! Our team will contact you with donation details shortly.",
     Samples.donationStore)
  /\ ContactUsController.submitContactUs Samples.env1 Samples.contact []
     = (accept 201 "Thank you for contacting us! We have received your message and will get back to you soon.",
        Samples.contactStore)
  /\ EventRegistrationController.registerForEvent Samples.env1 Samples.registration []
     = (accept 201 "Thank you for submitting your response. Your response has been submitted successfully.",
        Samples.registrationStore)
  /\ NewsController.subscribeNewsletter Samples.env1 Samples.subscription []
     = (accept 201 "Thank you for subscribing! Check your email for confirmation.",
        Samples.subscribedStore)
  /\ NewsController.unsubscribeNewsletter Samples.env2 (randomHex Samples.env1)
       Samples.subscribedStore
     = (accept 200 "You have been successfully unsubscribed from our newsletter.",
        Samples.unsubscribedStore).
Proof. repeat split; computed. Qed.

(** C8, counterexample: the boolean [true] is not a number, converts to 1
    and is accepted; the donation form stores it as an amount of 1. *)
Lemma boolean_amount_accepted :
  DonationController.amountValid
    (DonationController.validateDonationAmount (JBool true)) = true
  /\ code (fst (DonationController.submitDonationForm
                  Samples.env1 Samples.booleanDonation [])) = 201
  /\ valuesOf "donationAmount"
       (snd (DonationController.submitDonationForm
               Samples.env1 Samples.booleanDonation []))
     = [Some (FNum (Fin 1))].
Proof. repeat split; computed. Qed.

(** C1, counterexample: a status that is not listed, sent with a listed
    payment status, is answered 200, not 400. *)
Lemma unlisted_status_answered_200 :
  includesStr DonationController.statusValues (prop Samples.unlistedStatus "status") = false
  /\ code (fst (DonationController.updateDonationStatus
                  Samples.env2 (Some 1%N) Samples.unlistedStatus Samples.donationStore))
     = 200
  /\ valuesOf "status" Samples.donationStore = [Some (FStr "pending")]
  /\ valuesOf "status"
       (snd (DonationController.updateDonationStatus
               Samples.env2 (Some 1%N) Samples.unlistedStatus Samples.donationStore))
     = [Some (FStr "pending")]
  /\ valuesOf "paymentStatus"
       (snd (DonationController.updateDonationStatus
               Samples.env2 (Some 1%N) Samples.unlistedStatus Samples.donationStore))
     = [Some (FStr "failed")].
Proof. repeat split; computed. Qed.


(** C2, counterexample: the token of a subscriber that was unsubscribed
    is answered 200 when used again, not 404. *)
Lemma unsubscribed_token_answered_200 :
  valuesOf "status" Samples.unsubscribedStore = [Some (FStr "unsubscribed")]
  /\ valuesOf "unsubscribeToken" Samples.unsubscribedStore
     = [Some (FStr (randomHex Samples.env1))]
  /\ code (fst (NewsController.unsubscribeNewsletter
                  Samples.env3 (randomHex Samples.env1) Samples.unsubscribedStore))
     = 200.
Proof. repeat split; computed. Qed.


(** C5, counterexample: a registration with the expertise values
    [Cooking], [Education] and the number 7 is accepted; [Education] is
    stored. *)
Lemma unlisted_expertise_accepted :
  includesStr VolunteerController.validExpertise (JStr "Cooking") = false
  /\ code (fst (VolunteerController.registerVolunteer
                  Samples.env1 Samples.volunteer [])) = 201
  /\ valuesOf "expertise"
       (snd (VolunteerController.registerVolunteer Samples.env1 Samples.volunteer []))
     = [Some (FList ["Education"])].
Proof. repeat split; computed. Qed.

Lemma unlisted_expertise_dropped_witness :
  exists d : Doc,
    snd (VolunteerController.registerVolunteer
           Samples.env1
           (withField "expertise" (JArr [JStr "Cooking"; JStr " Advocacy "])
                      Samples.volunteer) [])
    = [] ++ [d]
    /\ d !! "expertise" = Some (FList ["Advocacy"]).
Proof.
  destruct (unlisted_expertise_dropped Samples.env1 Samples.volunteer []
              [JStr "Cooking"; JStr " Advocacy "]) as (_ & _ & S).
  destruct (S _ _ (surjective_pairing _)) as (d & E & X).
  - computed.
  - exists d. rewrite E. split; [reflexivity|]. rewrite X. computed.
Defined.

Lemma contact_us_duplicate_rejected_witness :
  countDocuments Samples.contactStore = 1
  /\ (let '(r, db') := ContactUsController.submitContactUs
                          Samples.env2 Samples.contact Samples.contactStore in
      code r = 429 /\ success r = false /\ db' = Samples.contactStore
      /\ countDocuments db' = countDocuments Samples.contactStore).
Proof.
  split; [reflexivity|].
  apply (contact_us_duplicate_rejected Samples.env2 Samples.contact Samples.contactStore
           {| ContactUsController.fullName := JStr "Asha Rao";
              ContactUsController.email := "asha.rao@example.org";
              ContactUsController.phone := "919876543210";
              ContactUsController.subject := JStr "partnership";
              ContactUsController.message := JStr "We would like to partner with you." |}
           (hd ∅ Samples.contactStore) 1700000000000).
  - computed.
  - left. reflexivity.
  - computed.
  - computed.
  - vm_compute. discriminate.
Defined.

Lemma contact_us_priority_witness :
  exists d : Doc,
    Samples.contactStore = [] ++ [d]
    /\ d !! "subject" = Some (FStr "partnership")
    /\ d !! "priority" = Some (FStr "high").
Proof.
  destruct (contact_us_priority Samples.env1 Samples.contact [] Samples.contactStore
              (accept 201 "Thank you for contacting us! We have received your message and will get back to you soon."))
    as ((d & s & E & _ & S & P) & _).
  - computed.
  - reflexivity.
  - exists d. split; [exact E|].
    pose proof (f_equal (hd ∅) E) as Hd. cbn [hd app] in Hd. subst d.
    assert (X : Some (FStr s) = Some (FStr "partnership")).
    { rewrite <- S. computed. }
    injection X as ->. split; [exact S|exact P].
Defined.

(** The status updates of the internship and collaboration controllers
    read dates; the sample runs use the parser of the samples. *)
#[local] Existing Instance MoreSamples.numberDates.

Lemma unlisted_status_not_written_witness :
  (code (fst (DonationController.updateDonationStatus
                Samples.env2 (Some 1%N) Samples.nothingListed Samples.donationStore)) = 400
   /\ snd (DonationController.updateDonationStatus
             Samples.env2 (Some 1%N) Samples.nothingListed Samples.donationStore)
      = Samples.donationStore)
  /\ exists (l1 l2 : Collection) (d' : Doc),
      Samples.donationStore = l1 ++ hd ∅ Samples.donationStore :: l2
      /\ DonationController.updateDonationStatus
           Samples.env2 (Some 1%N) Samples.unlistedStatus Samples.donationStore
         = (accept 200 "Donation status updated successfully", l1 ++ d' :: l2)
      /\ d' !! "paymentStatus" = Some (FStr "failed")
      /\ d' !! "status" = hd ∅ Samples.donationStore !! "status".
Proof.
  pose proof (unlisted_status_not_written ContactUsModel.ContactUs Samples.env2 (Some 1%N)
                Samples.nothingListed Samples.donationStore) as [D _].
  pose proof (unlisted_status_not_written ContactUsModel.ContactUs Samples.env2 (Some 1%N)
                Samples.unlistedStatus Samples.donationStore) as [_ E].
  split.
  - specialize (D {| handler := DonationController.updateDonationStatus;
                     statusProperty := "status";
                     enumeration := DonationController.statusValues;
                     otherField := fun b =>
                       presentIn DonationController.paymentStatusValues b
                         "paymentStatus" |}).
    cbn [handler statusProperty enumeration otherField] in D.
    assert (I : In {| handler := DonationController.updateDonationStatus;
                      statusProperty := "status";
                      enumeration := DonationController.statusValues;
                      otherField := fun b =>
                        presentIn DonationController.paymentStatusValues b
                          "paymentStatus" |}
                   (statusUpdates ContactUsModel.ContactUs))
      by (left; reflexivity).
    assert (U : includesStr DonationController.statusValues
                  (prop Samples.nothingListed "status") = false)
      by computed.
    specialize (D I U).
    destruct (DonationController.updateDonationStatus
                Samples.env2 (Some 1%N) Samples.nothingListed Samples.donationStore)
      as [r db'].
    destruct D as (_ & _ & C & _ & K & _).
    assert (C400 : code r = 400).
    { apply Nat.eqb_eq. rewrite C. computed. }
    split; [exact C400|]. apply K. rewrite C400. discriminate.
  - specialize (E "failed").
    assert (F : findById 1%N Samples.donationStore = Some (hd ∅ Samples.donationStore))
      by computed.
    rewrite F in E.
    destruct E as (l1 & l2 & d' & E1 & E2 & E3 & _ & E4).
    + computed.
    + computed.
    + cbn [In DonationController.paymentStatusValues]. tauto.
    + exists l1, l2, d'. split; [exact E1|]. split; [exact E2|]. split; [exact E3|].
      apply E4; discriminate.
Defined.

Lemma unsubscribe_by_token_witness :
  (exists (l1 l2 : Collection) (sub' : Doc),
      Samples.unsubscribedStore = l1 ++ hd ∅ Samples.unsubscribedStore :: l2
      /\ NewsController.unsubscribeNewsletter
           Samples.env3 (randomHex Samples.env1) Samples.unsubscribedStore
         = (accept 200 "You have been successfully unsubscribed from our newsletter.",
            l1 ++ sub' :: l2)
      /\ sub' !! "status" = Some (FStr "unsubscribed")
      /\ sub' !! "unsubscribeToken" = Some (FStr (randomHex Samples.env1)))
  /\ NewsController.unsubscribeNewsletter Samples.env3 "0000" Samples.unsubscribedStore
     = (reject 404 "Invalid or expired unsubscribe link", Samples.unsubscribedStore).
Proof.
  assert (T : randomHex Samples.env1 <> "") by discriminate.
  assert (T0 : "0000" <> "") by discriminate.
  assert (D : distinctIds Samples.unsubscribedStore = true) by computed.
  destruct (unsubscribe_by_token Samples.env3 (randomHex Samples.env1)
              Samples.unsubscribedStore T D) as (A & _).
  destruct (unsubscribe_by_token Samples.env3 "0000" Samples.unsubscribedStore T0 D)
    as (_ & B & _).
  split.
  - destruct (A (hd ∅ Samples.unsubscribedStore))
      as (l1 & l2 & sub' & E & R & _ & S & K & _).
    + computed.
    + computed.
    + exists l1, l2, sub'. split; [exact E|]. split; [exact R|]. split; [exact S|exact K].
  - apply B. computed.
Defined.

Lemma resubscribe_reactivates_witness :
  exists (l1 l2 : Collection) (sub' : Doc),
    Samples.unsubscribedStore = l1 ++ hd ∅ Samples.unsubscribedStore :: l2
    /\ NewsController.subscribeNewsletter
         Samples.env3 Samples.subscription Samples.unsubscribedStore
       = (accept 200 "Welcome back! Your subscription has been reactivated.",
          l1 ++ sub' :: l2)
    /\ sub' !! "status" = Some (FStr "active")
    /\ sub' !! "subscribedAt" = Some (FDate (now Samples.env3))
    /\ countDocuments (l1 ++ sub' :: l2) = 1.
Proof.
  destruct (resubscribe_reactivates Samples.env3 Samples.subscription
              Samples.unsubscribedStore "reader@example.org"
              (hd ∅ Samples.unsubscribedStore))
    as (l1 & l2 & sub' & E & R & _ & _ & S & T & _ & _ & _ & N).
  - computed.
  - computed.
  - computed.
  - computed.
  - computed.
  - exists l1, l2, sub'. split; [exact E|]. split; [exact R|]. split; [exact S|].
    split; [exact T|]. rewrite N. reflexivity.
Defined.

(** C7, counterexample: after the registration for event 7, the same
    request for the distinct [eventId] ['7.9'] is answered 409, for the
    [eventId] 0 it is answered 400, and for ['abc'] 500: none is
    accepted. *)
Lemma other_event_not_accepted :
  EventRegistrationController.registerForEvent Samples.env1 Samples.registration []
  = (accept 201 "Thank you for submitting your response. Your response has been submitted successfully.",
     Samples.registrationStore)
  /\ prop (body Samples.registration) "eventId" = JNum (ofZ 7)
  /\ EventRegistrationController.registerForEvent
       Samples.env2 (withField "eventId" (JStr "7.9") Samples.registration)
       Samples.registrationStore
     = (reject 409 "You are already registered for this event", Samples.registrationStore)
  /\ EventRegistrationController.registerForEvent
       Samples.env2 (withField "eventId" (JNum (ofZ 0)) Samples.registration)
       Samples.registrationStore
     = (reject 400 "All mandatory fields are required", Samples.registrationStore)
  /\ EventRegistrationController.registerForEvent
       Samples.env2 (withField "eventId" (JStr "abc") Samples.registration)
       Samples.registrationStore
     = (reject 500 "Internal server error. Please try again later.",
        Samples.registrationStore).
Proof.
  split; [computed|]. split; [computed|]. split; [computed|]. split; computed.
Qed.

Lemma one_registration_per_event_witness :
  EventRegistrationController.registerForEvent
    Samples.env2 MoreSamples.sameEventAgain Samples.registrationStore
  = (reject 409 "You are already registered for this event", Samples.registrationStore)
  /\ exists d2 : Doc,
      EventRegistrationController.registerForEvent
        Samples.env2 (withField "eventId" (JStr "8") Samples.registration)
        Samples.registrationStore
      = (accept 201 "Thank you for submitting your response. Your response has been submitted successfully.",
         Samples.registrationStore ++ [d2])
      /\ d2 !! "eventId" = Some (FNum (ofZ 8)).
Proof.
  destruct (one_registration_per_event Samples.env1 Samples.env2
              Samples.registration [] Samples.registrationStore
              (accept 201 "Thank you for submitting your response. Your response has been submitted successfully."))
    as ((c1 & d1 & K1 & E1 & A) & B & _).
  - computed.
  - reflexivity.
  - split.
    + destruct (EventRegistrationController.checkRegistration
                  (body MoreSamples.sameEventAgain)) as [r2|c2] eqn:K2.
      { assert (P : match EventRegistrationController.checkRegistration
                            (body MoreSamples.sameEventAgain) with
                    | inl _ => false
                    | inr _ => true
                    end = true) by computed.
        rewrite K2 in P. discriminate. }
      apply (A MoreSamples.sameEventAgain c2 Samples.registrationStore K2).
      * assert (P1 : match EventRegistrationController.checkRegistration
                             (body Samples.registration) with
                     | inl _ => ""
                     | inr c => EventRegistrationController.email c
                     end = "meera@example.org") by computed.
        assert (P2 : match EventRegistrationController.checkRegistration
                             (body MoreSamples.sameEventAgain) with
                     | inl _ => ""
                     | inr c => EventRegistrationController.email c
                     end = "meera@example.org") by computed.
        rewrite K1 in P1. rewrite K2 in P2. congruence.
      * computed.
      * rewrite E1. left. reflexivity.
    + destruct (B (JStr "8") (hd ∅ Samples.registrationStore)) as (d2 & E & _ & V).
      * computed.
      * reflexivity.
      * computed.
      * computed.
      * intros x [].
      * intros x [<-|[]]. computed.
      * exists d2. split; [exact E|]. rewrite V. computed.
Defined.

(** ** The further properties on the sample requests *)

#[local] Existing Instance MoreSamples.schemeParser.


Lemma subscription_life_cycle_witness :
  NewsController.subscribeNewsletter Samples.env2 Samples.subscription
    Samples.subscribedStore
  = (reject 400 "This email is already subscribed to our newsletter",
     Samples.subscribedStore)
  /\ exists d' : Doc,
      NewsController.unsubscribeNewsletter Samples.env2 (randomHex Samples.env1)
        Samples.subscribedStore
      = (accept 200 "You have been successfully unsubscribed from our newsletter.",
         [] ++ [d'])
      /\ d' !! "status" = Some (FStr "unsubscribed").
Proof.
  destruct (subscription_life_cycle Samples.env1 Samples.env2 Samples.subscription []
              Samples.subscribedStore
              (fst (NewsController.subscribeNewsletter
                      Samples.env1 Samples.subscription [])))
    as (d & _ & _ & _ & _ & Again & Uns).
  - computed.
  - computed.
  - split; [exact Again|].
    destruct Uns as (d' & E & _ & St & _).
    + discriminate.
    + intros x [].
    + exists d'. split; [exact E|exact St].
Defined.

Lemma standing_subscriber_not_written_witness :
  NewsController.subscribeNewsletter Samples.env3 Samples.subscription
    Samples.subscribedStore
  = (reject 400 "This email is already subscribed to our newsletter",
     Samples.subscribedStore).
Proof.
  destruct (standing_subscriber_not_written Samples.env3 Samples.subscription
              Samples.subscribedStore "reader@example.org"
              (hd ∅ Samples.subscribedStore)) as [_ A].
  - computed.
  - computed.
  - computed.
  - apply A. computed.
Defined.

Lemma donation_recorded_witness :
  exists d : Doc,
    Samples.donationStore = [] ++ [d]
    /\ d !! "mobile" = Some (FStr "919876543210")
    /\ d !! "donationReference" = Some (FStr "DON-00000000-4FZY").
Proof.
  destruct (donation_recorded Samples.env1 Samples.donation [] Samples.donationStore
              (fst (DonationController.submitDonationForm
                      Samples.env1 Samples.donation [])))
    as (_ & _ & R).
  - computed.
  - destruct R as (d & E & _ & _ & _ & Ref & _ & Mob & _).
    + computed.
    + exists d. split; [exact E|]. split.
      * rewrite Mob. computed.
      * rewrite Ref. computed.
Defined.

Lemma contact_us_429_needs_recent_witness :
  exists (d : Doc) (t : Z),
    In d Samples.contactStore
    /\ d !! "createdAt" = Some (FDate t)
    /\ (now Samples.env2 - 15 * 60 * 1000 <= t)%Z.
Proof.
  destruct (contact_us_429_needs_recent Samples.env2 Samples.contact Samples.contactStore
              (snd (ContactUsController.submitContactUs
                      Samples.env2 Samples.contact Samples.contactStore))
              (fst (ContactUsController.submitContactUs
                      Samples.env2 Samples.contact Samples.contactStore)))
    as (_ & c & d & t & _ & I & _ & Ct & Le).
  - computed.
  - computed.
  - exists d, t. auto.
Defined.

Lemma email_of_wrong_type_witness :
  DonationController.submitDonationForm Samples.env1 MoreSamples.booleanEmail
    Samples.donationStore
  = (serverError, Samples.donationStore).
Proof.
  assert (P : prop (body MoreSamples.booleanEmail) "email" = JBool true) by computed.
  destruct (email_of_wrong_type Samples.env1 MoreSamples.booleanEmail
              Samples.donationStore) as (D & _).
  - rewrite P. reflexivity.
  - intros s. rewrite P. discriminate.
  - etransitivity; [exact D|]. computed.
Defined.

Lemma other_properties_not_read_witness :
  DonationController.submitDonationForm Samples.env1
    (withField "status" (JStr "completed") Samples.donation) []
  = DonationController.submitDonationForm Samples.env1 Samples.donation [].
Proof.
  assert (N : ~ In "status" ["fullName"; "email"; "mobile"; "donationAmount";
                             "donationType"; "message"])
    by (cbn [In]; intuition discriminate).
  exact (proj1 (other_properties_not_read Samples.env1 Samples.donation []
                  "status" (JStr "completed")) N).
Defined.

Lemma registration_disability_consistent_witness :
  exists d : Doc,
    snd (EventRegistrationController.registerForEvent
           Samples.env1 MoreSamples.typeWithoutDisability [])
    = [] ++ [d]
    /\ d !! "registrationStatus" = Some (FStr "confirmed")
    /\ (d !! "disabilityType" = Some (FStr "")
        \/ d !! "isPersonWithDisability" = Some (FStr "Yes")).
Proof.
  destruct (registration_disability_consistent Samples.env1
              MoreSamples.typeWithoutDisability []
              (snd (EventRegistrationController.registerForEvent
                      Samples.env1 MoreSamples.typeWithoutDisability []))
              (fst (EventRegistrationController.registerForEvent
                      Samples.env1 MoreSamples.typeWithoutDisability [])))
    as (d & E & St & _ & [[_ No]|[Yes _]] & _).
  - computed.
  - computed.
  - exists d. auto.
  - exists d. auto.
Defined.

Lemma status_updates_confined_witness :
  valuesOf "email"
    (snd (DonationController.updateDonationStatus
            Samples.env2 (Some 1%N) Samples.unlistedStatus Samples.donationStore))
  = valuesOf "email" Samples.donationStore
  /\ countDocuments
       (snd (DonationController.updateDonationStatus
               Samples.env2 (Some 1%N) Samples.unlistedStatus Samples.donationStore))
     = countDocuments Samples.donationStore.
Proof.
  assert (N : ~ In "email" ["status"; "contactedAt"; "completedAt"; "paymentStatus"])
    by (cbn [In]; intuition discriminate).
  assert (U : "email" <> "updatedAt") by discriminate.
  exact (proj1 (status_updates_confined ContactUsModel.ContactUs Samples.env2 (Some 1%N)
                  Samples.unlistedStatus Samples.donationStore "email" U) N).
Defined.

Lemma registration_update_clears_notes_witness :
  exists (l1 l2 : Collection) (d' : Doc),
    Samples.registrationStore = l1 ++ hd ∅ Samples.registrationStore :: l2
    /\ EventRegistrationController.updateRegistrationStatus
         Samples.env2 (Some 1%N) MoreSamples.waitlisted Samples.registrationStore
       = (accept 200 "Registration status updated successfully", l1 ++ d' :: l2)
    /\ d' !! "registrationStatus" = Some (FStr "waitlist")
    /\ d' !! "notes" = Some (FStr "").
Proof.
  destruct (registration_update_clears_notes Samples.env2 1%N MoreSamples.waitlisted
              Samples.registrationStore (hd ∅ Samples.registrationStore) "waitlist")
    as (l1 & l2 & d' & E & R & St & Nt & _).
  - computed.
  - cbn [In]. tauto.
  - computed.
  - computed.
  - exists l1, l2, d'. split; [exact E|]. split; [exact R|]. split; [exact St|exact Nt].
Defined.

